(** * Site lifecycle operations of the agent (src/agent/site.py)

    A shallow embedding of the [Site] class: the steps and jobs are
    state-passing functions over an explicit [world], the calls to the
    collaborators (command runner, bench, proxy, clock) are logged in a
    trace and answered by an [environment].  The decorators [@step] and
    [@job] of agent/job.py record a run and re-raise what the method raises;
    they are left out, a method stands for its body. *)

From Stdlib Require Import ZArith NArith List String Ascii Lia.
From stdpp Require Import gmap strings list.
From Equations Require Import Equations.
From Equations.Prop Require Import Logic.
Import ListNotations.

Local Open Scope string_scope.
Local Open Scope list_scope.
Local Open Scope Z_scope.

(** ** Python strings *)

Module Py.

(** [s.endswith(suffix)]: [suffix] is [s] itself or a suffix of its tail. *)
Fixpoint endswith (s suffix : string) : bool :=
  String.eqb s suffix
  || match s with
     | EmptyString => false
     | String _ s' => endswith s' suffix
     end.

(** [s.startswith(p)] *)
Definition startswith (s p : string) : bool := String.prefix p s.

(** [s.replace(old, new)] for a non-empty [old]: scan from the left, replace
    every non-overlapping occurrence.  [skip] counts the characters of an
    occurrence that was just replaced and are still to be passed over. *)
Fixpoint replace_from (skip : nat) (old new s : string) : string :=
  match s with
  | EmptyString => EmptyString
  | String c s' =>
      match skip with
      | S k => replace_from k old new s'
      | O =>
          if String.prefix old s
          then new +:+ replace_from (String.length old - 1) old new s'
          else String c (replace_from O old new s')
      end
  end.

(** With an empty [old], Python inserts [new] before every character and at
    the end. *)
Fixpoint intersperse_str (new s : string) : string :=
  match s with
  | EmptyString => new
  | String c s' => new +:+ String c (intersperse_str new s')
  end.

Definition replace (s old new : string) : string :=
  match old with
  | EmptyString => intersperse_str new s
  | _ => replace_from O old new s
  end.

(** [s.split(sep)] for a one-character separator; [cur] is the piece being
    read.  The result is never empty: [split "" sep] is [[""]]. *)
Fixpoint split_from (sep : ascii) (cur : string) (s : string) : list string :=
  match s with
  | EmptyString => [cur]
  | String c s' =>
      if Ascii.eqb c sep
      then cur :: split_from sep EmptyString s'
      else split_from sep (cur +:+ String c EmptyString) s'
  end.

Definition split (s : string) (sep : ascii) : list string :=
  split_from sep EmptyString s.

(** Truthiness of a string: the empty string is false. *)
Definition truthy (s : string) : bool := negb (String.eqb s "").

(** [os.path.join(a, b)] on POSIX. *)
Definition path_join (a b : string) : string :=
  if startswith b "/" then b
  else if String.eqb a "" || endswith a "/" then a +:+ b
  else a +:+ "/" +:+ b.

(** [os.path.basename(p)]: what follows the last slash. *)
Fixpoint basename_from (cur : string) (p : string) : string :=
  match p with
  | EmptyString => cur
  | String c p' =>
      if Ascii.eqb c "/"%char
      then basename_from EmptyString p'
      else basename_from (cur +:+ String c EmptyString) p'
  end.

Definition basename (p : string) : string := basename_from EmptyString p.

End Py.

(** ** JSON values, as [json.load] returns them *)

#[local] Set Warnings "-register-all".

Inductive json :=
| JNull
| JBool (b : bool)
| JInt (n : Z)
| JStr (s : string)
| JArr (items : list json)
| JObj (members : list (string * json)).

(** ** Exceptions and results *)

(** What a command reports: the captured output and how long the call took
    (milliseconds of wall-clock time). *)
Record command_data := { output : string; duration : N }.

Inductive exn :=
| AgentException (data : command_data)
| ValueError (msg : string)
| TypeError (msg : string)
| OtherError (cls msg : string).

Definition exn_name (e : exn) : string :=
  match e with
  | AgentException _ => "AgentException"
  | ValueError _ => "ValueError"
  | TypeError _ => "TypeError"
  | OtherError cls _ => cls
  end.

Inductive result (A : Type) :=
| Ok (a : A)
| Raise (e : exn).
Arguments Ok {A} a.
Arguments Raise {A} e.

Definition is_ok {A} (r : result A) : bool :=
  match r with Ok _ => true | Raise _ => false end.

(** ** The site and its collaborators *)

Record Bench := {
  sites_directory : string;
  bench_host : string
}.

(** The attributes [Site.__init__] sets. *)
Record Site := {
  name : string;
  bench : Bench;
  directory : string;
  backup_directory : string;
  database : string;
  user : string;
  password : string;
  host : string
}.

(** What [bench.download_files] returns. *)
Record downloaded_files := {
  dl_directory : string;
  dl_database : string;
  dl_public : string;
  dl_private : string
}.

(** One entry of a directory, with what [os.path.getmtime] and [os.stat]
    report for it. *)
Record file_entry := {
  file_name : string;
  file_mtime : Z;
  file_size : Z
}.

(** Calls that leave the process, in the order they are made. *)
Inductive event :=
| DockerExecute (command : string)
| Execute (command : string)
| CreateMariadbUser (site root_password db : string)
| DropMariadbUser (site root_password db : string)
| DownloadFiles (site db_url public_url private_url : string)
| DeleteDownloadedFiles (dir : string)
| SetupNginx
| ReloadNginx
| Sleep (seconds : Z).

(** Modelled from the spec: the Command Runner of agent/base.py,
    "execute(commandLine, optionalStdin) -> {output, exitStatus}; fails with
    a CommandFailure carrying captured stdout/stderr and exit code".  A
    command either returns its data or raises [AgentException] with the data
    as payload. *)
Inductive command_outcome :=
| Returned (data : command_data)
| Failed (data : command_data).

(** The answers of the collaborators.  Each one sees the calls made so far,
    the last of which is the call being answered. *)
Record environment := {
  on_command : list event -> command_outcome;
  on_create_mariadb_user : list event -> result (string * string * string);
  on_drop_mariadb_user : list event -> result unit;
  on_download_files : list event -> result downloaded_files;
  on_delete_downloaded_files : list event -> result unit;
  on_setup_nginx : list event -> result unit;
  on_reload_nginx : list event -> result unit;
  (** content of <site>/private/backups, in [os.listdir] order *)
  on_listdir_backups : list event -> list file_entry;
  (** [json.loads] on the output of frappe.get_installed_apps: the
      array of app names, or the error it raises *)
  on_json_loads : string -> result (list string)
}.

Record world := {
  trace : list event;
  (** wall clock, in milliseconds *)
  clock : Z;
  (** content of site_config.json *)
  site_config : gmap string json;
  (** the staging directory .migrate as this process leaves it: [None] when
      it does not exist, else the files it found or put there (what the
      shell redirections of commands write is not tracked) *)
  staging : option (list string)
}.

Definition log (ev : event) (w : world) : world :=
  {| trace := trace w ++ [ev]; clock := clock w;
     site_config := site_config w; staging := staging w |}.

Definition tick (ms : Z) (w : world) : world :=
  {| trace := trace w; clock := clock w + ms;
     site_config := site_config w; staging := staging w |}.

Definition write_config (doc : gmap string json) (w : world) : world :=
  {| trace := trace w; clock := clock w;
     site_config := doc; staging := staging w |}.

Definition set_staging (d : option (list string)) (w : world) : world :=
  {| trace := trace w; clock := clock w;
     site_config := site_config w; staging := d |}.

(** ** State and exceptions *)

Definition M (A : Type) : Type := world -> result A * world.

Definition ret {A} (a : A) : M A := fun w => (Ok a, w).

Definition raise {A} (e : exn) : M A := fun w => (Raise e, w).

Definition bind {A B} (m : M A) (k : A -> M B) : M B :=
  fun w =>
    match m w with
    | (Ok a, w') => k a w'
    | (Raise e, w') => (Raise e, w')
    end.

Declare Scope py_scope.
Delimit Scope py_scope with py.
Notation "x <- m ;; k" := (bind m (fun x => k))
  (at level 100, m at next level, right associativity) : py_scope.
Notation "m ;; k" := (bind m (fun _ => k))
  (at level 100, right associativity) : py_scope.
Local Open Scope py_scope.

(** [try: body finally: cleanup].  The cleanup runs on both exits; the
    value or exception of the body is kept unless the cleanup raises. *)
Definition try_finally {A} (body : M A) (cleanup : M unit) : M A :=
  fun w =>
    let (r, w1) := body w in
    match cleanup w1 with
    | (Ok _, w2) => (r, w2)
    | (Raise e, w2) => (Raise e, w2)
    end.

(** A call to a collaborator: log it, then take the answer. *)
Definition call {A} (ev : event) (answer : list event -> result A) : M A :=
  fun w => let w' := log ev w in (answer (trace w'), w').

(** A pure computation that may raise. *)
Definition lift {A} (r : result A) : M A := fun w => (r, w).

(** [for x in xs: acc = body acc x] *)
Fixpoint for_fold {A S} (xs : list A) (body : S -> A -> M S) (acc : S)
  : M S :=
  match xs with
  | [] => ret acc
  | x :: xs' => acc' <- body acc x ;; for_fold xs' body acc'
  end.

(** [for x in xs: body x] *)
Fixpoint for_each {A} (xs : list A) (body : A -> M unit) : M unit :=
  match xs with
  | [] => ret tt
  | x :: xs' => body x ;; for_each xs' body
  end.

(** ** The Site class *)

Section SiteMethods.

Context (env : environment) (self : Site).

(** A command handed to the Command Runner.  The call takes the time the
    runner reports. *)
Definition run_command (ev : event) : M command_data :=
  fun w =>
    let w1 := log ev w in
    match on_command env (trace w1) with
    | Returned d => (Ok d, tick (Z.of_N (duration d)) w1)
    | Failed d => (Raise (AgentException d), tick (Z.of_N (duration d)) w1)
    end.

(** [Base.execute(command)] *)
Definition execute (command : string) : M command_data :=
  run_command (Execute command).

(** The command line [Site.bench_execute] hands to the bench. *)
Definition bench_command (command : string) : string :=
  "bench --site " +:+ name self +:+ " " +:+ command.

(** [Site.bench_execute(command)] *)
Definition bench_execute (command : string) : M command_data :=
  run_command (DockerExecute (bench_command command)).

(** Modelled from the spec: the [config] property of agent/base.py,
    "read() -> Document", reads the current document fresh. *)
Definition config : M (gmap string json) :=
  fun w => (Ok (site_config w), w).

(** Modelled from the spec: [setconfig] of agent/base.py persists the
    document with a single file write. *)
Definition setconfig (value : gmap string json) : M unit :=
  fun w => (Ok tt, write_config value w).

(** [dict.update(value)]: the keys of [value] overwrite. *)
Definition dict_update (d value : gmap string json) : gmap string json :=
  value ∪ d.

(** [for key in remove: d.pop(key, None)] *)
Definition pop_all (remove : list string) (d : gmap string json)
  : gmap string json :=
  foldl (fun acc key => delete key acc) d remove.

(** Truthiness of the optional list [remove]: [None] and [[]] are false. *)
Definition list_truthy {A} (l : option (list A)) : bool :=
  match l with
  | Some (_ :: _) => true
  | _ => false
  end.

(** [Site.update_config(value, remove=None)] *)
Definition update_config (value : gmap string json)
    (remove : option (list string)) : M unit :=
  new_config <- config ;;
  let new_config := dict_update new_config value in
  let new_config :=
    if list_truthy remove
    then pop_all (default [] remove) new_config
    else new_config in
  setconfig new_config.

(** *** Calls to the bench and the proxy *)

Definition create_mariadb_user (site root_password db : string)
  : M (string * string * string) :=
  call (CreateMariadbUser site root_password db)
       (on_create_mariadb_user env).

Definition drop_mariadb_user (site root_password db : string) : M unit :=
  call (DropMariadbUser site root_password db) (on_drop_mariadb_user env).

Definition download_files (site db_url public_url private_url : string)
  : M downloaded_files :=
  call (DownloadFiles site db_url public_url private_url)
       (on_download_files env).

Definition delete_downloaded_files (dir : string) : M unit :=
  call (DeleteDownloadedFiles dir) (on_delete_downloaded_files env).

Definition setup_nginx : M unit := call SetupNginx (on_setup_nginx env).

Definition reload_nginx : M unit := call ReloadNginx (on_reload_nginx env).

(** [time.time()], in milliseconds *)
Definition time_now : M Z := fun w => (Ok (clock w), w).

(** [time.sleep(seconds)] *)
Definition sleep (seconds : Z) : M unit :=
  fun w => (Ok tt, tick (seconds * 1000) (log (Sleep seconds) w)).

(** *** Restore and reinstall *)

Definition container_sites : string := "/home/frappe/frappe-bench/sites".

Definition restore_command (temp_user temp_password admin_password
    public_file_option private_file_option database_file : string)
  : string :=
  "--force restore "
  +:+ "--mariadb-root-username " +:+ temp_user +:+ " "
  +:+ "--mariadb-root-password " +:+ temp_password +:+ " "
  +:+ "--admin-password " +:+ admin_password +:+ " "
  +:+ public_file_option +:+ " "
  +:+ private_file_option +:+ " "
  +:+ database_file.

(** [Site.restore] *)
Definition restore (mariadb_root_password admin_password database_file
    public_file private_file : string) : M command_data :=
  let sites_dir := sites_directory (bench self) in
  let database_file := Py.replace database_file sites_dir container_sites in
  let public_file := Py.replace public_file sites_dir container_sites in
  let private_file := Py.replace private_file sites_dir container_sites in
  let public_file_option :=
    if Py.truthy public_file
    then "--with-public-files " +:+ public_file else "" in
  let private_file_option :=
    if Py.truthy private_file
    then "--with-private-files " +:+ private_file +:+ " " else "" in
  created <- create_mariadb_user (name self) mariadb_root_password
               (database self) ;;
  let '(_, temp_user, temp_password) := created in
  try_finally
    (bench_execute
       (restore_command temp_user temp_password admin_password
          public_file_option private_file_option database_file))
    (drop_mariadb_user (name self) mariadb_root_password (database self)).

Definition reinstall_command (temp_user temp_password admin_password : string)
  : string :=
  "reinstall --yes "
  +:+ "--mariadb-root-username " +:+ temp_user +:+ " "
  +:+ "--mariadb-root-password " +:+ temp_password +:+ " "
  +:+ "--admin-password " +:+ admin_password.

(** [Site.reinstall] *)
Definition reinstall (mariadb_root_password admin_password : string)
  : M command_data :=
  created <- create_mariadb_user (name self) mariadb_root_password
               (database self) ;;
  let '(_, temp_user, temp_password) := created in
  try_finally
    (bench_execute (reinstall_command temp_user temp_password admin_password))
    (drop_mariadb_user (name self) mariadb_root_password (database self)).

(** [Site.reinstall_job] *)
Definition reinstall_job (mariadb_root_password admin_password : string)
  : M command_data :=
  reinstall mariadb_root_password admin_password.

(** [Site.migrate] *)
Definition migrate (skip_failing_patches : bool) : M command_data :=
  if skip_failing_patches
  then bench_execute "migrate --skip-failing"
  else bench_execute "migrate".

(** [Site.set_admin_password] *)
Definition set_admin_password (password : string) : M command_data :=
  bench_execute ("set-admin-password " +:+ password).

(** [Site.enable_scheduler] *)
Definition enable_scheduler : M command_data :=
  bench_execute "scheduler enable".

(** *** App reconciliation *)

(** [json.loads(...)] of the installed-apps listing *)
Definition json_loads_apps (s : string) : M (list string) :=
  lift (on_json_loads env s).

Definition remove_app_command (app : string) : string :=
  "remove-from-installed-apps '" +:+ app +:+ "'".

Definition installed_apps_command : string :=
  "execute frappe.get_installed_apps".

(** [Site.uninstall_unavailable_apps] *)
Definition uninstall_unavailable_apps (apps_to_keep : list string) : M unit :=
  listing <- bench_execute installed_apps_command ;;
  installed_apps <- json_loads_apps (output listing) ;;
  for_each installed_apps (fun app =>
    if negb (bool_decide (app ∈ apps_to_keep))
    then (bench_execute (remove_app_command app) ;;
          bench_execute "clear-cache" ;;
          ret tt)
    else ret tt).

(** [Site.restore_job] *)
Definition restore_job (apps : list string) (mariadb_root_password
    admin_password db_url public_url private_url : string)
    (skip_failing_patches : bool) : M command_data :=
  files <- download_files (name self) db_url public_url private_url ;;
  try_finally
    (restore mariadb_root_password admin_password
       (dl_database files) (dl_public files) (dl_private files))
    (delete_downloaded_files (dl_directory files)) ;;
  uninstall_unavailable_apps apps ;;
  migrate skip_failing_patches ;;
  set_admin_password admin_password ;;
  enable_scheduler ;;
  setup_nginx ;;
  reload_nginx ;;
  bench_execute "list-apps".

(** *** Readiness polling *)

Definition WAIT_TIMEOUT : Z := 120.

(** An entry of [data["tries"]]: the output of a probe that returned, or the
    payload of one that raised.  Both are dictionaries in the source; the tag
    records which branch appended the entry. *)
Inductive attempt :=
| Succeeded (out : command_data)
| Errored (payload : command_data).

(** [e.data]: only an [AgentException] has the attribute. *)
Definition exn_data (e : exn) : result command_data :=
  match e with
  | AgentException d => Ok d
  | _ => Raise (OtherError "AttributeError" "data")
  end.

Definition ready_probe : string := "ready-for-migration".

(** The [while] loop of [Site.wait_till_ready].  It ends because the clock
    moves on by at least a second in every round that goes on. *)
Equations? wait_loop (start : Z) (tries : list attempt) (w : world)
  : result (list attempt) * world
  by wf (Z.to_nat (start + WAIT_TIMEOUT * 1000 - clock w)) lt :=
wait_loop start tries w
  with inspect (clock w - start <? WAIT_TIMEOUT * 1000) := {
  | exist _ false Hout => (Ok tries, w)
  | exist _ true Hin
      with inspect (bench_execute ready_probe w) := {
    | exist _ (pair (Ok out) w1) Hret =>
        (Ok (tries ++ [Succeeded out]), w1)
    | exist _ (pair (Raise e) w1) Hprobe
        with inspect (exn_data e) := {
      | exist _ (Raise e') Hattr => (Raise e', w1)
      | exist _ (Ok d) Hdata
          with inspect (sleep 1 w1) := {
        | exist _ (pair (Raise e') w2) Hwoke => (Raise e', w2)
        | exist _ (pair (Ok _) w2) Hsleep =>
            wait_loop start (tries ++ [Errored d]) w2 } } } }.
Proof.
  unfold bench_execute, run_command in Hprobe.
  unfold WAIT_TIMEOUT in *.
  destruct (on_command env _) as [d0|d0]; inversion Hprobe; subst.
  simpl. apply Z.ltb_lt in Hin. lia.
Qed.

(** [Site.wait_till_ready] *)
Definition wait_till_ready : M (list attempt) :=
  start <- time_now ;;
  wait_loop start [].

(** *** Domains *)

(** The items of a stored domain list as strings. *)
Fixpoint domain_names (items : list json) : result (list string) :=
  match items with
  | [] => Ok []
  | JStr s :: rest =>
      match domain_names rest with
      | Ok names => Ok (s :: names)
      | Raise e => Raise e
      end
  | _ :: _ => Raise (TypeError "unhashable type")
  end.

(** [set(...)] of the stored domain list.  The list holds domain names; a
    value that is not an array, or an array with an item that is not a
    string, is answered with [TypeError], which is what Python does for a
    value that cannot be iterated and for an item that cannot be hashed
    (arrays of numbers or booleans are not covered by this model). *)
Definition py_set (j : json) : result (gset string) :=
  match j with
  | JArr items =>
      match domain_names items with
      | Ok names => Ok (list_to_set names)
      | Raise e => Raise e
      end
  | _ => Raise (TypeError "not iterable")
  end.

(** [set(self.config.get("domains", []))] *)
Definition stored_domains : M (gset string) :=
  cfg <- config ;;
  lift (py_set (default (JArr []) (cfg !! "domains"))).

(** [{"domains": list(domains)}] *)
Definition domains_value (domains : gset string) : gmap string json :=
  {[ "domains" := JArr (JStr <$> elements domains) ]}.

(** [Site.add_domain] *)
Definition add_domain (domain : string) : M unit :=
  domains <- stored_domains ;;
  let domains := domains ∪ {[ domain ]} in
  update_config (domains_value domains) None ;;
  setup_nginx ;;
  reload_nginx.

(** [Site.remove_domain] *)
Definition remove_domain (domain : string) : M unit :=
  domains <- stored_domains ;;
  let domains := domains ∖ {[ domain ]} in
  update_config (domains_value domains) None ;;
  setup_nginx ;;
  reload_nginx.

(** *** Table-wise backup *)

(** [Site.clear_backup_directory] *)
Definition clear_backup_directory : M unit :=
  fun w =>
    let w1 :=
      match staging w with
      | Some _ => set_staging None w      (* shutil.rmtree *)
      | None => w
      end in
    (Ok tt, set_staging (Some []) w1).    (* os.mkdir *)

Definition show_tables_command : string :=
  "mysql --disable-column-names -B -e 'SHOW TABLES' "
  +:+ "-h " +:+ host self +:+ " -u " +:+ user self
  +:+ " -p" +:+ password self +:+ " " +:+ database self.

Definition newline : ascii := "010"%char.

(** The [tables] property *)
Definition tables : M (list string) :=
  listing <- execute show_tables_command ;;
  ret (Py.split (output listing) newline).

Definition table_backup_file (table : string) : string :=
  Py.path_join (backup_directory self) (table +:+ ".sql").

Definition dump_command (table : string) : string :=
  "mysqldump --single-transaction --quick --lock-tables=false "
  +:+ "-h " +:+ host self +:+ " -u " +:+ user self
  +:+ " -p" +:+ password self +:+ " "
  +:+ database self +:+ " '" +:+ table +:+ "' "
  +:+ "> '" +:+ table_backup_file table +:+ "'".

(** [Site.tablewise_backup]; the result is [data["tables"]]. *)
Definition tablewise_backup : M (gmap string command_data) :=
  tbls <- tables ;;
  for_fold tbls (fun data table =>
    out <- execute (dump_command table) ;;
    ret (<[ table := out ]> data)) ∅.

(** *** Full backup *)

(** The three lists filled by the scan of the backup directory. *)
Record buckets := {
  databases : list string;
  publics : list string;
  privates : list string
}.

(** One round of the loop over [os.listdir(backup_directory)]. *)
Definition classify (backup_dir : string) (b : buckets) (file : string)
  : buckets :=
  let path := Py.path_join backup_dir file in
  if Py.endswith file "database.sql.gz"
     || Py.endswith file "database-enc.sql.gz"
  then {| databases := databases b ++ [path];
          publics := publics b; privates := privates b |}
  else if Py.endswith file "private-files.tar"
          || Py.endswith file "private-files-enc.tar"
  then {| databases := databases b;
          publics := publics b; privates := privates b ++ [path] |}
  else if Py.endswith file "files.tar" || Py.endswith file "files-enc.tar"
  then {| databases := databases b;
          publics := publics b ++ [path]; privates := privates b |}
  else b.

Definition scan (backup_dir : string) (files : list string) : buckets :=
  foldl (classify backup_dir) {| databases := []; publics := []; privates := [] |}
        files.

(** The entry of a listing that a path names. *)
Definition find_entry (backup_dir : string) (listing : list file_entry)
    (path : string) : result file_entry :=
  match List.find (fun e => String.eqb (Py.path_join backup_dir (file_name e)) path)
                  listing with
  | Some e => Ok e
  | None => Raise (OtherError "FileNotFoundError" path)
  end.

(** [os.path.getmtime(path)] *)
Definition getmtime (backup_dir : string) (listing : list file_entry)
    (path : string) : result Z :=
  match find_entry backup_dir listing path with
  | Ok e => Ok (file_mtime e)
  | Raise e => Raise e
  end.

(** [max(rest, key=key)] continued: [best] is the first item seen so far
    with the largest key [kbest]. *)
Fixpoint max_from (key : string -> result Z) (best : string) (kbest : Z)
    (rest : list string) : result string :=
  match rest with
  | [] => Ok best
  | x :: rest' =>
      match key x with
      | Ok k => if kbest <? k then max_from key x k rest'
                else max_from key best kbest rest'
      | Raise e => Raise e
      end
  end.

(** [max(items, key=key)]: the first item with the largest key; an empty
    list raises [ValueError]. *)
Definition py_max (items : list string) (key : string -> result Z)
  : result string :=
  match items with
  | [] => Raise (ValueError "max() arg is an empty sequence")
  | x :: rest =>
      match key x with
      | Ok k => max_from key x k rest
      | Raise e => Raise e
      end
  end.

(** A value of the [backups] dictionary. *)
Record artifact := {
  art_path : string;
  art_file : string;
  art_size : Z;
  art_url : string
}.

(** The second loop of [fetch_latest_backup] for one entry: fill in
    [file], [size] and [url]. *)
Definition describe (backup_dir : string) (listing : list file_entry)
    (path : string) : result artifact :=
  let file := Py.basename path in
  match find_entry backup_dir listing path with
  | Ok e =>
      Ok {| art_path := path; art_file := file; art_size := file_size e;
            art_url := "https://" +:+ name self +:+ "/backups/" +:+ file |}
  | Raise e => Raise e
  end.

(** [os.path.join(self.directory, "private", "backups")] *)
Definition backups_dir : string :=
  Py.path_join (Py.path_join (directory self) "private") "backups".

(** [Site.fetch_latest_backup(with_files)]; the result lists the items of
    the [backups] dictionary in insertion order. *)
Definition fetch_latest_backup (with_files : bool)
  : M (list (string * artifact)) :=
  fun w =>
    let backup_dir := backups_dir in
    let listing := on_listdir_backups env (trace w) in
    let b := scan backup_dir (file_name <$> listing) in
    (database <- lift (py_max (databases b) (getmtime backup_dir listing)) ;;
     selected <-
       (if with_files
        then (private <- lift (py_max (privates b)
                                 (getmtime backup_dir listing)) ;;
              public <- lift (py_max (publics b)
                                (getmtime backup_dir listing)) ;;
              ret [("database", database); ("private", private);
                   ("public", public)])
        else ret [("database", database)]) ;;
     for_fold selected (fun acc item =>
       a <- lift (describe backup_dir listing (snd item)) ;;
       ret (acc ++ [(fst item, a)])) []) w.

(** [Site.backup(with_files)] *)
Definition backup (with_files : bool) : M (list (string * artifact)) :=
  let with_files := if with_files then "--with-files" else "" in
  bench_execute ("backup " +:+ with_files) ;;
  fetch_latest_backup (Py.truthy with_files).

End SiteMethods.

(** ** Observations used in the statements *)

(** The events a computation adds to the trace when run in [w]. *)
Definition new_events {A} (m : M A) (w : world) : list event :=
  List.skipn (length (trace w)) (trace (snd (m w))).

Definition is_drop (ev : event) : bool :=
  match ev with DropMariadbUser _ _ _ => true | _ => false end.

Definition is_delete (ev : event) : bool :=
  match ev with DeleteDownloadedFiles _ => true | _ => false end.

(** Neither a credential drop nor a deletion of downloaded files. *)
Definition no_cleanup (ev : event) : Prop :=
  is_drop ev = false /\ is_delete ev = false.

Definition count_events (p : event -> bool) (tr : list event) : nat :=
  length (List.filter p tr).

(** Whatever the answers, [m] only appends events that satisfy [P]. *)
Definition emits {A} (P : event -> Prop) (m : M A) : Prop :=
  forall w, exists new, trace (snd (m w)) = trace w ++ new /\ Forall P new.

(** The removal of [app] from the site was requested in [tr]. *)
Definition uninstalled (self : Site) (tr : list event) (app : string) : Prop :=
  In (DockerExecute (bench_command self (remove_app_command app))) tr.

(** The calls the reconciliation makes for one installed app. *)
Definition reconcile_events (self : Site) (keep : list string) (app : string)
  : list event :=
  if bool_decide (app ∈ keep) then []
  else [DockerExecute (bench_command self (remove_app_command app));
        DockerExecute (bench_command self "clear-cache")].

(** Every command the environment is asked to run returns. *)
Definition commands_succeed (env : environment) : Prop :=
  forall tr, exists d, on_command env tr = Returned d.

(** The readiness probe as the bench sees it. *)
Definition probe_event (self : Site) : event :=
  DockerExecute (bench_command self ready_probe).

(** The calls of [n] rounds that failed: the probe, then a sleep of one
    second. *)
Fixpoint failed_rounds (self : Site) (n : nat) : list event :=
  match n with
  | O => []
  | S n' => probe_event self :: Sleep 1 :: failed_rounds self n'
  end.

(** The entries of [data["tries"]] after the probes failed with [payloads]
    and, if [last] is given, a final probe returned it. *)
Definition recorded (payloads : list command_data)
    (last : option command_data) : list attempt :=
  (Errored <$> payloads)
  ++ match last with Some out => [Succeeded out] | None => [] end.

(** A run of the polling loop that was entered in [w] with start time
    [start] and left in [w']: the probes of the first rounds failed with
    [payloads], each followed by the sleep; then either a probe returned
    [last] or the timeout had been reached. *)
Record polling (env : environment) (self : Site) (start : Z) (w : world)
    (payloads : list command_data) (last : option command_data)
    (w' : world) : Prop := {
  polling_failed : forall i d, payloads !! i = Some d ->
    on_command env (trace w ++ failed_rounds self i ++ [probe_event self])
    = Failed d;
  polling_trace :
    trace w' = trace w ++ failed_rounds self (length payloads)
                 ++ match last with
                    | Some _ => [probe_event self]
                    | None => []
                    end;
  polling_last :
    match last with
    | Some out =>
        on_command env
          (trace w ++ failed_rounds self (length payloads)
             ++ [probe_event self]) = Returned out
    | None => WAIT_TIMEOUT * 1000 <= clock w' - start
    end;
  polling_started : payloads = [] \/
    clock w + 1000 * (Z.of_nat (length payloads) - 1)
      < start + WAIT_TIMEOUT * 1000;
  polling_clock : clock w + 1000 * Z.of_nat (length payloads) <= clock w'
}.

(** The candidate files of each role, as the scan of the backup directory
    finds them in [w]. *)
Definition candidates (env : environment) (self : Site) (w : world)
  : buckets :=
  scan (backups_dir self) (file_name <$> on_listdir_backups env (trace w)).

(** Modification time of a candidate path in [w]. *)
Definition mtime_of (env : environment) (self : Site) (w : world)
    (path : string) : result Z :=
  getmtime (backups_dir self) (on_listdir_backups env (trace w)) path.

(** The document stored after [update_config value remove] ran in [w]. *)
Definition config_after (value : gmap string json)
    (remove : option (list string)) (w : world) : gmap string json :=
  site_config (snd (update_config value remove w)).

(** The candidate list of a key of the [backups] dictionary. *)
Definition role_candidates (b : buckets) (role : string) : list string :=
  if String.eqb role "database" then databases b
  else if String.eqb role "private" then privates b
  else if String.eqb role "public" then publics b
  else [].

(** [path] is one of [cands] and none of them was modified later. *)
Definition latest_of (env : environment) (self : Site) (w : world)
    (cands : list string) (path : string) : Prop :=
  path ∈ cands /\
  exists m, mtime_of env self w path = Ok m /\
    forall q, q ∈ cands -> exists mq, mtime_of env self w q = Ok mq /\ mq <= m.

(** The document of [w] stores [ds] as its domain list; a document without
    the key stores the empty list. *)
Definition stores_domains (w : world) (ds : list string) : Prop :=
  site_config w !! "domains" = Some (JArr (JStr <$> ds))
  \/ (site_config w !! "domains" = None /\ ds = []).

(** What [max] raises on an empty sequence. *)
Definition empty_max : exn := ValueError "max() arg is an empty sequence".

(** ** Sample inputs *)

Module Sample.

Definition the_bench : Bench :=
  {| sites_directory := "/home/frappe/benches/b1/sites";
     bench_host := "db.local" |}.

Definition site : Site :=
  {| name := "shop.example.com";
     bench := the_bench;
     directory := "/home/frappe/benches/b1/sites/shop.example.com";
     backup_directory :=
       "/home/frappe/benches/b1/sites/shop.example.com/.migrate";
     database := "_3f2a";
     user := "_3f2a";
     password := "secret";
     host := "db.local" |}.

Definition done (out : string) : command_outcome :=
  Returned {| output := out; duration := 250 |}.

Definition broken (out : string) : command_outcome :=
  Failed {| output := out; duration := 250 |}.

(** Every collaborator answers; commands print [out]; the backup directory
    holds [files]; the installed apps are [apps]. *)
Definition env_with (cmd : list event -> command_outcome)
    (files : list file_entry) (apps : list string) : environment :=
  {| on_command := cmd;
     on_create_mariadb_user := fun _ => Ok ("", "tmp_user", "tmp_pw");
     on_drop_mariadb_user := fun _ => Ok tt;
     on_download_files := fun _ =>
       Ok {| dl_directory := "/tmp/dl"; dl_database := "/tmp/dl/db.sql.gz";
             dl_public := ""; dl_private := "" |};
     on_delete_downloaded_files := fun _ => Ok tt;
     on_setup_nginx := fun _ => Ok tt;
     on_reload_nginx := fun _ => Ok tt;
     on_listdir_backups := fun _ => files;
     on_json_loads := fun _ => Ok apps |}.

Definition world_with (doc : gmap string json) : world :=
  {| trace := []; clock := 1700000000000; site_config := doc;
     staging := Some ["tabOld.sql"] |}.

(** A listing of two tables. *)
Definition show_tables_output : string :=
  "tabUser" +:+ String newline "tabRole".

Definition two_dumps : list file_entry :=
  [ {| file_name := "a.database.sql.gz"; file_mtime := 100; file_size := 10 |};
    {| file_name := "b.database.sql.gz"; file_mtime := 200; file_size := 20 |} ].

End Sample.

(** * Further steps and jobs of the Site class *)

(** [sub in s] *)
Fixpoint contains (s sub : string) : bool :=
  String.prefix sub s
  || match s with
     | EmptyString => false
     | String _ s' => contains s' sub
     end.

(** [s[n:]] *)
Fixpoint skip_chars (n : nat) (s : string) : string :=
  match n, s with
  | O, _ => s
  | S _, EmptyString => EmptyString
  | S n', String _ s' => skip_chars n' s'
  end.

(** [s.split(os.sep)[-1]] *)
Definition last_component (s : string) : string :=
  List.last (Py.split s "/"%char) "".

(** [try: body except Exception as e: handler e] *)
Definition try_except {A} (body : M A) (handler : exn -> M A) : M A :=
  fun w =>
    match body w with
    | (Ok a, w1) => (Ok a, w1)
    | (Raise e, w1) => handler e w1
    end.

(** The answers of the file system and of the object storage.  As for the
    [environment], each one sees the calls logged so far. *)
Record services := {
  (** [os.path.exists(path)] *)
  on_path_exists : list event -> string -> bool;
  (** [os.listdir(path)] *)
  on_listdir : list event -> string -> result (list string);
  (** [json.load] of touched_tables.json: the table names, or the error of
      [open] or of the parser *)
  on_touched_tables : list event -> result (list string);
  (** [os.rename(src, dst)] *)
  on_os_rename : list event -> string -> string -> result unit;
  (** [open(path, "rb")] and [s3.upload_fileobj(data, bucket, key)] *)
  on_upload_fileobj : list event -> string -> string -> string -> result unit
}.

(** The [offsite] argument of the backup job: bucket, the two keys of
    [auth] and the path prefix. *)
Record offsite_config := {
  offsite_bucket : string;
  offsite_access_key : string;
  offsite_secret_key : string;
  offsite_path : string
}.

(** [self.name = new_name] *)
Definition set_name (self : Site) (new_name : string) : Site :=
  {| name := new_name; bench := bench self; directory := directory self;
     backup_directory := backup_directory self; database := database self;
     user := user self; password := password self; host := host self |}.

Section MoreSiteMethods.

Context (env : environment) (sv : services) (self : Site).

(** [Site.enable_maintenance_mode] *)
Definition enable_maintenance_mode : M command_data :=
  bench_execute env self "set-maintenance-mode on".

Definition unblock_user_command : string :=
  "execute frappe.modules.patch_handler.block_user --args False,".

(** [Site.disable_maintenance_mode] *)
Definition disable_maintenance_mode : M command_data :=
  try_except (bench_execute env self unblock_user_command ;; ret tt)
             (fun _ => ret tt) ;;
  bench_execute env self "set-maintenance-mode off".

Definition install_app_command (app : string) : string :=
  "install-app " +:+ app.

(** [Site.install_apps]; the result is [data["apps"]], an app without an
    [install] entry has [None].  The list [output] of the source is filled
    and never read. *)
Definition install_apps (apps : list string)
  : M (gmap string (option command_data)) :=
  for_fold apps (fun data app =>
    let data := <[ app := None ]> data in
    if negb (String.eqb app "frappe")
    then (out <- bench_execute env self (install_app_command app) ;;
          ret (<[ app := Some out ]> data))
    else ret data) ∅.

(** The replay of a dump file into the database of the site. *)
Definition replay_command (path : string) : string :=
  "mysql -h " +:+ host self +:+ " -u " +:+ user self
  +:+ " -p" +:+ password self +:+ " "
  +:+ database self +:+ " < '" +:+ path +:+ "'".

(** [os.listdir(path)] *)
Definition listdir (path : string) : M (list string) :=
  fun w => (on_listdir sv (trace w) path, w).

(** [os.path.exists(path)] *)
Definition path_exists (path : string) : M bool :=
  fun w => (Ok (on_path_exists sv (trace w) path), w).

(** The [touched_tables] property *)
Definition touched_tables : M (list string) :=
  fun w => (on_touched_tables sv (trace w), w).

(** [Site.restore_site_tables]; the result is [data["tables"]]. *)
Definition restore_site_tables : M (gmap string command_data) :=
  files <- listdir (backup_directory self) ;;
  for_fold files (fun data backup_file =>
    let backup_file_path :=
      Py.path_join (backup_directory self) backup_file in
    out <- execute env (replay_command backup_file_path) ;;
    ret (<[ backup_file := out ]> data)) ∅.

(** [Site.restore_site_tables_job] *)
Definition restore_site_tables_job (activate : bool) : M unit :=
  restore_site_tables ;;
  if activate then (disable_maintenance_mode ;; ret tt) else ret tt.

(** [Site.restore_touched_tables]; the result is [data["tables"]]. *)
Definition restore_touched_tables : M (gmap string command_data) :=
  tbls <- touched_tables ;;
  for_fold tbls (fun data table =>
    let backup_file :=
      Py.path_join (backup_directory self) (table +:+ ".sql") in
    staged <- path_exists backup_file ;;
    if staged
    then (out <- execute env (replay_command backup_file) ;;
          ret (<[ table := out ]> data))
    else ret data) ∅.

(** [Site.rename]; the renamed object is returned, its [directory] keeps
    the old path as in the source. *)
Definition rename (new_name : string) : M Site :=
  fun w =>
    match on_os_rename sv (trace w) (directory self)
            (Py.path_join (sites_directory (bench self)) new_name) with
    | Ok _ => (Ok (set_name self new_name), w)
    | Raise e => (Raise e, w)
    end.

(** [Site.upload_offsite_backup] *)
Definition upload_offsite_backup (backup_files : list (string * artifact))
    (offsite : offsite_config) : M (gmap string string) :=
  for_fold backup_files (fun offsite_files item =>
    let backup_file := snd item in
    let file_name := last_component (art_file backup_file) in
    let remote := Py.path_join (offsite_path offsite) file_name in
    let offsite_files := <[ file_name := remote ]> offsite_files in
    (fun w => (on_upload_fileobj sv (trace w) (art_path backup_file)
                 (offsite_bucket offsite) remote, w)) ;;
    ret offsite_files) ∅.

(** [Site.backup_job]; the pair holds the values of the keys [backups] and
    [offsite] of the result.  An [offsite] that is [None] or empty is
    [None] here. *)
Definition backup_job (with_files : bool) (offsite : option offsite_config)
  : M (list (string * artifact) * gmap string string) :=
  backup_files <- backup env self with_files ;;
  uploaded_files <-
    match offsite, backup_files with
    | Some o, _ :: _ => upload_offsite_backup backup_files o
    | _, _ => ret ∅
    end ;;
  ret (backup_files, uploaded_files).

(** [Site.clear_cache_job] *)
Definition clear_cache_job : M unit :=
  bench_execute env self "clear-cache" ;;
  bench_execute env self "clear-website-cache" ;;
  ret tt.

End MoreSiteMethods.

(** [Site.rename_job]; the methods called after [rename] see the new
    name.  The renamed object is returned. *)
Definition rename_job (env : environment) (sv : services) (self : Site)
    (new_name : string) : M Site :=
  enable_maintenance_mode env self ;;
  wait_till_ready env self ;;
  cfg <- config ;;
  (match cfg !! "host_name" with
   | Some (JStr h) =>
       if String.eqb h ("https://" +:+ name self)
       then update_config
              {[ "host_name" := JStr ("https://" +:+ new_name) ]} None
       else ret tt
   | _ => ret tt
   end) ;;
  renamed <- rename sv self new_name ;;
  setup_nginx env ;;
  reload_nginx env ;;
  disable_maintenance_mode env renamed ;;
  enable_scheduler env renamed ;;
  ret renamed.

(** ** The session id in the console output *)

(** The characters of [s] before its first newline. *)
Fixpoint first_line (s : string) : string :=
  match s with
  | EmptyString => EmptyString
  | String c s' =>
      if Ascii.eqb c newline then EmptyString else String c (first_line s')
  end.

(** The part of [line] before the last occurrence of [marker]: what a
    greedy dot-star group followed by [marker] captures. *)
Fixpoint last_before (marker line : string) : option string :=
  match line with
  | EmptyString => if String.eqb marker "" then Some "" else None
  | String c rest =>
      match last_before marker rest with
      | Some g => Some (String c g)
      | None => if String.prefix marker line then Some "" else None
      end
  end.

(** [re.search] for three closing angle brackets, a greedy dot-star group
    and three opening angle brackets: the group of the leftmost match; the
    dot does not match a newline. *)
Fixpoint search_sid (s : string) : option string :=
  match s with
  | EmptyString => None
  | String _ rest =>
      if String.prefix ">>>" s
      then match last_before "<<<" (first_line (skip_chars 3 s)) with
           | Some g => Some g
           | None => search_sid rest
           end
      else search_sid rest
  end.

(** [re.search(...).group(1)] of [Site.sid]: without a match [search]
    gives [None], which has no [group]. *)
Definition sid_of_output (out : string) : result string :=
  match search_sid out with
  | Some g => Ok g
  | None => Raise (OtherError "AttributeError" "group")
  end.

(** ** Observations used in the further statements *)

(** The index of the first occurrence of [sub] in [s]. *)
Fixpoint find_first (sub s : string) : option nat :=
  if String.prefix sub s then Some O
  else match s with
       | EmptyString => None
       | String _ s' => option_map S (find_first sub s')
       end.

Definition is_database_name (file : string) : bool :=
  Py.endswith file "database.sql.gz"
  || Py.endswith file "database-enc.sql.gz".

Definition is_private_name (file : string) : bool :=
  Py.endswith file "private-files.tar"
  || Py.endswith file "private-files-enc.tar".

Definition is_public_name (file : string) : bool :=
  Py.endswith file "files.tar" || Py.endswith file "files-enc.tar".

(** The role the scan gives a file name, as a key of [backups]. *)
Definition role_of_name (file : string) : option string :=
  if is_database_name file then Some "database"
  else if is_private_name file then Some "private"
  else if is_public_name file then Some "public"
  else None.

(** The file system answers the same whatever was logged. *)
Definition steady_files (sv : services) (staged : string -> bool) : Prop :=
  forall tr path, on_path_exists sv tr path = staged path.

Module Sample2.

Definition sv_with (staged : string -> bool) (files tables : list string)
  : services :=
  {| on_path_exists := fun _ p => staged p;
     on_listdir := fun _ _ => Ok files;
     on_touched_tables := fun _ => Ok tables;
     on_os_rename := fun _ _ _ => Ok tt;
     on_upload_fileobj := fun _ _ _ _ => Ok tt |}.

End Sample2.

(** A stored value that [set] rejects: it cannot be iterated, or it is an
    array with an item that cannot be hashed. *)
Definition not_a_domain_list (j : json) : Prop :=
  j = JNull \/ (exists b, j = JBool b) \/ (exists n, j = JInt n)
  \/ exists items item,
       j = JArr items /\ item ∈ items
       /\ ((exists l, item = JArr l) \/ (exists m, item = JObj m)).

(** [path] is the first of [cands] with the largest modification time:
    every candidate before it is strictly older, none after it is newer. *)
Definition first_latest_of (env : environment) (self : Site) (w : world)
    (cands : list string) (path : string) : Prop :=
  exists before after m,
    cands = before ++ path :: after
    /\ mtime_of env self w path = Ok m
    /\ (forall q, q ∈ before ->
          exists mq, mtime_of env self w q = Ok mq /\ mq < m)
    /\ (forall q, q ∈ after ->
          exists mq, mtime_of env self w q = Ok mq /\ mq <= m).

(** What [os.listdir] guarantees: no name holds a slash and no name is
    listed twice. *)
Definition proper_listing (listing : list file_entry) : Prop :=
  (forall e, e ∈ listing -> contains (file_name e) "/" = false)
  /\ NoDup (file_name <$> listing).

(** Every command the environment is asked to run fails with [d]. *)
Definition commands_fail (env : environment) (d : command_data) : Prop :=
  forall tr, on_command env tr = Failed d.

(** The answer to a shell command depends on its text alone. *)
Definition answers_by_command (env : environment)
    (verdict : string -> command_outcome) : Prop :=
  forall tr cmd, on_command env (tr ++ [Execute cmd]) = verdict cmd.

(** Every command other than the readiness probe of [self] returns. *)
Definition others_succeed (env : environment) (self : Site) : Prop :=
  forall tr ev, ev <> probe_event self ->
    exists d, on_command env (tr ++ [ev]) = Returned d.

(** The file system and the proxy do what they are asked. *)
Definition rename_goes_through (env : environment) (sv : services) : Prop :=
  (forall tr src dst, on_os_rename sv tr src dst = Ok tt)
  /\ (forall tr, on_setup_nginx env tr = Ok tt)
  /\ (forall tr, on_reload_nginx env tr = Ok tt).

(** The stored document after the check of [host_name] in [rename_job]: a
    host name that is the URL of the old site name becomes the URL of the
    new one. *)
Definition renamed_config (self : Site) (new_name : string)
    (doc : gmap string json) : gmap string json :=
  match doc !! "host_name" with
  | Some (JStr h) =>
      if String.eqb h ("https://" +:+ name self)
      then <[ "host_name" := JStr ("https://" +:+ new_name) ]> doc
      else doc
  | _ => doc
  end.

(** The string of one newline. *)
Definition newline_str : string := String newline "".

Module Sample3.

(** A replay fails when it reads the file bad.sql. *)
Definition verdict (cmd : string) : command_outcome :=
  if Py.endswith cmd "bad.sql'" then Sample.broken "syntax error"
  else Sample.done "".

(** Shell commands are answered by [verdict], everything else returns. *)
Definition env : environment :=
  Sample.env_with
    (fun tr => match last tr with
               | Some (Execute cmd) => verdict cmd
               | _ => Sample.done ""
               end) [] [].

(** Only the dump of tabUser is staged. *)
Definition staged (path : string) : bool := Py.endswith path "/tabUser.sql".

End Sample3.

(** Every call to the bench and to the proxy returns: the download gives
    [files], the credential is [created], the installed apps read as
    [installed]. *)
Definition collaborators_return (env : environment)
    (files : downloaded_files) (created : string * string * string)
    (installed : list string) : Prop :=
  commands_succeed env
  /\ (forall tr, on_download_files env tr = Ok files)
  /\ (forall tr, on_create_mariadb_user env tr = Ok created)
  /\ (forall tr, on_drop_mariadb_user env tr = Ok tt)
  /\ (forall tr, on_delete_downloaded_files env tr = Ok tt)
  /\ (forall tr, on_setup_nginx env tr = Ok tt)
  /\ (forall tr, on_reload_nginx env tr = Ok tt)
  /\ (forall s, on_json_loads env s = Ok installed).

(** * Properties *)

(** ** Strings *)

Module PyFacts.

Lemma append_nil (t : string) : "" +:+ t = t.
Proof. reflexivity. Qed.

Lemma append_cons (c : ascii) (s t : string) :
  String c s +:+ t = String c (s +:+ t).
Proof. reflexivity. Qed.

(** [String.append] is kept folded by [simpl]; unfold it on constructors. *)
Ltac str_simpl := rewrite ?append_nil, ?append_cons.
Ltac str_simpl_in H := rewrite ?append_nil, ?append_cons in H.

Lemma append_empty_r (s : string) : s +:+ "" = s.
Proof.
  induction s as [|c s IH]; str_simpl; [reflexivity | now rewrite IH].
Qed.

Lemma append_assoc (a b c : string) : (a +:+ b) +:+ c = a +:+ (b +:+ c).
Proof.
  induction a as [|x a IH]; str_simpl; [reflexivity | now rewrite IH].
Qed.

Lemma append_eq_empty (a b : string) : a +:+ b = "" -> a = "" /\ b = "".
Proof. destruct a; str_simpl; [auto | discriminate]. Qed.

Lemma append_inj_l (p a b : string) : p +:+ a = p +:+ b -> a = b.
Proof.
  induction p as [|c p IH]; str_simpl; intros H; [exact H |].
  injection H as H. auto.
Qed.

(** [endswith] is the suffix relation. *)
Lemma endswith_spec (s suffix : string) :
  Py.endswith s suffix = true <-> exists p, s = p +:+ suffix.
Proof.
  induction s as [|c s IH]; cbn [Py.endswith].
  - rewrite orb_false_r, String.eqb_eq. split.
    + intros <-. now exists "".
    + intros [p Hp]. symmetry in Hp.
      apply append_eq_empty in Hp. symmetry. tauto.
  - rewrite orb_true_iff, String.eqb_eq, IH. split.
    + intros [<- | [p ->]]; [now exists "" | now exists (String c p)].
    + intros [[|c' p] Hp]; str_simpl_in Hp.
      * now left.
      * right. injection Hp as -> ->. now exists p.
Qed.

Lemma endswith_append (p suffix : string) :
  Py.endswith (p +:+ suffix) suffix = true.
Proof. apply endswith_spec. now exists p. Qed.

(** A suffix of the suffix is a suffix. *)
Lemma endswith_trans (s a b : string) :
  Py.endswith s (a +:+ b) = true -> Py.endswith s b = true.
Proof.
  rewrite !endswith_spec. intros [p ->].
  exists (p +:+ a). now rewrite append_assoc.
Qed.

(** Two one-character suffixes of one string are the same character. *)
Lemma last_char_unique (p q : string) (c d : ascii) :
  p +:+ String c "" = q +:+ String d "" -> c = d.
Proof.
  revert q. induction p as [|x p IH]; intros [|y q]; str_simpl; intros H.
  - now injection H.
  - injection H as _ H. destruct q; discriminate.
  - injection H as _ H. destruct p; discriminate.
  - injection H as _ H. eauto.
Qed.

Lemma endswith_last_char (s a b : string) (c d : ascii) :
  Py.endswith s (a +:+ String c "") = true ->
  Py.endswith s (b +:+ String d "") = true -> c = d.
Proof.
  rewrite !endswith_spec. intros [p ->] [q Hq].
  rewrite <- !append_assoc in Hq. eapply last_char_unique, Hq.
Qed.

End PyFacts.

(** ** Classification of backup files *)

(** A name with a private suffix is not a database dump: the names end in
    different characters. *)
Lemma private_not_database (file : string) :
  Py.endswith file "private-files.tar" || Py.endswith file "private-files-enc.tar" = true ->
  Py.endswith file "database.sql.gz" || Py.endswith file "database-enc.sql.gz" = false.
Proof.
  intros Hpriv. apply orb_false_iff.
  assert (Hr : Py.endswith file "r" = true).
  { apply orb_true_iff in Hpriv as [H|H].
    - exact (PyFacts.endswith_trans file "private-files.ta" "r" H).
    - exact (PyFacts.endswith_trans file "private-files-enc.ta" "r" H). }
  split; apply not_true_is_false; intros Hz.
  - pose proof (PyFacts.endswith_last_char file "" "database.sql.g" _ _ Hr Hz).
    discriminate.
  - pose proof (PyFacts.endswith_last_char file "" "database-enc.sql.g" _ _ Hr Hz).
    discriminate.
Qed.

(** C9: in the suffix classification of [fetch_latest_backup], a file whose
    name ends with private-files.tar or private-files-enc.tar goes to the
    private list and the public list stays as it was, although the name also
    passes the public test (it ends with files.tar or files-enc.tar): the
    private test comes first. *)
Theorem private_suffix_classified_private
    (backup_dir : string) (b : buckets) (file : string) :
  Py.endswith file "private-files.tar" || Py.endswith file "private-files-enc.tar" = true ->
  classify backup_dir b file =
    {| databases := databases b;
       publics := publics b;
       privates := privates b ++ [Py.path_join backup_dir file] |}
  /\ Py.endswith file "files.tar" || Py.endswith file "files-enc.tar" = true.
Proof.
  intros Hpriv. split.
  - unfold classify. rewrite (private_not_database file Hpriv), Hpriv.
    reflexivity.
  - apply orb_true_iff. apply orb_true_iff in Hpriv as [H|H].
    + left. exact (PyFacts.endswith_trans file "private-" "files.tar" H).
    + right. exact (PyFacts.endswith_trans file "private-" "files-enc.tar" H).
Qed.

Lemma private_suffix_classified_private_witness :
  classify "/b" {| databases := []; publics := []; privates := [] |}
           "20240101_site-private-files.tar" =
    {| databases := []; publics := [];
       privates := ["/b/20240101_site-private-files.tar"] |}
  /\ Py.endswith "20240101_site-private-files.tar" "files.tar"
     || Py.endswith "20240101_site-private-files.tar" "files-enc.tar" = true.
Proof.
  apply (private_suffix_classified_private "/b"
           {| databases := []; publics := []; privates := [] |}
           "20240101_site-private-files.tar").
  reflexivity.
Defined.

(** ** Scan of the backup directory *)

Section Scan.

Context (backup_dir : string).

Lemma classify_origin (b : buckets) (file p : string) :
  p ∈ databases (classify backup_dir b file)
  \/ p ∈ publics (classify backup_dir b file)
  \/ p ∈ privates (classify backup_dir b file) ->
  (p ∈ databases b \/ p ∈ publics b \/ p ∈ privates b)
  \/ p = Py.path_join backup_dir file.
Proof.
  unfold classify.
  repeat match goal with |- context [if ?c then _ else _] => destruct c end;
    simpl; rewrite ?elem_of_app, ?list_elem_of_singleton; tauto.
Qed.

Lemma scan_origin_from (files : list string) (b : buckets) (p : string) :
  p ∈ databases (foldl (classify backup_dir) b files)
  \/ p ∈ publics (foldl (classify backup_dir) b files)
  \/ p ∈ privates (foldl (classify backup_dir) b files) ->
  (p ∈ databases b \/ p ∈ publics b \/ p ∈ privates b)
  \/ exists f, f ∈ files /\ p = Py.path_join backup_dir f.
Proof.
  revert b. induction files as [|f files IH]; intros b; simpl.
  - tauto.
  - intros H. apply IH in H as [H | (g & Hg & ->)].
    + apply classify_origin in H as [H | ->]; [tauto |].
      right. exists f. split; [set_solver | reflexivity].
    + right. exists g. split; [set_solver | reflexivity].
Qed.

(** Every candidate is the path of a file that was listed. *)
Lemma scan_origin (files : list string) (p : string) :
  p ∈ databases (scan backup_dir files)
  \/ p ∈ publics (scan backup_dir files)
  \/ p ∈ privates (scan backup_dir files) ->
  exists f, f ∈ files /\ p = Py.path_join backup_dir f.
Proof.
  intros H. apply scan_origin_from in H as [H | H]; [| exact H].
  simpl in H. rewrite !elem_of_nil in H. tauto.
Qed.

(** A listed file can be found again by its path. *)
Lemma find_entry_listed (listing : list file_entry) (f : string) :
  f ∈ file_name <$> listing ->
  exists e, find_entry backup_dir listing (Py.path_join backup_dir f) = Ok e.
Proof.
  intros Hf. apply list_elem_of_fmap in Hf as (e & -> & He).
  unfold find_entry.
  destruct (List.find _ listing) as [e'|] eqn:Hfind; [eauto |].
  apply list_elem_of_In in He.
  pose proof (List.find_none _ _ Hfind e He) as Hno. simpl in Hno.
  rewrite String.eqb_refl in Hno. discriminate.
Qed.

End Scan.

(** ** The maximum by key *)

Section PyMax.

Context (key : string -> result Z).

Lemma max_from_spec (rest : list string) (best : string) (kbest : Z) :
  key best = Ok kbest ->
  (forall x, x ∈ rest -> exists k, key x = Ok k) ->
  exists p kp,
    max_from key best kbest rest = Ok p
    /\ (p = best \/ p ∈ rest)
    /\ key p = Ok kp /\ kbest <= kp
    /\ forall x, x ∈ rest -> exists kx, key x = Ok kx /\ kx <= kp.
Proof.
  revert best kbest.
  induction rest as [|x rest IH]; intros best kbest Hbest Hkeys; simpl.
  - exists best, kbest. repeat split; auto; [lia | set_solver].
  - destruct (Hkeys x) as [k Hk]; [set_solver |]. rewrite Hk.
    assert (Hrest : forall y, y ∈ rest -> exists k', key y = Ok k')
      by (intros y Hy; apply Hkeys; set_solver).
    destruct (Z.ltb_spec kbest k) as [Hlt | Hge].
    + destruct (IH x k Hk Hrest) as (p & kp & Hp & Hin & Hkp & Hle & Hall).
      exists p, kp. repeat split; auto; [| lia |].
      { rewrite elem_of_cons. tauto. }
      intros y Hy. apply elem_of_cons in Hy as [-> | Hy]; eauto.
    + destruct (IH best kbest Hbest Hrest)
        as (p & kp & Hp & Hin & Hkp & Hle & Hall).
      exists p, kp. repeat split; auto.
      { rewrite elem_of_cons. tauto. }
      intros y Hy. apply elem_of_cons in Hy as [-> | Hy]; eauto.
      exists k. split; [exact Hk | lia].
Qed.

(** On a non-empty list whose keys can all be read, [max] returns an item
    with the largest key. *)
Lemma py_max_spec (items : list string) :
  items <> [] ->
  (forall x, x ∈ items -> exists k, key x = Ok k) ->
  exists p kp,
    py_max items key = Ok p /\ p ∈ items /\ key p = Ok kp
    /\ forall x, x ∈ items -> exists kx, key x = Ok kx /\ kx <= kp.
Proof.
  destruct items as [|x rest]; [congruence |]. intros _ Hkeys. simpl.
  destruct (Hkeys x) as [k Hk]; [set_solver |]. rewrite Hk.
  destruct (max_from_spec rest x k Hk)
    as (p & kp & Hp & Hin & Hkp & Hle & Hall).
  { intros y Hy. apply Hkeys. set_solver. }
  exists p, kp. repeat split; auto.
  { rewrite elem_of_cons. tauto. }
  intros y Hy. apply elem_of_cons in Hy as [-> | Hy]; eauto.
Qed.

Lemma py_max_empty : exists msg, py_max [] key = Raise (ValueError msg).
Proof. eexists. reflexivity. Qed.

End PyMax.

(** ** Latest backup *)

Section LatestBackup.

Context (env : environment) (self : Site) (w : world).

Let listing := on_listdir_backups env (trace w).
Let dir := backups_dir self.

(** The modification time of every candidate can be read. *)
Lemma candidate_mtime (p : string) :
  p ∈ databases (candidates env self w)
  \/ p ∈ publics (candidates env self w)
  \/ p ∈ privates (candidates env self w) ->
  exists m, mtime_of env self w p = Ok m.
Proof.
  intros Hp. apply scan_origin in Hp as (f & Hf & ->).
  destruct (find_entry_listed (backups_dir self) _ f Hf) as [e He].
  unfold mtime_of, getmtime. rewrite He. eauto.
Qed.

Lemma candidate_described (p : string) :
  p ∈ databases (candidates env self w)
  \/ p ∈ publics (candidates env self w)
  \/ p ∈ privates (candidates env self w) ->
  exists a, describe self dir listing p = Ok a /\ art_path a = p.
Proof.
  intros Hp. apply scan_origin in Hp as (f & Hf & ->).
  destruct (find_entry_listed (backups_dir self) _ f Hf) as [e He].
  unfold describe, dir, listing. rewrite He. eexists. split; reflexivity.
Qed.

(** The pick among the candidates of one role. *)
Lemma pick_latest (cands : list string) :
  cands <> [] ->
  (forall p, p ∈ cands ->
     p ∈ databases (candidates env self w)
     \/ p ∈ publics (candidates env self w)
     \/ p ∈ privates (candidates env self w)) ->
  exists p a,
    py_max cands (getmtime dir listing) = Ok p
    /\ describe self dir listing p = Ok a /\ art_path a = p
    /\ latest_of env self w cands p.
Proof.
  intros Hne Hsub.
  destruct (py_max_spec (getmtime dir listing) cands Hne)
    as (p & kp & Hmax & Hin & Hkp & Hall).
  { intros x Hx. apply candidate_mtime. auto. }
  destruct (candidate_described p (Hsub p Hin)) as (a & Ha & Hpath).
  exists p, a. repeat split; auto.
  exists kp. split; [exact Hkp | exact Hall].
Qed.

Lemma pick_ok_or_empty (cands : list string) :
  (forall p, p ∈ cands ->
     p ∈ databases (candidates env self w)
     \/ p ∈ publics (candidates env self w)
     \/ p ∈ privates (candidates env self w)) ->
  (cands = [] /\ py_max cands (getmtime dir listing) = Raise empty_max)
  \/ (cands <> [] /\ exists p, py_max cands (getmtime dir listing) = Ok p).
Proof.
  intros Hsub. destruct cands as [|c cands].
  - left. split; reflexivity.
  - right. split; [discriminate |].
    destruct (pick_latest (c :: cands)) as (p & a & Hp & _);
      [discriminate | exact Hsub | eauto].
Qed.

(** C4: whenever a required role (database always, private and public when
    files were requested) has no candidate file, [fetch_latest_backup]
    fails: it raises the error of [max] on an empty sequence, which is the
    failure the specification calls NoBackupFound, and changes nothing. *)
Theorem fetch_latest_backup_no_candidate (with_files : bool) :
  databases (candidates env self w) = []
  \/ (with_files = true
      /\ (privates (candidates env self w) = []
          \/ publics (candidates env self w) = [])) ->
  fetch_latest_backup env self with_files w = (Raise empty_max, w).
Proof.
  intros Hmissing.
  unfold fetch_latest_backup, bind, lift.
  fold dir listing. change (scan dir (file_name <$> listing))
    with (candidates env self w).
  destruct (pick_ok_or_empty (databases (candidates env self w)))
    as [[Hd ->] | [Hd [pd ->]]]; [tauto | reflexivity |].
  destruct Hmissing as [Hdb | [-> Hfiles]]; [congruence |].
  destruct (pick_ok_or_empty (privates (candidates env self w)))
    as [[Hp ->] | [Hp [pp ->]]]; [tauto | reflexivity |].
  destruct (pick_ok_or_empty (publics (candidates env self w)))
    as [[Hq ->] | [Hq [pq ->]]]; [tauto | reflexivity |].
  tauto.
Qed.

(** C5: when every required role has a candidate, [fetch_latest_backup]
    returns, for each role, a candidate of that role that no other candidate
    of the role beats in modification time; the result has the keys database,
    private and public when files are requested and only database otherwise.
    [backup] hands its request for files on to it. *)
Theorem fetch_latest_backup_selects (with_files : bool) :
  databases (candidates env self w) <> [] ->
  (with_files = true ->
   privates (candidates env self w) <> []
   /\ publics (candidates env self w) <> []) ->
  exists arts,
    fetch_latest_backup env self with_files w = (Ok arts, w)
    /\ arts.*1 = (if with_files then ["database"; "private"; "public"]
                  else ["database"])
    /\ (forall role a, (role, a) ∈ arts ->
          latest_of env self w
            (role_candidates (candidates env self w) role) (art_path a))
    /\ backup env self with_files =
         bind (bench_execute env self
                 ("backup " +:+ (if with_files then "--with-files" else "")))
              (fun _ => fetch_latest_backup env self with_files).
Proof.
  intros Hdb Hfiles.
  destruct (pick_latest (databases (candidates env self w)) Hdb)
    as (pd & ad & Hpd & Hdd & Had & Hld); [tauto |].
  unfold fetch_latest_backup, bind, lift.
  fold dir listing. change (scan dir (file_name <$> listing))
    with (candidates env self w).
  rewrite Hpd. destruct with_files.
  - destruct (Hfiles eq_refl) as [Hpriv Hpub].
    destruct (pick_latest (privates (candidates env self w)) Hpriv)
      as (pp & ap & Hpp & Hdp & Hap & Hlp); [tauto |].
    destruct (pick_latest (publics (candidates env self w)) Hpub)
      as (pq & aq & Hpq & Hdq & Haq & Hlq); [tauto |].
    rewrite Hpp, Hpq.
    cbn [for_fold bind lift ret snd fst]. unfold bind, lift.
    cbn [snd fst]. rewrite Hdd, Hdp, Hdq.
    eexists. split; [reflexivity |]. split; [reflexivity |]. split.
    + intros role a Hin. cbn in Hin.
      rewrite !elem_of_cons, elem_of_nil in Hin.
      destruct Hin as [Hin | [Hin | [Hin | []]]];
        injection Hin as -> ->; cbn; congruence.
    + reflexivity.
  - cbn [for_fold bind lift ret snd fst]. unfold bind, lift.
    cbn [snd fst]. rewrite Hdd.
    eexists. split; [reflexivity |]. split; [reflexivity |]. split.
    + intros role a Hin. cbn in Hin.
      rewrite !elem_of_cons, elem_of_nil in Hin.
      destruct Hin as [Hin | []].
      injection Hin as -> ->; cbn; congruence.
    + reflexivity.
Qed.

End LatestBackup.

Lemma fetch_latest_backup_no_candidate_witness :
  fetch_latest_backup
    (Sample.env_with (fun _ => Sample.done "") [] []) Sample.site true
    (Sample.world_with ∅)
  = (Raise empty_max, Sample.world_with ∅).
Proof.
  apply (fetch_latest_backup_no_candidate
           (Sample.env_with (fun _ => Sample.done "") [] [])
           Sample.site (Sample.world_with ∅) true).
  left. reflexivity.
Defined.

Lemma fetch_latest_backup_selects_witness :
  exists arts,
    fetch_latest_backup
      (Sample.env_with (fun _ => Sample.done "") Sample.two_dumps [])
      Sample.site false (Sample.world_with ∅)
    = (Ok arts, Sample.world_with ∅)
    /\ arts.*1 = ["database"].
Proof.
  destruct (fetch_latest_backup_selects
              (Sample.env_with (fun _ => Sample.done "") Sample.two_dumps [])
              Sample.site (Sample.world_with ∅) false)
    as (arts & Hrun & Hkeys & _).
  - vm_compute. discriminate.
  - intros Hreq. discriminate Hreq.
  - exists arts. split; [exact Hrun | exact Hkeys].
Defined.

(** The example of the specification: of an older a.database.sql.gz and a
    newer b.database.sql.gz the newer one becomes the database artifact. *)
Example newer_dump_selected :
  fst (fetch_latest_backup
         (Sample.env_with (fun _ => Sample.done "") Sample.two_dumps [])
         Sample.site false (Sample.world_with ∅))
  = Ok [("database",
         {| art_path := "/home/frappe/benches/b1/sites/shop.example.com/private/backups/b.database.sql.gz";
            art_file := "b.database.sql.gz";
            art_size := 20;
            art_url := "https://shop.example.com/backups/b.database.sql.gz" |})].
Proof. vm_compute. reflexivity. Qed.

(** ** Configuration updates *)

Lemma pop_all_lookup (remove : list string) (d : gmap string json) k :
  pop_all remove d !! k = if decide (k ∈ remove) then None else d !! k.
Proof.
  unfold pop_all. revert d.
  induction remove as [|r remove IH]; intros d; cbn [foldl].
  - rewrite decide_False by set_solver. reflexivity.
  - rewrite IH. destruct (decide (k = r)) as [->|Hne].
    + rewrite lookup_delete_eq.
      rewrite (decide_True (P := r ∈ r :: remove))
        by (apply elem_of_cons; auto).
      destruct (decide (r ∈ remove)); reflexivity.
    + rewrite lookup_delete_ne by congruence.
      destruct (decide (k ∈ remove)).
      * rewrite decide_True by (apply elem_of_cons; auto). reflexivity.
      * rewrite decide_False; [reflexivity |].
        rewrite elem_of_cons. tauto.
Qed.

(** Pointwise description of the stored document. *)
Lemma config_after_lookup value remove w k :
  config_after value remove w !! k =
    if decide (k ∈ default [] remove) then None
    else match value !! k with
         | Some v => Some v
         | None => site_config w !! k
         end.
Proof.
  unfold config_after, update_config, bind, config, setconfig.
  cbn [snd site_config write_config].
  assert (Hu : dict_update (site_config w) value !! k =
               match value !! k with
               | Some v => Some v
               | None => site_config w !! k
               end).
  { unfold dict_update. rewrite lookup_union.
    destruct (value !! k); destruct (site_config w !! k); reflexivity. }
  destruct remove as [[|r rs]|]; cbn [list_truthy default from_option id].
  - rewrite decide_False by set_solver. exact Hu.
  - rewrite pop_all_lookup, Hu. reflexivity.
  - rewrite decide_False by set_solver. exact Hu.
Qed.

(** [update_config] never fails and touches only the stored document. *)
Lemma update_config_run value remove w :
  update_config value remove w
  = (Ok tt, write_config (config_after value remove w) w).
Proof. reflexivity. Qed.

(** The claim of C2 as it is worded fails on a key that is added and removed
    in one call: the key is in the additions, yet the stored document does
    not have it. *)
Lemma update_config_added_key_removed :
  let value : gmap string json := {[ "maintenance_mode" := JInt 1 ]} in
  value !! "maintenance_mode" = Some (JInt 1)
  /\ config_after value (Some ["maintenance_mode"]) (Sample.world_with ∅)
       !! "maintenance_mode" = None.
Proof. split; vm_compute; reflexivity. Qed.

(** C2, amended: the stored document has every key of the additions that is
    not listed for removal, with its new value; it has no key listed for
    removal (whether or not the additions name it); every other key keeps
    the value it had. *)
Theorem update_config_result (value : gmap string json)
    (remove : option (list string)) (w : world) :
  (forall k v, value !! k = Some v -> k ∉ default [] remove ->
     config_after value remove w !! k = Some v)
  /\ (forall k, k ∈ default [] remove ->
        config_after value remove w !! k = None)
  /\ (forall k, value !! k = None -> k ∉ default [] remove ->
        config_after value remove w !! k = site_config w !! k).
Proof.
  repeat split; intros k.
  - intros v Hv Hk. rewrite config_after_lookup, decide_False, Hv; auto.
  - intros Hk. rewrite config_after_lookup, decide_True; auto.
  - intros Hv Hk. rewrite config_after_lookup, decide_False, Hv; auto.
Qed.

Lemma update_config_result_witness :
  let doc : gmap string json :=
    {[ "db_name" := JStr "_3f2a"; "pause_scheduler" := JInt 1 ]} in
  let value : gmap string json := {[ "host_name" := JStr "https://x.com" ]} in
  let after := config_after value (Some ["pause_scheduler"])
                 (Sample.world_with doc) in
  after !! "host_name" = Some (JStr "https://x.com")
  /\ after !! "pause_scheduler" = None
  /\ after !! "db_name" = Some (JStr "_3f2a").
Proof.
  intros doc value after.
  destruct (update_config_result value (Some ["pause_scheduler"])
              (Sample.world_with doc)) as (Hadd & Hdel & Hkeep).
  split; [| split].
  - apply Hadd; [reflexivity |].
    cbn. rewrite elem_of_cons, elem_of_nil. intros [H | []]. discriminate H.
  - apply Hdel. cbn. apply elem_of_cons. auto.
  - rewrite Hkeep; [reflexivity | reflexivity |].
    cbn. rewrite elem_of_cons, elem_of_nil. intros [H | []]. discriminate H.
Defined.

(** C10: a key that is both in the additions and in the removal list of one
    [update_config] call is absent from the stored document. *)
Theorem update_config_removal_wins (value : gmap string json)
    (remove : list string) (w : world) (k : string) :
  is_Some (value !! k) -> k ∈ remove ->
  config_after value (Some remove) w !! k = None.
Proof.
  intros _ Hk. rewrite config_after_lookup. simpl.
  rewrite decide_True; auto.
Qed.

Lemma update_config_removal_wins_witness :
  config_after {[ "maintenance_mode" := JInt 1 ]} (Some ["maintenance_mode"])
    (Sample.world_with {[ "maintenance_mode" := JInt 0 ]})
    !! "maintenance_mode" = None.
Proof.
  apply (update_config_removal_wins {[ "maintenance_mode" := JInt 1 ]}
           ["maintenance_mode"]
           (Sample.world_with {[ "maintenance_mode" := JInt 0 ]})
           "maintenance_mode").
  - vm_compute. eauto.
  - apply elem_of_cons. auto.
Defined.

(** ** Domains *)

Section Domains.

Context (env : environment).

Lemma domain_names_strings (ds : list string) :
  domain_names (JStr <$> ds) = Ok ds.
Proof.
  induction ds as [|x ds IH]; cbn; [reflexivity | now rewrite IH].
Qed.

Lemma stored_domains_run (w : world) (ds : list string) :
  stores_domains w ds ->
  stored_domains w = (Ok (list_to_set ds), w).
Proof.
  unfold stored_domains, bind, config, lift.
  intros [-> | [-> ->]]; cbn [default from_option id py_set].
  - now rewrite domain_names_strings.
  - reflexivity.
Qed.

(** The proxy calls leave the document alone and are logged in order;
    the reload happens when the regeneration returns. *)
Lemma proxy_refresh_run (w : world) :
  let w' := snd (bind (setup_nginx env) (fun _ => reload_nginx env) w) in
  site_config w' = site_config w
  /\ trace w' =
       trace w ++ SetupNginx ::
         (if is_ok (on_setup_nginx env (trace w ++ [SetupNginx]))
          then [ReloadNginx] else []).
Proof.
  unfold bind, setup_nginx, reload_nginx, call. cbn [log trace].
  destruct (on_setup_nginx env (trace w ++ [SetupNginx])) as [[]|e];
    cbn [is_ok].
  - destruct (on_reload_nginx env _); cbn; split; try reflexivity;
      now rewrite <- app_assoc.
  - cbn. split; reflexivity.
Qed.

(** What a domain job that stores the set [s] leaves behind. *)
Lemma store_domains_run (s : gset string) (w : world) :
  let w' := snd (bind (update_config (domains_value s) None)
                   (fun _ => bind (setup_nginx env)
                               (fun _ => reload_nginx env)) w) in
  site_config w' !! "domains" = Some (JArr (JStr <$> elements s))
  /\ trace w' =
       trace w ++ SetupNginx ::
         (if is_ok (on_setup_nginx env (trace w ++ [SetupNginx]))
          then [ReloadNginx] else []).
Proof.
  unfold bind at 1. rewrite update_config_run.
  destruct (proxy_refresh_run
              (write_config (config_after (domains_value s) None w) w))
    as [Hcfg Htr].
  cbv zeta in *. split.
  - rewrite Hcfg. cbn [site_config write_config].
    rewrite config_after_lookup. cbn [default from_option id].
    rewrite decide_False by apply not_elem_of_nil.
    unfold domains_value. now rewrite lookup_singleton_eq.
  - exact Htr.
Qed.

Lemma add_domain_run (d : string) (w : world) (ds : list string) :
  stores_domains w ds ->
  stores_domains (snd (add_domain env d w))
    (elements (list_to_set ds ∪ {[ d ]} : gset string)).
Proof.
  intros Hst.
  assert (Hrun : add_domain env d w =
    bind (update_config (domains_value (list_to_set ds ∪ {[ d ]})) None)
         (fun _ => bind (setup_nginx env) (fun _ => reload_nginx env)) w).
  { unfold add_domain. unfold bind at 1.
    now rewrite (stored_domains_run w ds Hst). }
  rewrite Hrun. left. apply store_domains_run.
Qed.

Lemma remove_domain_run (d : string) (w : world) (ds : list string) :
  stores_domains w ds ->
  let w' := snd (remove_domain env d w) in
  site_config w' !! "domains"
    = Some (JArr (JStr <$> elements (list_to_set ds ∖ {[ d ]} : gset string)))
  /\ trace w' =
       trace w ++ SetupNginx ::
         (if is_ok (on_setup_nginx env (trace w ++ [SetupNginx]))
          then [ReloadNginx] else []).
Proof.
  intros Hst.
  assert (Hrun : remove_domain env d w =
    bind (update_config (domains_value (list_to_set ds ∖ {[ d ]})) None)
         (fun _ => bind (setup_nginx env) (fun _ => reload_nginx env)) w).
  { unfold remove_domain. unfold bind at 1.
    now rewrite (stored_domains_run w ds Hst). }
  rewrite Hrun. apply store_domains_run.
Qed.

(** An item of a duplicate-free list occurs once. *)
Lemma count_occ_NoDup (l : list string) (d : string) :
  NoDup l -> d ∈ l -> count_occ string_dec l d = 1%nat.
Proof.
  intros Hnd Hd. apply NoDup_ListNoDup in Hnd. apply list_elem_of_In in Hd.
  now apply (proj1 (List.NoDup_count_occ' string_dec l) Hnd).
Qed.

(** C8: for every stored domain list and every domain [d], after
    [add_domain d] ran twice the stored list holds [d] exactly once next to
    the domains stored before; [remove_domain d] for a [d] that is not
    stored leaves the set of stored domains as it was and still calls the
    proxy regeneration, followed by the reload when the regeneration
    returns. *)
Theorem domain_set_mutation (w : world) (ds : list string) (d : string) :
  stores_domains w ds ->
  (exists l,
     site_config (snd (add_domain env d (snd (add_domain env d w))))
       !! "domains" = Some (JArr (JStr <$> l))
     /\ count_occ string_dec l d = 1%nat
     /\ forall x, x ∈ l <-> x = d \/ x ∈ ds)
  /\ (d ∉ ds ->
      exists l,
        site_config (snd (remove_domain env d w)) !! "domains"
          = Some (JArr (JStr <$> l))
        /\ (forall x, x ∈ l <-> x ∈ ds)
        /\ new_events (remove_domain env d) w =
             SetupNginx ::
               (if is_ok (on_setup_nginx env (trace w ++ [SetupNginx]))
                then [ReloadNginx] else [])).
Proof.
  intros Hst. split.
  - pose proof (add_domain_run d _ _ (add_domain_run d w ds Hst)) as H2.
    destruct H2 as [H2 | [H2 Hnil]].
    + eexists. split; [exact H2 |].
      rewrite list_to_set_elements_L.
      split.
      * apply count_occ_NoDup; [apply NoDup_elements |].
        apply elem_of_elements, elem_of_union. right.
        now apply elem_of_singleton.
      * intros x.
        rewrite elem_of_elements, !elem_of_union, elem_of_list_to_set,
          elem_of_singleton.
        tauto.
    + exfalso.
      assert (Hd : d ∈ elements (list_to_set (elements
                (list_to_set ds ∪ {[ d ]} : gset string)) ∪ {[ d ]}
                : gset string))
        by (apply elem_of_elements, elem_of_union; right;
            now apply elem_of_singleton).
      rewrite Hnil in Hd. now apply elem_of_nil in Hd.
  - intros Hd. destruct (remove_domain_run d w ds Hst) as [Hcfg Htr].
    eexists. split; [exact Hcfg |]. split.
    + intros x.
      rewrite elem_of_elements, elem_of_difference, elem_of_list_to_set,
        elem_of_singleton.
      split; [tauto |]. intros Hx. split; [exact Hx |].
      intros ->. contradiction.
    + unfold new_events. rewrite Htr. apply drop_app_length.
Qed.

End Domains.

Lemma domain_set_mutation_witness :
  let w := Sample.world_with {[ "domains" := JArr [JStr "a.com"; JStr "b.com"] ]} in
  let env := Sample.env_with (fun _ => Sample.done "") [] [] in
  (exists l,
     site_config (snd (add_domain env "x.com" (snd (add_domain env "x.com" w))))
       !! "domains" = Some (JArr (JStr <$> l))
     /\ count_occ string_dec l "x.com" = 1%nat)
  /\ new_events (remove_domain env "x.com") w = [SetupNginx; ReloadNginx].
Proof.
  intros w env.
  destruct (domain_set_mutation env w ["a.com"; "b.com"] "x.com")
    as [(l & Hl & Hcount & _) Hrem].
  - left. reflexivity.
  - split.
    + exists l. split; [exact Hl | exact Hcount].
    + destruct Hrem as (l' & _ & _ & Hev).
      * rewrite !elem_of_cons, elem_of_nil.
        intros [H | [H | []]]; discriminate H.
      * exact Hev.
Defined.

(** ** Traces *)

Lemma new_events_app {A} (m : M A) (w : world) (new : list event) :
  trace (snd (m w)) = trace w ++ new -> new_events m w = new.
Proof. intros H. unfold new_events. rewrite H. apply drop_app_length. Qed.

Lemma count_events_app p (l1 l2 : list event) :
  count_events p (l1 ++ l2) = (count_events p l1 + count_events p l2)%nat.
Proof. unfold count_events. now rewrite List.filter_app, length_app. Qed.

Lemma count_events_none p (l : list event) :
  Forall (fun ev => p ev = false) l -> count_events p l = 0%nat.
Proof.
  unfold count_events. induction 1 as [|ev l Hev _ IH]; cbn; [reflexivity |].
  now rewrite Hev.
Qed.

Section Emits.

Context (P : event -> Prop).

Lemma emits_ret {A} (a : A) : emits P (ret a).
Proof. intros w. exists []. split; [now rewrite app_nil_r | constructor]. Qed.

Lemma emits_lift {A} (r : result A) : emits P (lift r).
Proof. intros w. exists []. split; [now rewrite app_nil_r | constructor]. Qed.

Lemma emits_bind {A B} (m : M A) (k : A -> M B) :
  emits P m -> (forall a, emits P (k a)) -> emits P (bind m k).
Proof.
  intros Hm Hk w. unfold bind.
  destruct (Hm w) as (n1 & H1 & F1). destruct (m w) as [[a|e] w1]; cbn in *.
  - destruct (Hk a w1) as (n2 & H2 & F2). exists (n1 ++ n2). split.
    + now rewrite H2, H1, app_assoc.
    + now apply Forall_app.
  - exists n1. split; assumption.
Qed.

Lemma emits_call {A} (ev : event) (answer : list event -> result A) :
  P ev -> emits P (call ev answer).
Proof.
  intros Hev w. exists [ev]. split; [reflexivity | now repeat constructor].
Qed.

Lemma emits_run_command (env : environment) (ev : event) :
  P ev -> emits P (run_command env ev).
Proof.
  intros Hev w. exists [ev]. unfold run_command.
  destruct (on_command env _); (split; [reflexivity | now repeat constructor]).
Qed.

Lemma emits_for_each {A} (xs : list A) (body : A -> M unit) :
  (forall x, emits P (body x)) -> emits P (for_each xs body).
Proof.
  intros Hbody. induction xs as [|x xs IH]; cbn [for_each].
  - apply emits_ret.
  - apply emits_bind; auto.
Qed.

End Emits.

(** ** Cleanup after restore and reinstall *)

Section Cleanup.

Context (env : environment) (self : Site).

(** A command under [try: ... finally: drop_mariadb_user]: the command and
    the drop are both logged, whichever way the command ends. *)
Lemma guarded_command_trace (cmd pw : string) (w : world) :
  trace (snd (try_finally (bench_execute env self cmd)
                (drop_mariadb_user env (name self) pw (database self)) w))
  = trace w ++
      [DockerExecute (bench_command self cmd);
       DropMariadbUser (name self) pw (database self)].
Proof.
  unfold try_finally, bench_execute, run_command, drop_mariadb_user, call.
  cbv zeta. cbn [log trace].
  destruct (on_command env _); cbn [log tick trace];
    destruct (on_drop_mariadb_user env _); cbn [snd log tick trace];
    now rewrite <- app_assoc.
Qed.

Lemma restore_trace (pw admin dbf pubf privf : string) (w : world) :
  let create := CreateMariadbUser (name self) pw (database self) in
  exists cmd,
    trace (snd (restore env self pw admin dbf pubf privf w))
    = trace w ++ create ::
        (if is_ok (on_create_mariadb_user env (trace w ++ [create]))
         then [DockerExecute cmd;
               DropMariadbUser (name self) pw (database self)]
         else []).
Proof.
  intros create. unfold restore, bind. unfold create_mariadb_user, call at 1.
  cbn [log trace]. fold create.
  destruct (on_create_mariadb_user env (trace w ++ [create]))
    as [[[x u] p]|e]; cbn [is_ok].
  - eexists. rewrite guarded_command_trace. cbn [trace log].
    now rewrite <- app_assoc.
  - exists "". reflexivity.
Qed.

Lemma reinstall_trace (pw admin : string) (w : world) :
  let create := CreateMariadbUser (name self) pw (database self) in
  exists cmd,
    trace (snd (reinstall env self pw admin w))
    = trace w ++ create ::
        (if is_ok (on_create_mariadb_user env (trace w ++ [create]))
         then [DockerExecute cmd;
               DropMariadbUser (name self) pw (database self)]
         else []).
Proof.
  intros create. unfold reinstall, bind. unfold create_mariadb_user, call at 1.
  cbn [log trace]. fold create.
  destruct (on_create_mariadb_user env (trace w ++ [create]))
    as [[[x u] p]|e]; cbn [is_ok].
  - eexists. rewrite guarded_command_trace. cbn [trace log].
    now rewrite <- app_assoc.
  - exists "". reflexivity.
Qed.

Lemma try_finally_call_trace {A} (body : M A) (ev : event)
    (answer : list event -> result unit) (w : world) :
  trace (snd (try_finally body (call ev answer) w))
  = trace (snd (body w)) ++ [ev].
Proof.
  unfold try_finally, call. destruct (body w) as [r w1]. cbn [snd].
  destruct (answer _); reflexivity.
Qed.

Lemma bench_execute_no_cleanup (cmd : string) :
  emits no_cleanup (bench_execute env self cmd).
Proof. apply emits_run_command. split; reflexivity. Qed.

Lemma uninstall_unavailable_apps_no_cleanup (apps : list string) :
  emits no_cleanup (uninstall_unavailable_apps env self apps).
Proof.
  unfold uninstall_unavailable_apps.
  apply emits_bind; [apply bench_execute_no_cleanup | intros listing].
  apply emits_bind; [apply emits_lift | intros installed].
  apply emits_for_each. intros app.
  destruct (negb _); [| apply emits_ret].
  repeat (apply emits_bind; [apply bench_execute_no_cleanup | intros _]).
  apply emits_ret.
Qed.

(** What [restore_job] does once the restore and the deletion of the
    downloaded files are over. *)
Lemma restore_job_rest_no_cleanup (apps : list string) (admin : string)
    (skip : bool) :
  emits no_cleanup
    (bind (uninstall_unavailable_apps env self apps) (fun _ =>
     bind (migrate env self skip) (fun _ =>
     bind (set_admin_password env self admin) (fun _ =>
     bind (enable_scheduler env self) (fun _ =>
     bind (setup_nginx env) (fun _ =>
     bind (reload_nginx env) (fun _ =>
     bench_execute env self "list-apps"))))))).
Proof.
  apply emits_bind; [apply uninstall_unavailable_apps_no_cleanup | intros _].
  apply emits_bind; [destruct skip; apply bench_execute_no_cleanup | intros _].
  apply emits_bind; [apply bench_execute_no_cleanup | intros _].
  apply emits_bind; [apply bench_execute_no_cleanup | intros _].
  apply emits_bind; [apply emits_call; split; reflexivity | intros _].
  apply emits_bind; [apply emits_call; split; reflexivity | intros _].
  apply bench_execute_no_cleanup.
Qed.

Lemma restore_job_trace (apps : list string) (pw admin db pub priv : string)
    (skip : bool) (w : world) (files : downloaded_files) :
  let dl := DownloadFiles (name self) db pub priv in
  let create := CreateMariadbUser (name self) pw (database self) in
  on_download_files env (trace w ++ [dl]) = Ok files ->
  exists cmd rest,
    Forall no_cleanup rest
    /\ trace (snd (restore_job env self apps pw admin db pub priv skip w))
       = trace w ++ dl :: create ::
           (if is_ok (on_create_mariadb_user env (trace w ++ [dl; create]))
            then [DockerExecute cmd;
                  DropMariadbUser (name self) pw (database self)]
            else [])
           ++ DeleteDownloadedFiles (dl_directory files) :: rest.
Proof.
  intros dl create Hdl. unfold restore_job.
  unfold bind at 1. unfold download_files, call at 1.
  cbn [log trace]. fold dl. rewrite Hdl.
  set (w1 := log dl w).
  destruct (restore_trace pw admin (dl_database files) (dl_public files)
              (dl_private files) w1) as [cmd Hrestore].
  fold create in Hrestore. cbn [w1 log trace] in Hrestore.
  rewrite <- app_assoc in Hrestore. cbn [app] in Hrestore.
  pose proof (try_finally_call_trace
                (restore env self pw admin (dl_database files)
                   (dl_public files) (dl_private files))
                (DeleteDownloadedFiles (dl_directory files))
                (on_delete_downloaded_files env) w1) as Hguard.
  fold (delete_downloaded_files env (dl_directory files)) in Hguard.
  rewrite Hrestore in Hguard.
  unfold bind at 1.
  destruct (try_finally _ _ w1) as [[out|e] w2]; cbn [snd] in Hguard.
  - destruct (restore_job_rest_no_cleanup apps admin skip w2)
      as (rest & Hrest & Hquiet).
    exists cmd, rest. split; [exact Hquiet |].
    rewrite Hrest, Hguard. rewrite <- !app_assoc. reflexivity.
  - exists cmd, []. split; [constructor |].
    cbn [snd]. rewrite Hguard. rewrite <- !app_assoc. reflexivity.
Qed.

End Cleanup.

(** C1: in every run of the restore step and of the reinstall step, a
    credential that was provisioned is dropped exactly once, right after the
    wrapped command and whether that command returned or raised (the trace
    does not depend on its answer); in every run of the restore job whose
    download returned, the downloaded files are deleted exactly once and the
    credential is dropped once if it was provisioned. *)
Theorem cleanup_on_every_exit (env : environment) (self : Site) :
  (forall pw admin dbf pubf privf w,
     let create := CreateMariadbUser (name self) pw (database self) in
     exists cmd,
       new_events (restore env self pw admin dbf pubf privf) w
       = create ::
           (if is_ok (on_create_mariadb_user env (trace w ++ [create]))
            then [DockerExecute cmd;
                  DropMariadbUser (name self) pw (database self)]
            else []))
  /\ (forall pw admin w,
        let create := CreateMariadbUser (name self) pw (database self) in
        exists cmd,
          new_events (reinstall env self pw admin) w
          = create ::
              (if is_ok (on_create_mariadb_user env (trace w ++ [create]))
               then [DockerExecute cmd;
                     DropMariadbUser (name self) pw (database self)]
               else []))
  /\ (forall apps pw admin db pub priv skip w files,
        let dl := DownloadFiles (name self) db pub priv in
        let create := CreateMariadbUser (name self) pw (database self) in
        let new :=
          new_events (restore_job env self apps pw admin db pub priv skip) w in
        on_download_files env (trace w ++ [dl]) = Ok files ->
        count_events is_delete new = 1%nat
        /\ In (DeleteDownloadedFiles (dl_directory files)) new
        /\ count_events is_drop new =
             (if is_ok (on_create_mariadb_user env (trace w ++ [dl; create]))
              then 1%nat else 0%nat)).
Proof.
  split; [| split].
  - intros pw admin dbf pubf privf w create.
    destruct (restore_trace env self pw admin dbf pubf privf w) as [cmd H].
    exists cmd. now apply new_events_app.
  - intros pw admin w create.
    destruct (reinstall_trace env self pw admin w) as [cmd H].
    exists cmd. now apply new_events_app.
  - intros apps pw admin db pub priv skip w files dl create new Hdl.
    destruct (restore_job_trace env self apps pw admin db pub priv skip w
                files Hdl) as (cmd & rest & Hquiet & Htrace).
    apply new_events_app in Htrace. fold dl create in Htrace.
    subst new. rewrite Htrace.
    assert (Hdrop : count_events is_drop rest = 0%nat).
    { apply count_events_none. eapply Forall_impl; [exact Hquiet |].
      intros ev [H _]. exact H. }
    assert (Hdel : count_events is_delete rest = 0%nat).
    { apply count_events_none. eapply Forall_impl; [exact Hquiet |].
      intros ev [_ H]. exact H. }
    change (dl :: create :: ?l) with ([dl; create] ++ l).
    change (DeleteDownloadedFiles (dl_directory files) :: rest)
      with ([DeleteDownloadedFiles (dl_directory files)] ++ rest).
    rewrite !count_events_app, Hdrop, Hdel.
    split; [| split].
    + destruct (is_ok _); reflexivity.
    + apply in_or_app. right. apply in_or_app. right.
      apply in_or_app. left. now left.
    + destruct (is_ok _); reflexivity.
Qed.

(** A restore job whose restore command fails: the credential is dropped
    and the downloaded files are deleted all the same. *)
Lemma cleanup_on_every_exit_witness :
  let env := Sample.env_with (fun _ => Sample.broken "restore failed") [] [] in
  let job := restore_job env Sample.site ["frappe"] "root" "admin"
               "https://x/db.sql.gz" "" "" false in
  count_events is_delete (new_events job (Sample.world_with ∅)) = 1%nat
  /\ count_events is_drop (new_events job (Sample.world_with ∅)) = 1%nat.
Proof.
  intros env job.
  destruct (cleanup_on_every_exit env Sample.site) as (_ & _ & Hjob).
  destruct (Hjob ["frappe"] "root" "admin" "https://x/db.sql.gz" "" "" false
              (Sample.world_with ∅)
              {| dl_directory := "/tmp/dl";
                 dl_database := "/tmp/dl/db.sql.gz";
                 dl_public := ""; dl_private := "" |} eq_refl)
    as (Hdel & _ & Hdrop).
  split; [exact Hdel | exact Hdrop].
Defined.

(** The same run, event by event: the failure of the restore command leaves
    the job after both cleanups. *)
Example restore_job_failing_command :
  let env := Sample.env_with (fun _ => Sample.broken "restore failed") [] [] in
  let run := restore_job env Sample.site ["frappe"] "root" "admin"
               "https://x/db.sql.gz" "" "" false (Sample.world_with ∅) in
  fst run = Raise (AgentException {| output := "restore failed"; duration := 250 |})
  /\ trace (snd run) =
       [ DownloadFiles "shop.example.com" "https://x/db.sql.gz" "" "";
         CreateMariadbUser "shop.example.com" "root" "_3f2a";
         DockerExecute
           ("bench --site shop.example.com --force restore "
            +:+ "--mariadb-root-username tmp_user "
            +:+ "--mariadb-root-password tmp_pw "
            +:+ "--admin-password admin   /tmp/dl/db.sql.gz");
         DropMariadbUser "shop.example.com" "root" "_3f2a";
         DeleteDownloadedFiles "/tmp/dl" ].
Proof. vm_compute. split; reflexivity. Qed.

(** ** App reconciliation *)

Section Reconcile.

Context (env : environment) (self : Site).

Lemma append_quote_inj (a b : string) : a +:+ "'" = b +:+ "'" -> a = b.
Proof.
  revert b. induction a as [|x a IH]; intros [|y b];
    PyFacts.str_simpl; intros H.
  - reflexivity.
  - injection H as _ H. destruct b; discriminate.
  - injection H as _ H. destruct a; discriminate.
  - injection H as -> H. f_equal. auto.
Qed.

Lemma remove_app_command_inj (a b : string) :
  bench_command self (remove_app_command a)
  = bench_command self (remove_app_command b) -> a = b.
Proof.
  unfold bench_command, remove_app_command. intros H.
  do 4 apply PyFacts.append_inj_l in H.
  now apply append_quote_inj.
Qed.

Lemma remove_app_command_not_other (a : string) :
  bench_command self (remove_app_command a)
    <> bench_command self installed_apps_command
  /\ bench_command self (remove_app_command a)
       <> bench_command self "clear-cache".
Proof.
  unfold bench_command, remove_app_command.
  split; intros H; do 3 apply PyFacts.append_inj_l in H;
    PyFacts.str_simpl_in H; discriminate.
Qed.

Lemma bench_execute_returns (cmd : string) (w : world) :
  commands_succeed env ->
  exists d, bench_execute env self cmd w =
    (Ok d, tick (Z.of_N (duration d))
             (log (DockerExecute (bench_command self cmd)) w)).
Proof.
  intros Hok. unfold bench_execute, run_command. cbv zeta.
  destruct (Hok (trace (log (DockerExecute (bench_command self cmd)) w)))
    as [d ->].
  now exists d.
Qed.

(** The loop over the installed apps, when every command returns. *)
Lemma reconcile_loop (keep installed : list string) (w : world) :
  commands_succeed env ->
  exists w',
    for_each installed (fun app =>
      if negb (bool_decide (app ∈ keep))
      then bind (bench_execute env self (remove_app_command app)) (fun _ =>
           bind (bench_execute env self "clear-cache") (fun _ => ret tt))
      else ret tt) w = (Ok tt, w')
    /\ trace w' = trace w ++ flat_map (reconcile_events self keep) installed.
Proof.
  intros Hok. revert w.
  induction installed as [|app installed IH]; intros w; cbn [for_each flat_map].
  - exists w. split; [reflexivity | now rewrite app_nil_r].
  - unfold bind at 1. unfold reconcile_events at 1.
    destruct (bool_decide (app ∈ keep)); cbn [negb].
    + apply IH.
    + unfold bind at 1.
      destruct (bench_execute_returns (remove_app_command app) w Hok)
        as [d1 ->].
      unfold bind at 1.
      destruct (bench_execute_returns "clear-cache"
                  (tick (Z.of_N (duration d1))
                     (log (DockerExecute
                             (bench_command self (remove_app_command app))) w))
                  Hok) as [d2 ->].
      cbn [ret].
      match goal with
      | |- context [for_each installed ?body ?w2] =>
          destruct (IH w2) as (w' & Hres & Htr)
      end.
      exists w'. split; [exact Hres |]. rewrite Htr.
      cbn [trace tick log]. rewrite <- !app_assoc. reflexivity.
Qed.

Lemma docker_execute_inj (x y : string) :
  DockerExecute x = DockerExecute y -> x = y.
Proof. intros H. now injection H. Qed.

Lemma uninstalled_iff (keep installed : list string) (app : string) :
  uninstalled self
    (DockerExecute (bench_command self installed_apps_command)
       :: flat_map (reconcile_events self keep) installed) app
  <-> app ∈ installed /\ app ∉ keep.
Proof.
  unfold uninstalled. cbn [In]. rewrite in_flat_map. split.
  - intros [H | (x & Hx & Hin)].
    + apply docker_execute_inj in H. symmetry in H.
      now apply remove_app_command_not_other in H.
    + unfold reconcile_events in Hin.
      destruct (bool_decide_reflect (x ∈ keep)) as [Hk | Hk]; [destruct Hin |].
      destruct Hin as [H | [H | []]]; apply docker_execute_inj in H.
      * apply remove_app_command_inj in H. subst x.
        split; [now apply list_elem_of_In | exact Hk].
      * symmetry in H. now apply remove_app_command_not_other in H.
  - intros [Hin Hk]. right. exists app. split; [now apply list_elem_of_In |].
    unfold reconcile_events.
    destruct (bool_decide_reflect (app ∈ keep)); [contradiction | now left].
Qed.

(** C7: when the listing of installed apps reads as [installed] and the
    commands return, [uninstall_unavailable_apps] asks, in order, for the
    removal of every installed app that is not in the keep-set, each removal
    followed by a cache clear, and for nothing else; so the apps left are
    the installed ones that are in the keep-set. *)
Theorem uninstall_unavailable_apps_reconciles
    (keep installed : list string) (listing : command_data) (w : world) :
  commands_succeed env ->
  on_command env
    (trace w ++ [DockerExecute (bench_command self installed_apps_command)])
    = Returned listing ->
  on_json_loads env (output listing) = Ok installed ->
  let new := new_events (uninstall_unavailable_apps env self keep) w in
  fst (uninstall_unavailable_apps env self keep w) = Ok tt
  /\ new = DockerExecute (bench_command self installed_apps_command)
           :: flat_map (reconcile_events self keep) installed
  /\ (forall app, uninstalled self new app <-> app ∈ installed /\ app ∉ keep)
  /\ (forall app, app ∈ installed /\ ~ uninstalled self new app
                  <-> app ∈ installed /\ app ∈ keep).
Proof.
  intros Hok Hlist Hloads new.
  assert (Hrun : exists w',
    uninstall_unavailable_apps env self keep w = (Ok tt, w')
    /\ trace w'
       = trace w ++ DockerExecute (bench_command self installed_apps_command)
           :: flat_map (reconcile_events self keep) installed).
  { unfold uninstall_unavailable_apps. unfold bind at 1.
    unfold bench_execute at 1, run_command. cbv zeta. cbn [log trace].
    rewrite Hlist. unfold bind at 1. unfold json_loads_apps, lift.
    rewrite Hloads.
    match goal with
    | |- context [for_each installed ?body ?w2] =>
        destruct (reconcile_loop keep installed w2 Hok) as (w' & Hres & Htr)
    end.
    exists w'. split; [exact Hres |].
    rewrite Htr. cbn [trace tick log]. now rewrite <- app_assoc. }
  destruct Hrun as (w' & Hres & Htr).
  assert (Htr' : trace (snd (uninstall_unavailable_apps env self keep w))
                 = trace w ++ DockerExecute
                     (bench_command self installed_apps_command)
                     :: flat_map (reconcile_events self keep) installed)
    by now rewrite Hres.
  rewrite Hres. clear Htr. rename Htr' into Htr.
  apply new_events_app in Htr.
  subst new. rewrite Htr. split; [reflexivity |]. split; [reflexivity |].
  split.
  - intros app. apply uninstalled_iff.
  - intros app. rewrite uninstalled_iff.
    destruct (decide (app ∈ keep)); tauto.
Qed.

End Reconcile.

(** The example of the specification: frappe, crm and hr are installed,
    frappe and crm are kept; only hr is removed. *)
Lemma uninstall_unavailable_apps_reconciles_witness :
  let env := Sample.env_with (fun _ => Sample.done "[...]")
               [] ["frappe"; "crm"; "hr"] in
  new_events (uninstall_unavailable_apps env Sample.site ["frappe"; "crm"])
    (Sample.world_with ∅)
  = [ DockerExecute
        "bench --site shop.example.com execute frappe.get_installed_apps";
      DockerExecute
        "bench --site shop.example.com remove-from-installed-apps 'hr'";
      DockerExecute "bench --site shop.example.com clear-cache" ].
Proof.
  intros env.
  destruct (uninstall_unavailable_apps_reconciles env Sample.site
              ["frappe"; "crm"] ["frappe"; "crm"; "hr"]
              {| output := "[...]"; duration := 250 |} (Sample.world_with ∅))
    as (_ & Hnew & _).
  - intros tr. eexists. reflexivity.
  - reflexivity.
  - reflexivity.
  - rewrite Hnew. vm_compute. reflexivity.
Defined.

(** ** Table-wise backup *)

Section Tablewise.

Context (env : environment) (self : Site).

Lemma execute_returns (cmd : string) (w : world) :
  commands_succeed env ->
  exists d, execute env cmd w =
    (Ok d, tick (Z.of_N (duration d)) (log (Execute cmd) w)).
Proof.
  intros Hok. unfold execute, run_command. cbv zeta.
  destruct (Hok (trace (log (Execute cmd) w))) as [d ->].
  now exists d.
Qed.

Lemma execute_staging (cmd : string) (w : world) :
  staging (snd (execute env cmd w)) = staging w.
Proof.
  unfold execute, run_command. cbv zeta.
  destruct (on_command env _); reflexivity.
Qed.

(** The dumps never touch the staging directory themselves. *)
Lemma dump_loop_staging (tbls : list string)
    (data : gmap string command_data) (w : world) :
  staging (snd (for_fold tbls (fun data table =>
             bind (execute env (dump_command self table))
                  (fun out => ret (<[ table := out ]> data))) data w))
  = staging w.
Proof.
  revert data w. induction tbls as [|t tbls IH]; intros data w;
    cbn [for_fold]; [reflexivity |].
  unfold bind at 1. unfold bind at 1.
  pose proof (execute_staging (dump_command self t) w) as Hst.
  destruct (execute env (dump_command self t) w) as [[out|e] w1];
    cbn [snd ret] in *.
  - rewrite IH. exact Hst.
  - exact Hst.
Qed.

(** The loop over the tables, when every dump returns. *)
Lemma dump_loop (tbls : list string) (data : gmap string command_data)
    (w : world) :
  commands_succeed env ->
  exists data' w',
    for_fold tbls (fun data table =>
      bind (execute env (dump_command self table))
           (fun out => ret (<[ table := out ]> data))) data w
    = (Ok data', w')
    /\ trace w' = trace w ++ ((Execute ∘ dump_command self) <$> tbls)
    /\ dom data' = dom data ∪ list_to_set tbls.
Proof.
  intros Hok. revert data w.
  induction tbls as [|t tbls IH]; intros data w; cbn [for_fold fmap list_fmap].
  - exists data, w. repeat split.
    + now rewrite app_nil_r.
    + rewrite list_to_set_nil. now rewrite (right_id_L ∅ (∪)).
  - unfold bind at 1. unfold bind at 1.
    destruct (execute_returns (dump_command self t) w Hok) as [d ->].
    cbn [ret].
    match goal with
    | |- context [for_fold tbls ?body ?data2 ?w2] =>
        destruct (IH data2 w2) as (data' & w' & Hrun & Htr & Hdom)
    end.
    exists data', w'. split; [exact Hrun |]. split.
    + rewrite Htr. cbn [trace tick log]. now rewrite <- app_assoc.
    + rewrite Hdom, dom_insert_L, list_to_set_cons.
      rewrite (assoc_L (∪)). f_equal. apply (comm_L (∪)).
Qed.

(** C6, amended: clearing and recreating the staging directory is the
    separate step [clear_backup_directory]; [tablewise_backup] leaves the
    directory as it is.  For every line of the table listing it runs a
    single-transaction dump of that table, redirected into the file
    <table>.sql of the staging directory, and when the commands return it
    records one output entry per table. *)
Theorem tablewise_backup_dumps (listing : command_data) (w : world) :
  commands_succeed env ->
  on_command env (trace w ++ [Execute (show_tables_command self)])
    = Returned listing ->
  let tbls := Py.split (output listing) newline in
  (fst (clear_backup_directory w) = Ok tt
   /\ staging (snd (clear_backup_directory w)) = Some []
   /\ trace (snd (clear_backup_directory w)) = trace w)
  /\ staging (snd (tablewise_backup env self w)) = staging w
  /\ new_events (tablewise_backup env self) w
     = Execute (show_tables_command self)
         :: ((Execute ∘ dump_command self) <$> tbls)
  /\ (exists data, fst (tablewise_backup env self w) = Ok data
                   /\ dom data = list_to_set tbls)
  /\ (forall t,
        Py.startswith (dump_command self t) "mysqldump --single-transaction "
          = true
        /\ Py.endswith (dump_command self t)
             ("> '" +:+ Py.path_join (backup_directory self) (t +:+ ".sql")
              +:+ "'") = true).
Proof.
  intros Hok Hlist tbls. split; [| split; [| split; [| split]]].
  - unfold clear_backup_directory. destruct (staging w); repeat split.
  - unfold tablewise_backup, tables. unfold bind at 1. unfold bind at 1.
    pose proof (execute_staging (show_tables_command self) w) as Hst.
    destruct (execute env (show_tables_command self) w) as [[out|e] w1];
      cbn [snd ret] in *; [| exact Hst].
    rewrite dump_loop_staging. exact Hst.
  - apply new_events_app.
    unfold tablewise_backup, tables. unfold bind at 1. unfold bind at 1.
    unfold execute at 1, run_command. cbv zeta. cbn [log trace].
    rewrite Hlist. cbn [ret].
    match goal with
    | |- context [for_fold ?l ?body ?data2 ?w2] =>
        destruct (dump_loop l data2 w2 Hok) as (data' & w' & Hrun & Htr & _)
    end.
    rewrite Hrun. cbn [snd]. rewrite Htr. cbn [trace tick log].
    now rewrite <- app_assoc.
  - unfold tablewise_backup, tables. unfold bind at 1. unfold bind at 1.
    unfold execute at 1, run_command. cbv zeta. cbn [log trace].
    rewrite Hlist. cbn [ret].
    match goal with
    | |- context [for_fold ?l ?body ?data2 ?w2] =>
        destruct (dump_loop l data2 w2 Hok) as (data' & w' & Hrun & _ & Hdom)
    end.
    rewrite Hrun. exists data'. split; [reflexivity |].
    rewrite Hdom, dom_empty_L. now rewrite (left_id_L ∅ (∪)).
  - intros t. split.
    + reflexivity.
    + unfold dump_command, table_backup_file.
      apply PyFacts.endswith_spec.
      exists ("mysqldump --single-transaction --quick --lock-tables=false "
              +:+ "-h " +:+ host self +:+ " -u " +:+ user self
              +:+ " -p" +:+ password self +:+ " "
              +:+ database self +:+ " '" +:+ t +:+ "' ").
      now rewrite !PyFacts.append_assoc.
Qed.

End Tablewise.

(** The claim of C6 as it is worded fails: a file that was in the staging
    directory before [tablewise_backup] ran is still there afterwards, the
    step never removes the directory. *)
Lemma tablewise_backup_keeps_staging :
  let env := Sample.env_with
               (fun _ => Sample.done Sample.show_tables_output) [] [] in
  let w := Sample.world_with ∅ in
  staging w = Some ["tabOld.sql"]
  /\ staging (snd (tablewise_backup env Sample.site w)) = Some ["tabOld.sql"]
  /\ staging (snd (clear_backup_directory w)) = Some [].
Proof. vm_compute. repeat split. Qed.

Lemma tablewise_backup_dumps_witness :
  let env := Sample.env_with
               (fun _ => Sample.done Sample.show_tables_output) [] [] in
  let w := Sample.world_with ∅ in
  new_events (tablewise_backup env Sample.site) w
  = [ Execute (show_tables_command Sample.site);
      Execute (dump_command Sample.site "tabUser");
      Execute (dump_command Sample.site "tabRole") ]
  /\ exists data, fst (tablewise_backup env Sample.site w) = Ok data
                  /\ dom data = {[ "tabUser"; "tabRole" ]}.
Proof.
  intros env w.
  destruct (tablewise_backup_dumps env Sample.site
              {| output := Sample.show_tables_output; duration := 250 |} w)
    as (_ & _ & Hnew & (data & Hdata & Hdom) & _).
  - intros tr. eexists. reflexivity.
  - reflexivity.
  - split; [exact Hnew |].
    exists data. split; [exact Hdata |]. rewrite Hdom.
    vm_compute. reflexivity.
Defined.

(** A dump writes to the file named after the table. *)
Example dump_command_sample :
  dump_command Sample.site "tabUser"
  = "mysqldump --single-transaction --quick --lock-tables=false "
    +:+ "-h db.local -u _3f2a -psecret _3f2a 'tabUser' "
    +:+ "> '/home/frappe/benches/b1/sites/shop.example.com/.migrate/tabUser.sql'".
Proof. vm_compute. reflexivity. Qed.

(** A listing that ends with a newline yields an empty last table name, and
    an empty listing yields one empty name. *)
Example split_trailing_newline :
  Py.split ("a" +:+ String newline ("b" +:+ String newline "")) newline
  = ["a"; "b"; ""]
  /\ Py.split "" newline = [""].
Proof. split; reflexivity. Qed.

Example replace_sites_directory :
  Py.replace "/home/frappe/benches/b1/sites/shop.example.com/private/db.sql.gz"
    "/home/frappe/benches/b1/sites" container_sites
  = "/home/frappe/frappe-bench/sites/shop.example.com/private/db.sql.gz"
  /\ Py.replace "aXXbXXX" "XX" "-" = "a-b-X"
  /\ Py.replace "ab" "" "-" = "-a-b-".
Proof. vm_compute. repeat split. Qed.

Example basename_sample :
  Py.basename "/a/b/c.tar" = "c.tar" /\ Py.basename "/a/b/" = ""
  /\ Py.path_join "/a/" "b" = "/a/b" /\ Py.path_join "/a" "/b" = "/b".
Proof. vm_compute. repeat split. Qed.

(** ** Readiness polling *)

Section Polling.

Context (env : environment) (self : Site).

Lemma bench_execute_inv (cmd : string) (w w1 : world)
    (r : result command_data) :
  bench_execute env self cmd w = (r, w1) ->
  exists d,
    w1 = tick (Z.of_N (duration d))
           (log (DockerExecute (bench_command self cmd)) w)
    /\ ((r = Ok d /\
         on_command env (trace w ++ [DockerExecute (bench_command self cmd)])
         = Returned d)
        \/ (r = Raise (AgentException d) /\
            on_command env
              (trace w ++ [DockerExecute (bench_command self cmd)])
            = Failed d)).
Proof.
  unfold bench_execute, run_command. cbv zeta. cbn [log trace].
  destruct (on_command env _) as [d|d] eqn:Hcmd; intros H;
    injection H as <- <-; exists d; (split; [reflexivity |]); auto.
Qed.

(** The loop, entered with any start time and any entries recorded so far,
    returns: it never raises, it appends to the entries, and its run is a
    polling run. *)
Lemma wait_loop_polls (start : Z) (tries : list attempt) (w : world) :
  exists payloads last w',
    wait_loop env self start tries w
    = (Ok (tries ++ recorded payloads last), w')
    /\ polling env self start w payloads last w'.
Proof.
  apply (wait_loop_elim env self
    (fun start tries w res =>
       exists payloads last w',
         res = (Ok (tries ++ recorded payloads last), w')
         /\ polling env self start w payloads last w')).
  - (* the timeout is reached *)
    clear. intros start tries w Hout _.
    exists [], None, w. split.
    + unfold recorded. cbn. now rewrite app_nil_r.
    + apply Z.ltb_ge in Hout. constructor; cbn.
      * intros i d Hi. now rewrite lookup_nil in Hi.
      * now rewrite app_nil_r.
      * exact Hout.
      * now left.
      * lia.
  - (* the probe returns *)
    clear. intros start tries w out w1 Hret Hin _ _.
    apply bench_execute_inv in Hret as (d & -> & [[Hd Hcmd] | [Hd _]]);
      [| discriminate Hd].
    injection Hd as ->.
    exists [], (Some d), (tick (Z.of_N (duration d)) (log (probe_event self) w)).
    split; [reflexivity |]. constructor; cbn.
    + intros i d' Hi. now rewrite lookup_nil in Hi.
    + reflexivity.
    + exact Hcmd.
    + now left.
    + lia.
  - (* the exception has no data: a command never raises such a one *)
    clear. intros start tries w e e' Hattr w1 Hprobe Hin _ _ _.
    apply bench_execute_inv in Hprobe as (d & _ & [[Hd _] | [Hd _]]);
      [discriminate Hd |].
    injection Hd as ->. discriminate Hattr.
  - (* the probe fails, the loop sleeps and goes on *)
    clear. intros start tries w e d Hdata w1 a w2 Hsleep Hprobe Hin IH _ _ _ _.
    apply bench_execute_inv in Hprobe as (d' & -> & [[Hd _] | [Hd Hcmd]]);
      [discriminate Hd |].
    injection Hd as ->. injection Hdata as ->.
    unfold sleep in Hsleep. injection Hsleep as _ <-.
    destruct IH as (payloads & last & w' & -> & Hrun).
    exists (d :: payloads), last, w'. split.
    + unfold recorded. cbn. now rewrite <- !app_assoc.
    + apply Z.ltb_lt in Hin. destruct Hrun as [Hf Ht Hl Hs Hc].
      cbn [trace tick log clock] in *.
      constructor.
      * intros [|i] d0 Hi; cbn in Hi.
        -- injection Hi as <-. exact Hcmd.
        -- specialize (Hf i d0 Hi). rewrite <- Hf. f_equal.
           cbn [failed_rounds]. rewrite <- !app_assoc. reflexivity.
      * rewrite Ht. cbn [length failed_rounds].
        rewrite <- !app_assoc. reflexivity.
      * destruct last as [out|]; [| exact Hl].
        rewrite <- Hl. f_equal. cbn [length failed_rounds].
        rewrite <- !app_assoc. reflexivity.
      * right. cbn [length]. destruct Hs as [-> | Hs]; cbn [length]; lia.
      * cbn [length]. lia.
  - (* the sleep raises: it never does *)
    clear. intros start tries w e d Hdata w1 e' w2 Hwoke.
    discriminate Hwoke.
Qed.

(** C3: for every environment, that is for every sequence of probe outcomes,
    [wait_till_ready] returns and does not raise.  The returned entries are
    the payloads of the probes that failed, in order, followed by the output
    of the probe that returned, if one did; every failed probe is followed
    by a sleep of one second, a probe that returns ends the loop; if no
    probe returned, all entries are failures and at least 120 seconds have
    passed since the start.  No more than 120 probes fail. *)
Theorem wait_till_ready_polls (w : world) :
  exists payloads last w',
    wait_till_ready env self w = (Ok (recorded payloads last), w')
    /\ (forall i d, payloads !! i = Some d ->
          on_command env
            (trace w ++ failed_rounds self i ++ [probe_event self])
          = Failed d)
    /\ match last with
       | Some out =>
           on_command env
             (trace w ++ failed_rounds self (length payloads)
                ++ [probe_event self]) = Returned out
           /\ new_events (wait_till_ready env self) w
              = failed_rounds self (length payloads) ++ [probe_event self]
       | None =>
           WAIT_TIMEOUT * 1000 <= clock w' - clock w
           /\ new_events (wait_till_ready env self) w
              = failed_rounds self (length payloads)
       end
    /\ (length payloads <= 120)%nat.
Proof.
  destruct (wait_loop_polls (clock w) [] w)
    as (payloads & last & w' & Hrun & [Hf Ht Hl Hs Hc]).
  assert (Hwait : wait_till_ready env self w
                  = (Ok (recorded payloads last), w')).
  { unfold wait_till_ready, bind, time_now. exact Hrun. }
  exists payloads, last, w'. split; [exact Hwait |]. split; [exact Hf |].
  split.
  - assert (Hnew : new_events (wait_till_ready env self) w
                   = failed_rounds self (length payloads)
                       ++ match last with
                          | Some _ => [probe_event self]
                          | None => []
                          end).
    { apply new_events_app. rewrite Hwait. exact Ht. }
    destruct last as [out|].
    + split; [exact Hl | exact Hnew].
    + split; [exact Hl |]. rewrite Hnew. apply app_nil_r.
  - unfold WAIT_TIMEOUT in Hs. destruct Hs as [-> | Hs]; cbn [length]; lia.
Qed.

End Polling.

(** The example of the specification: a probe that fails twice and then
    succeeds gives three entries, the last one a success, with two sleeps of
    one second in between. *)
Example wait_till_ready_third_time :
  let answers (tr : list event) :=
    if (length tr <=? 4)%nat then Sample.broken "busy" else Sample.done "ok" in
  let env := Sample.env_with answers [] [] in
  let run := wait_till_ready env Sample.site (Sample.world_with ∅) in
  fst run = Ok [ Errored {| output := "busy"; duration := 250 |};
                 Errored {| output := "busy"; duration := 250 |};
                 Succeeded {| output := "ok"; duration := 250 |} ]
  /\ trace (snd run) =
       [ probe_event Sample.site; Sleep 1; probe_event Sample.site; Sleep 1;
         probe_event Sample.site ]
  /\ clock (snd run) - clock (Sample.world_with ∅) = 2750.
Proof.
  intros answers env run. subst run.
  unfold wait_till_ready, bind, time_now.
  repeat (rewrite wait_loop_equation_1; cbn).
  repeat split.
Qed.

(** * Further properties *)

(** ** Configuration updates, continued *)

(** X1: an update that adds nothing and removes nothing stores the document
    it read, and running the same update a second time stores the same
    document as the first run. *)
Theorem update_config_idempotent (value : gmap string json)
    (remove : option (list string)) (w : world) :
  config_after ∅ None w = site_config w
  /\ config_after ∅ (Some []) w = site_config w
  /\ config_after value remove (snd (update_config value remove w))
     = config_after value remove w.
Proof.
  split; [| split]; apply map_eq; intros k.
  - rewrite config_after_lookup. cbn [default from_option id].
    rewrite decide_False by apply not_elem_of_nil.
    now rewrite lookup_empty.
  - rewrite config_after_lookup. cbn [default from_option id].
    rewrite decide_False by apply not_elem_of_nil.
    now rewrite lookup_empty.
  - rewrite update_config_run. cbn [snd].
    rewrite config_after_lookup. cbn [site_config write_config].
    rewrite config_after_lookup.
    destruct (decide (k ∈ default [] remove)); [reflexivity |].
    destruct (value !! k); reflexivity.
Qed.

(** ** Domains, continued *)

Section DomainsMore.

Context (env : environment).




(** X3: removing a domain right after adding it leaves the stored domains
    without it and with every other domain that was stored before; the
    stored list has no duplicates. *)
Theorem add_then_remove_domain (w : world) (ds : list string) (d : string) :
  stores_domains w ds ->
  exists l,
    site_config (snd (remove_domain env d (snd (add_domain env d w))))
      !! "domains" = Some (JArr (JStr <$> l))
    /\ NoDup l
    /\ forall x, x ∈ l <-> x ∈ ds /\ x <> d.
Proof.
  intros Hst.
  destruct (remove_domain_run env d _ _ (add_domain_run env d w ds Hst))
    as [Hcfg _].
  cbv zeta in Hcfg. eexists. split; [exact Hcfg |].
  split; [apply NoDup_elements |].
  intros x.
  rewrite elem_of_elements, elem_of_difference, list_to_set_elements_L,
    elem_of_union, elem_of_list_to_set, elem_of_singleton.
  tauto.
Qed.

Lemma domain_names_unhashable (items : list json) (item : json) :
  item ∈ items ->
  (exists l, item = JArr l) \/ (exists m, item = JObj m) ->
  domain_names items = Raise (TypeError "unhashable type").
Proof.
  intros Hin Hbad. induction items as [|x items IH].
  - now apply elem_of_nil in Hin.
  - apply elem_of_cons in Hin as [<- | Hin].
    + destruct Hbad as [[l ->] | [m ->]]; reflexivity.
    + cbn. destruct x; try reflexivity. now rewrite (IH Hin).
Qed.

(** X4: when the stored value of [domains] cannot be turned into a set
    (null, a boolean, a number, or an array holding an array or an object)
    both domain jobs raise a TypeError before anything is written and
    before the proxy is called; the default of an empty list only covers a
    missing key. *)
Theorem domain_jobs_reject_bad_value (d : string) (w : world) (j : json) :
  site_config w !! "domains" = Some j ->
  not_a_domain_list j ->
  exists msg,
    add_domain env d w = (Raise (TypeError msg), w)
    /\ remove_domain env d w = (Raise (TypeError msg), w).
Proof.
  intros Hj Hbad.
  assert (Hset : exists msg, py_set j = Raise (TypeError msg)).
  { destruct Hbad as [-> | [[b ->] | [[n ->] | (items & item & -> & Hin & Hi)]]];
      try (eexists; reflexivity).
    exists "unhashable type". cbn.
    now rewrite (domain_names_unhashable items item Hin Hi). }
  destruct Hset as [msg Hset]. exists msg.
  assert (Hsd : stored_domains w = (Raise (TypeError msg), w)).
  { unfold stored_domains, bind, config, lift.
    rewrite Hj. cbn [default from_option id]. now rewrite Hset. }
  split.
  - unfold add_domain. unfold bind at 1. now rewrite Hsd.
  - unfold remove_domain. unfold bind at 1. now rewrite Hsd.
Qed.

End DomainsMore.


Lemma add_then_remove_domain_witness :
  let w := Sample.world_with {[ "domains" := JArr [JStr "a.com"] ]} in
  let env := Sample.env_with (fun _ => Sample.done "") [] [] in
  exists l,
    site_config (snd (remove_domain env "x.com" (snd (add_domain env "x.com" w))))
      !! "domains" = Some (JArr (JStr <$> l))
    /\ NoDup l.
Proof.
  intros w env.
  destruct (add_then_remove_domain env w ["a.com"] "x.com")
    as (l & Hl & Hnd & _).
  - left. reflexivity.
  - exists l. split; [exact Hl | exact Hnd].
Defined.

Lemma domain_jobs_reject_bad_value_witness :
  let w := Sample.world_with {[ "domains" := JNull ]} in
  let env := Sample.env_with (fun _ => Sample.done "") [] [] in
  exists msg, add_domain env "x.com" w = (Raise (TypeError msg), w).
Proof.
  intros w env.
  destruct (domain_jobs_reject_bad_value env "x.com" w JNull)
    as (msg & Hadd & _).
  - reflexivity.
  - left. reflexivity.
  - exists msg. exact Hadd.
Defined.

(** ** The maximum by key, continued *)

Section PyMaxFirst.

Context (key : string -> result Z).

Lemma max_from_first (rest : list string) :
  forall (pre mid : list string) (best : string) (kbest : Z) (p : string),
    key best = Ok kbest ->
    (forall x, x ∈ pre -> exists k, key x = Ok k /\ k < kbest) ->
    (forall x, x ∈ mid -> exists k, key x = Ok k /\ k <= kbest) ->
    max_from key best kbest rest = Ok p ->
    exists before after kp,
      pre ++ best :: mid ++ rest = before ++ p :: after
      /\ key p = Ok kp
      /\ (forall x, x ∈ before -> exists k, key x = Ok k /\ k < kp)
      /\ (forall x, x ∈ after -> exists k, key x = Ok k /\ k <= kp).
Proof.
  induction rest as [|x rest IH]; intros pre mid best kbest p Hbest Hpre Hmid;
    cbn [max_from].
  - intros Hp. injection Hp as <-. exists pre, mid, kbest.
    rewrite app_nil_r. auto.
  - destruct (key x) as [k|e] eqn:Hk; [| discriminate].
    destruct (Z.ltb_spec kbest k) as [Hlt | Hge]; intros Hp.
    + destruct (IH (pre ++ best :: mid) [] x k p Hk) as
        (before & after & kp & Heq & Hkp & Hb & Ha); [| | exact Hp |].
      * intros y Hy. apply elem_of_app in Hy as [Hy | Hy].
        -- destruct (Hpre y Hy) as (ky & Hky & Hlt'). exists ky.
           split; [exact Hky | lia].
        -- apply elem_of_cons in Hy as [-> | Hy].
           ++ exists kbest. split; [exact Hbest | lia].
           ++ destruct (Hmid y Hy) as (ky & Hky & Hle). exists ky.
              split; [exact Hky | lia].
      * intros y Hy. now apply elem_of_nil in Hy.
      * exists before, after, kp. split; [| auto].
        rewrite <- Heq. cbn [app]. rewrite <- app_assoc. reflexivity.
    + destruct (IH pre (mid ++ [x]) best kbest p Hbest Hpre) as
        (before & after & kp & Heq & Hkp & Hb & Ha); [| exact Hp |].
      * intros y Hy. apply elem_of_app in Hy as [Hy | Hy]; [auto |].
        apply list_elem_of_singleton in Hy as ->.
        exists k. split; [exact Hk | lia].
      * exists before, after, kp. split; [| auto].
        rewrite <- Heq. rewrite <- app_assoc. reflexivity.
Qed.

(** [max] returns the first of the items with the largest key. *)
Lemma py_max_first (items : list string) (p : string) :
  py_max items key = Ok p ->
  exists before after kp,
    items = before ++ p :: after
    /\ key p = Ok kp
    /\ (forall x, x ∈ before -> exists k, key x = Ok k /\ k < kp)
    /\ (forall x, x ∈ after -> exists k, key x = Ok k /\ k <= kp).
Proof.
  destruct items as [|x rest]; cbn [py_max]; [discriminate |].
  destruct (key x) as [k|e] eqn:Hk; [| discriminate].
  intros Hp.
  destruct (max_from_first rest [] [] x k p Hk) as
    (before & after & kp & Heq & H); [| | exact Hp |].
  - intros y Hy. now apply elem_of_nil in Hy.
  - intros y Hy. now apply elem_of_nil in Hy.
  - exists before, after, kp. split; [exact Heq | exact H].
Qed.

End PyMaxFirst.

(** ** Paths *)

Lemma contains_cons_false (c : ascii) (s sub : string) :
  contains (String c s) sub = false -> contains s sub = false.
Proof. cbn [contains]. intros H. now apply orb_false_iff in H. Qed.

Lemma prefix_single (a c : ascii) (s : string) :
  String.prefix (String a "") (String c s) = Ascii.eqb c a.
Proof.
  cbn [String.prefix]. destruct (ascii_dec a c) as [-> | Hne].
  - rewrite Ascii.eqb_refl. now destruct s.
  - symmetry. apply Ascii.eqb_neq. congruence.
Qed.

Lemma slash_free_head (c : ascii) (s : string) :
  contains (String c s) "/" = false -> Ascii.eqb c "/"%char = false.
Proof.
  cbn [contains]. intros H. apply orb_false_iff in H as [H _].
  now rewrite prefix_single in H.
Qed.

Lemma basename_from_slash_free (cur f : string) :
  contains f "/" = false -> Py.basename_from cur f = cur +:+ f.
Proof.
  revert cur. induction f as [|c f IH]; intros cur Hf; cbn [Py.basename_from].
  - now rewrite PyFacts.append_empty_r.
  - rewrite (slash_free_head c f Hf).
    rewrite IH by (eapply contains_cons_false; exact Hf).
    now rewrite PyFacts.append_assoc.
Qed.

Lemma basename_from_after_slash (cur p f : string) :
  Py.basename_from cur (p +:+ "/" +:+ f) = Py.basename_from "" f.
Proof.
  revert cur. induction p as [|c p IH]; intros cur; PyFacts.str_simpl.
  - reflexivity.
  - cbn [Py.basename_from]. destruct (Ascii.eqb c "/"%char); apply IH.
Qed.

(** The last component of a joined path is the name that was joined. *)
Lemma basename_path_join (dir f : string) :
  contains f "/" = false -> Py.basename (Py.path_join dir f) = f.
Proof.
  intros Hf. unfold Py.basename, Py.path_join.
  assert (Hstart : Py.startswith f "/" = false).
  { destruct f as [|c f]; [reflexivity |].
    unfold Py.startswith. rewrite prefix_single.
    exact (slash_free_head c f Hf). }
  rewrite Hstart.
  destruct (String.eqb_spec dir "") as [-> | Hdir]; cbn [orb].
  - PyFacts.str_simpl. now rewrite basename_from_slash_free.
  - destruct (Py.endswith dir "/") eqn:Hend.
    + apply PyFacts.endswith_spec in Hend as [p ->].
      rewrite PyFacts.append_assoc, basename_from_after_slash.
      now rewrite basename_from_slash_free.
    + rewrite basename_from_after_slash.
      now rewrite basename_from_slash_free.
Qed.

(** ** Latest backup, continued *)

Section LatestBackupMore.

Context (env : environment) (self : Site) (w : world).

Let listing := on_listdir_backups env (trace w).
Let dir := backups_dir self.

Lemma describe_inv (p : string) (a : artifact) :
  describe self dir listing p = Ok a ->
  exists e,
    find_entry dir listing p = Ok e
    /\ a = {| art_path := p; art_file := Py.basename p;
              art_size := file_size e;
              art_url := "https://" +:+ name self +:+ "/backups/"
                         +:+ Py.basename p |}.
Proof.
  unfold describe. destruct (find_entry dir listing p) as [e|x]; [| discriminate].
  intros H. injection H as <-. now exists e.
Qed.

Lemma find_entry_inv (p : string) (e : file_entry) :
  find_entry dir listing p = Ok e ->
  e ∈ listing /\ Py.path_join dir (file_name e) = p.
Proof.
  unfold find_entry.
  destruct (List.find _ listing) as [e'|] eqn:Hfind; [| discriminate].
  intros H. injection H as ->.
  apply List.find_some in Hfind as [Hin Heq].
  split; [now apply list_elem_of_In | now apply String.eqb_eq].
Qed.

(** What a returned result says about each of its items. *)
Lemma fetch_latest_backup_inv (with_files : bool)
    (arts : list (string * artifact)) (w' : world) :
  fetch_latest_backup env self with_files w = (Ok arts, w') ->
  w' = w
  /\ forall role a, (role, a) ∈ arts ->
       py_max (role_candidates (candidates env self w) role)
              (getmtime dir listing) = Ok (art_path a)
       /\ describe self dir listing (art_path a) = Ok a.
Proof.
  unfold fetch_latest_backup, bind, lift.
  fold dir listing. change (scan dir (file_name <$> listing))
    with (candidates env self w).
  destruct (py_max (databases _) _) as [pd|] eqn:Hpd; [| discriminate].
  destruct with_files.
  - destruct (py_max (privates _) _) as [pp|] eqn:Hpp; [| discriminate].
    destruct (py_max (publics _) _) as [pq|] eqn:Hpq; [| discriminate].
    cbn [for_fold bind lift ret snd fst]. unfold bind, lift. cbn [snd fst].
    destruct (describe self dir listing pd) as [ad|] eqn:Hd; [| discriminate].
    destruct (describe self dir listing pp) as [ap|] eqn:Hp; [| discriminate].
    destruct (describe self dir listing pq) as [aq|] eqn:Hq; [| discriminate].
    cbn [ret app]. intros H. injection H as <- <-. split; [reflexivity |].
    destruct (describe_inv _ _ Hd) as (ed & _ & Ead).
    destruct (describe_inv _ _ Hp) as (ep & _ & Eap).
    destruct (describe_inv _ _ Hq) as (eq & _ & Eaq).
    intros role a Hin. rewrite !elem_of_cons, elem_of_nil in Hin.
    destruct Hin as [Hin | [Hin | [Hin | []]]]; injection Hin as -> ->.
    + assert (Hpath : art_path ad = pd) by now rewrite Ead.
      rewrite Hpath. auto.
    + assert (Hpath : art_path ap = pp) by now rewrite Eap.
      rewrite Hpath. auto.
    + assert (Hpath : art_path aq = pq) by now rewrite Eaq.
      rewrite Hpath. auto.
  - cbn [for_fold bind lift ret snd fst]. unfold bind, lift. cbn [snd fst].
    destruct (describe self dir listing pd) as [ad|] eqn:Hd; [| discriminate].
    cbn [ret app]. intros H. injection H as <- <-. split; [reflexivity |].
    destruct (describe_inv _ _ Hd) as (ed & _ & Ead).
    intros role a Hin. rewrite !elem_of_cons, elem_of_nil in Hin.
    destruct Hin as [Hin | []]; injection Hin as -> ->.
    assert (Hpath : art_path ad = pd) by now rewrite Ead.
    rewrite Hpath. auto.
Qed.

(** X5: among candidates of one role with the same latest modification
    time, [fetch_latest_backup] takes the one listed first: every candidate
    before the selected path is strictly older. *)
Theorem fetch_latest_backup_first_of_ties (with_files : bool)
    (arts : list (string * artifact)) (w' : world) :
  fetch_latest_backup env self with_files w = (Ok arts, w') ->
  forall role a, (role, a) ∈ arts ->
    first_latest_of env self w
      (role_candidates (candidates env self w) role) (art_path a).
Proof.
  intros Hrun role a Hin.
  destruct (fetch_latest_backup_inv with_files arts w' Hrun) as [_ Hall].
  destruct (Hall role a Hin) as [Hmax _].
  apply py_max_first in Hmax as (before & after & kp & Heq & Hkp & Hb & Ha).
  exists before, after, kp. auto.
Qed.

End LatestBackupMore.

(** Two database dumps with the same modification time: the one listed
    first is selected. *)
Lemma fetch_latest_backup_first_of_ties_witness :
  let files :=
    [ {| file_name := "a.database.sql.gz"; file_mtime := 7; file_size := 1 |};
      {| file_name := "b.database.sql.gz"; file_mtime := 7; file_size := 2 |} ] in
  let env := Sample.env_with (fun _ => Sample.done "") files [] in
  exists a,
    first_latest_of env Sample.site (Sample.world_with ∅)
      (role_candidates (candidates env Sample.site (Sample.world_with ∅))
         "database") (art_path a)
    /\ art_file a = "a.database.sql.gz".
Proof.
  intros files env.
  eexists. split.
  - eapply (fetch_latest_backup_first_of_ties env Sample.site
              (Sample.world_with ∅) false).
    + vm_compute. reflexivity.
    + apply list_elem_of_here.
  - reflexivity.
Defined.

(** ** The scan by role *)

Section ScanRoles.

Context (backup_dir : string).

(** One round of the scan appends the path to the list of the role the
    name has, and to no other. *)
Lemma classify_role (b : buckets) (file role : string) :
  role_candidates (classify backup_dir b file) role
  = role_candidates b role
    ++ (if decide (role_of_name file = Some role)
        then [Py.path_join backup_dir file] else []).
Proof.
  unfold classify, role_of_name.
  fold (is_database_name file) (is_private_name file) (is_public_name file).
  unfold role_candidates.
  destruct (is_database_name file); [| destruct (is_private_name file);
    [| destruct (is_public_name file)]]; cbn [databases privates publics];
    destruct (String.eqb_spec role "database") as [-> | Hd];
    try (rewrite (decide_True (P := Some "database" = Some "database"))
           by reflexivity);
    try (rewrite decide_False by (intros E; discriminate E));
    rewrite ?app_nil_r; try reflexivity;
    destruct (String.eqb_spec role "private") as [-> | Hp];
    try (rewrite (decide_True (P := Some "private" = Some "private"))
           by reflexivity);
    try (rewrite decide_False by (intros E; discriminate E));
    rewrite ?app_nil_r; try reflexivity;
    destruct (String.eqb_spec role "public") as [-> | Hq];
    try (rewrite (decide_True (P := Some "public" = Some "public"))
           by reflexivity);
    try (rewrite decide_False by (intros E; discriminate E));
    rewrite ?app_nil_r; try reflexivity;
    rewrite decide_False by congruence; reflexivity.
Qed.

Lemma scan_role_from (files : list string) (b : buckets) (role p : string) :
  p ∈ role_candidates (foldl (classify backup_dir) b files) role
  <-> p ∈ role_candidates b role
      \/ exists f, f ∈ files /\ role_of_name f = Some role
                   /\ p = Py.path_join backup_dir f.
Proof.
  revert b. induction files as [|f files IH]; intros b; cbn [foldl].
  - split; [auto |]. intros [H | (f & Hf & _)]; [exact H |].
    now apply elem_of_nil in Hf.
  - rewrite IH, classify_role, elem_of_app. split.
    + intros [[H | H] | (g & Hg & Hr & ->)].
      * now left.
      * right. destruct (decide _) as [Hr | _];
          [| now apply elem_of_nil in H].
        apply list_elem_of_singleton in H as ->.
        exists f. split; [apply list_elem_of_here | auto].
      * right. exists g. split; [now apply list_elem_of_further | auto].
    + intros [H | (g & Hg & Hr & ->)].
      * left. now left.
      * apply elem_of_cons in Hg as [-> | Hg].
        -- left. right. rewrite decide_True by exact Hr.
           apply list_elem_of_here.
        -- right. exists g. auto.
Qed.

(** The candidates of a role are the paths of the listed names of that
    role. *)
Lemma scan_role (files : list string) (role p : string) :
  p ∈ role_candidates (scan backup_dir files) role
  <-> exists f, f ∈ files /\ role_of_name f = Some role
                /\ p = Py.path_join backup_dir f.
Proof.
  unfold scan. rewrite scan_role_from. split; [| auto].
  intros [H | H]; [| exact H]. exfalso. revert H.
  unfold role_candidates. cbn [databases privates publics].
  repeat destruct (String.eqb _ _); apply not_elem_of_nil.
Qed.

End ScanRoles.

Lemma NoDup_fmap_same {A B} (f : A -> B) (l : list A) (x y : A) :
  NoDup (f <$> l) -> x ∈ l -> y ∈ l -> f x = f y -> x = y.
Proof.
  induction l as [|a l IH]; intros Hnd Hx Hy Hf.
  - now apply elem_of_nil in Hx.
  - cbn in Hnd. apply NoDup_cons in Hnd as [Ha Hnd].
    apply elem_of_cons in Hx as [-> | Hx];
      apply elem_of_cons in Hy as [-> | Hy]; auto.
    + exfalso. apply Ha. rewrite Hf. now apply list_elem_of_fmap_2.
    + exfalso. apply Ha. rewrite <- Hf. now apply list_elem_of_fmap_2.
Qed.

Section Artifacts.

Context (env : environment) (self : Site) (w : world).

Let listing := on_listdir_backups env (trace w).
Let dir := backups_dir self.

(** In a proper listing a path names one entry. *)
Lemma find_entry_own (e : file_entry) :
  proper_listing listing -> e ∈ listing ->
  find_entry dir listing (Py.path_join dir (file_name e)) = Ok e.
Proof.
  intros [Hslash Hnd] He.
  destruct (find_entry_listed dir listing (file_name e)) as [e' He'];
    [now apply list_elem_of_fmap_2 |].
  rewrite He'. f_equal.
  destruct (find_entry_inv env self w _ _ He') as [Hin Hpath].
  apply (NoDup_fmap_same file_name listing e' e Hnd Hin He).
  rewrite <- (basename_path_join dir (file_name e') (Hslash e' Hin)).
  rewrite <- (basename_path_join dir (file_name e) (Hslash e He)).
  fold dir in Hpath. now rewrite Hpath.
Qed.

(** X6: every item of a returned backup set describes a file of the listing
    whose name has the suffix of the item's role: the path is the file
    under the backup directory, [file] is its name, [size] its size and
    [url] is https://<site>/backups/<name>. *)
Theorem fetch_latest_backup_describes (with_files : bool)
    (arts : list (string * artifact)) (w' : world) :
  proper_listing listing ->
  fetch_latest_backup env self with_files w = (Ok arts, w') ->
  forall role a, (role, a) ∈ arts ->
    exists e,
      e ∈ listing
      /\ role_of_name (file_name e) = Some role
      /\ art_path a = Py.path_join dir (file_name e)
      /\ art_file a = file_name e
      /\ art_size a = file_size e
      /\ art_url a = "https://" +:+ name self +:+ "/backups/"
                     +:+ file_name e.
Proof.
  intros Hproper Hrun role a Hin.
  destruct (fetch_latest_backup_inv env self w with_files arts w' Hrun)
    as [_ Hall].
  destruct (Hall role a Hin) as [Hmax Hdesc].
  apply py_max_first in Hmax as (before & after & kp & Heq & _).
  assert (Hcand : art_path a ∈ role_candidates (candidates env self w) role).
  { rewrite Heq. apply elem_of_app. right. apply list_elem_of_here. }
  apply scan_role in Hcand as (f & Hf & Hrole & Hpath).
  apply list_elem_of_fmap in Hf as (e & -> & He).
  fold listing in He. fold dir in Hpath.
  fold dir listing in Hdesc.
  destruct (describe_inv env self w _ _ Hdesc) as (e' & Hfind & Ea).
  fold dir listing in Hfind.
  rewrite Hpath, (find_entry_own e Hproper He) in Hfind.
  injection Hfind as <-.
  exists e. split; [exact He |]. split; [exact Hrole |].
  split; [exact Hpath |].
  destruct Hproper as [Hslash _].
  rewrite Ea. cbn [art_file art_size art_url]. rewrite Hpath.
  rewrite (basename_path_join dir (file_name e) (Hslash e He)). auto.
Qed.

(** X7: no listed file with the suffix of a role is newer than the file
    selected for that role. *)
Theorem fetch_latest_backup_none_newer (with_files : bool)
    (arts : list (string * artifact)) (w' : world) :
  proper_listing listing ->
  fetch_latest_backup env self with_files w = (Ok arts, w') ->
  forall role a, (role, a) ∈ arts ->
    exists m,
      mtime_of env self w (art_path a) = Ok m
      /\ forall e, e ∈ listing -> role_of_name (file_name e) = Some role ->
           file_mtime e <= m.
Proof.
  intros Hproper Hrun role a Hin.
  destruct (fetch_latest_backup_inv env self w with_files arts w' Hrun)
    as [_ Hall].
  destruct (Hall role a Hin) as [Hmax _].
  apply py_max_first in Hmax as (before & after & kp & Heq & Hkp & Hb & Ha).
  exists kp. split; [exact Hkp |].
  intros e He Hrole.
  assert (Hcand : Py.path_join dir (file_name e)
                  ∈ role_candidates (candidates env self w) role).
  { apply scan_role. exists (file_name e).
    split; [now apply list_elem_of_fmap_2 | auto]. }
  assert (Hkey : getmtime dir listing (Py.path_join dir (file_name e))
                 = Ok (file_mtime e)).
  { unfold getmtime. now rewrite (find_entry_own e Hproper He). }
  rewrite Heq in Hcand.
  apply elem_of_app in Hcand as [Hc | Hc].
  - destruct (Hb _ Hc) as (k & Hk & Hlt).
    fold dir listing in Hk. rewrite Hkey in Hk. injection Hk as <-. lia.
  - apply elem_of_cons in Hc as [Hc | Hc].
    + fold dir listing in Hkp. rewrite <- Hc, Hkey in Hkp.
      injection Hkp as <-. lia.
    + destruct (Ha _ Hc) as (k & Hk & Hle).
      fold dir listing in Hk. rewrite Hkey in Hk. injection Hk as <-. lia.
Qed.

End Artifacts.

Lemma two_dumps_proper : proper_listing Sample.two_dumps.
Proof.
  split.
  - intros e He. unfold Sample.two_dumps in He.
    rewrite !elem_of_cons, elem_of_nil in He.
    destruct He as [-> | [-> | []]]; reflexivity.
  - cbn. apply NoDup_cons. split.
    + rewrite elem_of_cons, elem_of_nil. intros [H | []]. discriminate H.
    + apply NoDup_singleton.
Qed.

Lemma fetch_latest_backup_describes_witness :
  let env := Sample.env_with (fun _ => Sample.done "") Sample.two_dumps [] in
  exists a e,
    fst (fetch_latest_backup env Sample.site false (Sample.world_with ∅))
      = Ok [("database", a)]
    /\ e ∈ Sample.two_dumps
    /\ art_file a = file_name e /\ art_size a = file_size e.
Proof.
  intros env.
  pose (a := {| art_path := "/home/frappe/benches/b1/sites/shop.example.com/private/backups/b.database.sql.gz";
                art_file := "b.database.sql.gz"; art_size := 20;
                art_url := "https://shop.example.com/backups/b.database.sql.gz" |}).
  destruct (fetch_latest_backup_describes env Sample.site (Sample.world_with ∅)
              false [("database", a)] (Sample.world_with ∅)
              two_dumps_proper) with (role := "database") (a := a)
    as (e & He & _ & _ & Hfile & Hsize & _).
  - vm_compute. reflexivity.
  - apply list_elem_of_here.
  - exists a, e. split; [vm_compute; reflexivity | auto].
Defined.

Lemma fetch_latest_backup_none_newer_witness :
  let env := Sample.env_with (fun _ => Sample.done "") Sample.two_dumps [] in
  exists m,
    mtime_of env Sample.site (Sample.world_with ∅)
      "/home/frappe/benches/b1/sites/shop.example.com/private/backups/b.database.sql.gz"
      = Ok m
    /\ forall e, e ∈ Sample.two_dumps ->
         role_of_name (file_name e) = Some "database" -> file_mtime e <= m.
Proof.
  intros env.
  pose (a := {| art_path := "/home/frappe/benches/b1/sites/shop.example.com/private/backups/b.database.sql.gz";
                art_file := "b.database.sql.gz"; art_size := 20;
                art_url := "https://shop.example.com/backups/b.database.sql.gz" |}).
  destruct (fetch_latest_backup_none_newer env Sample.site (Sample.world_with ∅)
              false [("database", a)] (Sample.world_with ∅)
              two_dumps_proper) with (role := "database") (a := a)
    as (m & Hm & Hall).
  - vm_compute. reflexivity.
  - apply list_elem_of_here.
  - exists m. split; [exact Hm | exact Hall].
Defined.

(** ** App reconciliation, continued *)

Section ReconcileSafety.

Context (env : environment) (self : Site) (keep : list string).

(** An event that does not ask for the removal of a kept app. *)
Let spares_kept (ev : event) : Prop :=
  forall app, app ∈ keep ->
    ev <> DockerExecute (bench_command self (remove_app_command app)).

Lemma uninstall_unavailable_apps_spares_kept :
  emits spares_kept (uninstall_unavailable_apps env self keep).
Proof.
  unfold uninstall_unavailable_apps.
  apply emits_bind.
  { apply emits_run_command. intros app _ H.
    apply docker_execute_inj in H. symmetry in H.
    now apply remove_app_command_not_other in H. }
  intros listing. apply emits_bind; [apply emits_lift | intros installed].
  apply emits_for_each. intros app.
  destruct (bool_decide_reflect (app ∈ keep)) as [Hk | Hk]; cbn [negb];
    [apply emits_ret |].
  apply emits_bind.
  { apply emits_run_command. intros app' Hk' H.
    apply docker_execute_inj, remove_app_command_inj in H. congruence. }
  intros _. apply emits_bind; [| intros _; apply emits_ret].
  apply emits_run_command. intros app' _ H.
  apply docker_execute_inj in H. symmetry in H.
  now apply remove_app_command_not_other in H.
Qed.

(** X8: whatever the bench answers, and also when a command fails on the
    way, [uninstall_unavailable_apps] never asks for the removal of an app
    of the keep-set. *)
Theorem uninstall_unavailable_apps_never_removes_kept (w : world)
    (app : string) :
  app ∈ keep ->
  ~ uninstalled self (new_events (uninstall_unavailable_apps env self keep) w)
      app.
Proof.
  intros Hk Hun.
  destruct (uninstall_unavailable_apps_spares_kept w) as (new & Htr & Hall).
  apply new_events_app in Htr. rewrite Htr in Hun.
  unfold uninstalled in Hun.
  rewrite Forall_forall in Hall.
  apply (Hall _ (proj2 (list_elem_of_In _ _) Hun) app Hk). reflexivity.
Qed.

End ReconcileSafety.

Lemma uninstall_unavailable_apps_never_removes_kept_witness :
  let env := Sample.env_with (fun _ => Sample.broken "no bench")
               [] ["frappe"; "hr"] in
  ~ uninstalled Sample.site
      (new_events (uninstall_unavailable_apps env Sample.site ["frappe"])
         (Sample.world_with ∅)) "frappe".
Proof.
  intros env.
  apply (uninstall_unavailable_apps_never_removes_kept env Sample.site
           ["frappe"] (Sample.world_with ∅) "frappe").
  apply list_elem_of_here.
Defined.

(** ** Cleanup, continued *)

Section CleanupMore.

Context (env : environment) (self : Site).

Lemma bench_execute_fails (d : command_data) (cmd : string) (w : world) :
  commands_fail env d ->
  bench_execute env self cmd w
  = (Raise (AgentException d),
     tick (Z.of_N (duration d))
       (log (DockerExecute (bench_command self cmd)) w)).
Proof.
  intros Hfail. unfold bench_execute, run_command. cbv zeta.
  now rewrite Hfail.
Qed.

(** X9: when the restore command fails while the bench calls around it
    return, [restore_job] raises that failure after exactly five calls:
    download, credential, restore command, drop of the credential and
    deletion of the downloaded files.  No app is reconciled, no migration
    is run and the proxy is not touched. *)
Theorem restore_job_stops_after_failed_restore
    (apps : list string) (pw admin db pub priv : string) (skip : bool)
    (w : world) (d : command_data) (files : downloaded_files)
    (created : string * string * string) :
  commands_fail env d ->
  (forall tr, on_download_files env tr = Ok files) ->
  (forall tr, on_create_mariadb_user env tr = Ok created) ->
  (forall tr, on_drop_mariadb_user env tr = Ok tt) ->
  (forall tr, on_delete_downloaded_files env tr = Ok tt) ->
  fst (restore_job env self apps pw admin db pub priv skip w)
    = Raise (AgentException d)
  /\ exists cmd,
       new_events (restore_job env self apps pw admin db pub priv skip) w
       = [ DownloadFiles (name self) db pub priv;
           CreateMariadbUser (name self) pw (database self);
           DockerExecute (bench_command self cmd);
           DropMariadbUser (name self) pw (database self);
           DeleteDownloadedFiles (dl_directory files) ].
Proof.
  intros Hfail Hdl Hcreate Hdrop Hdel.
  assert (Hrun : exists cmd w',
    restore_job env self apps pw admin db pub priv skip w
      = (Raise (AgentException d), w')
    /\ trace w' = trace w ++
         [ DownloadFiles (name self) db pub priv;
           CreateMariadbUser (name self) pw (database self);
           DockerExecute (bench_command self cmd);
           DropMariadbUser (name self) pw (database self);
           DeleteDownloadedFiles (dl_directory files) ]).
  { unfold restore_job. unfold bind at 1. unfold download_files, call at 1.
    rewrite Hdl. unfold bind at 1. unfold try_finally at 1.
    unfold restore. unfold bind at 1. unfold create_mariadb_user, call at 1.
    rewrite Hcreate. destruct created as [[x u] p].
    unfold try_finally at 1. rewrite (bench_execute_fails d _ _ Hfail).
    unfold drop_mariadb_user, call at 1. rewrite Hdrop.
    unfold delete_downloaded_files, call. rewrite Hdel.
    eexists. eexists. split; [reflexivity |].
    cbn [trace log tick]. rewrite <- !app_assoc. reflexivity. }
  destruct Hrun as (cmd & w' & Hrun & Htr).
  split; [now rewrite Hrun |].
  exists cmd. apply new_events_app. now rewrite Hrun.
Qed.

(** X10: when dropping the credential fails, [restore] and [reinstall]
    raise the failure of the drop, also when the wrapped command returned:
    the output of the command is lost. *)
Theorem drop_failure_masks_command
    (pw admin dbf pubf privf : string) (w : world) (e : exn)
    (created : string * string * string) :
  (forall tr, on_create_mariadb_user env tr = Ok created) ->
  (forall tr, on_drop_mariadb_user env tr = Raise e) ->
  fst (restore env self pw admin dbf pubf privf w) = Raise e
  /\ fst (reinstall env self pw admin w) = Raise e.
Proof.
  intros Hcreate Hdrop. split.
  - unfold restore. unfold bind at 1. unfold create_mariadb_user, call at 1.
    rewrite Hcreate. destruct created as [[x u] p].
    unfold try_finally, drop_mariadb_user, call.
    destruct (bench_execute env self _ _) as [r w1].
    now rewrite Hdrop.
  - unfold reinstall. unfold bind at 1. unfold create_mariadb_user, call at 1.
    rewrite Hcreate. destruct created as [[x u] p].
    unfold try_finally, drop_mariadb_user, call.
    destruct (bench_execute env self _ _) as [r w1].
    now rewrite Hdrop.
Qed.

End CleanupMore.

Lemma restore_job_stops_after_failed_restore_witness :
  let env := Sample.env_with (fun _ => Sample.broken "restore failed") [] [] in
  fst (restore_job env Sample.site ["frappe"] "root" "admin"
         "https://x/db.sql.gz" "" "" false (Sample.world_with ∅))
  = Raise (AgentException {| output := "restore failed"; duration := 250 |}).
Proof.
  intros env.
  apply (restore_job_stops_after_failed_restore env Sample.site ["frappe"]
           "root" "admin" "https://x/db.sql.gz" "" "" false
           (Sample.world_with ∅)
           {| output := "restore failed"; duration := 250 |}
           {| dl_directory := "/tmp/dl"; dl_database := "/tmp/dl/db.sql.gz";
              dl_public := ""; dl_private := "" |}
           ("", "tmp_user", "tmp_pw"));
    intros tr; reflexivity.
Defined.

Lemma drop_failure_masks_command_witness :
  let env :=
    {| on_command := fun _ => Sample.done "restored";
       on_create_mariadb_user := fun _ => Ok ("", "tmp_user", "tmp_pw");
       on_drop_mariadb_user := fun _ => Raise (OtherError "OSError" "gone");
       on_download_files := fun _ => Raise (OtherError "OSError" "none");
       on_delete_downloaded_files := fun _ => Ok tt;
       on_setup_nginx := fun _ => Ok tt;
       on_reload_nginx := fun _ => Ok tt;
       on_listdir_backups := fun _ => [];
       on_json_loads := fun _ => Ok [] |} in
  fst (reinstall env Sample.site "root" "admin" (Sample.world_with ∅))
  = Raise (OtherError "OSError" "gone").
Proof.
  intros env.
  apply (drop_failure_masks_command env Sample.site "root" "admin" "" "" ""
           (Sample.world_with ∅) (OtherError "OSError" "gone")
           ("", "tmp_user", "tmp_pw"));
    intros tr; reflexivity.
Defined.

(** ** Maintenance mode *)

Section Maintenance.

Context (env : environment) (self : Site).

(** The run of [disable_maintenance_mode]. *)
Lemma disable_maintenance_mode_run (w : world) :
  let unblock := DockerExecute (bench_command self unblock_user_command) in
  let off := DockerExecute (bench_command self "set-maintenance-mode off") in
  exists w',
    disable_maintenance_mode env self w
    = (match on_command env (trace w ++ [unblock; off]) with
       | Returned d => Ok d
       | Failed d => Raise (AgentException d)
       end, w')
    /\ trace w' = trace w ++ [unblock; off]
    /\ site_config w' = site_config w.
Proof.
  intros unblock off.
  unfold disable_maintenance_mode. unfold bind at 1.
  unfold try_except, bind at 1.
  unfold bench_execute at 1, run_command. cbv zeta. cbn [log trace].
  fold unblock.
  destruct (on_command env (trace w ++ [unblock])) as [d1|d1];
    cbn [ret]; unfold bench_execute, run_command; cbv zeta;
    cbn [log tick trace]; fold off; rewrite <- app_assoc; cbn [app];
    destruct (on_command env (trace w ++ [unblock; off])) as [d2|d2];
    eexists; (split; [reflexivity |]); cbn [trace tick log site_config];
    rewrite <- ?app_assoc; split; reflexivity.
Qed.

(** X11: [disable_maintenance_mode] always makes two calls, the unblocking
    of the user and the switch of the maintenance mode; the failure of the
    first is swallowed, the result of the step is that of the second
    alone. *)
Theorem disable_maintenance_mode_swallows_unblock (w : world) :
  let unblock := DockerExecute (bench_command self unblock_user_command) in
  let off := DockerExecute (bench_command self "set-maintenance-mode off") in
  new_events (disable_maintenance_mode env self) w = [unblock; off]
  /\ fst (disable_maintenance_mode env self w)
     = match on_command env (trace w ++ [unblock; off]) with
       | Returned d => Ok d
       | Failed d => Raise (AgentException d)
       end.
Proof.
  intros unblock off.
  destruct (disable_maintenance_mode_run w) as (w' & Hrun & Htr & _).
  fold unblock off in Hrun, Htr. split.
  - apply new_events_app. now rewrite Hrun.
  - now rewrite Hrun.
Qed.

End Maintenance.

(** ** Installation of apps *)

Section InstallApps.

Context (env : environment) (self : Site).

Let install_event (app : string) : event :=
  DockerExecute (bench_command self (install_app_command app)).

Lemma install_loop (apps : list string)
    (data : gmap string (option command_data)) (w : world) :
  commands_succeed env ->
  exists data' w',
    for_fold apps (fun data app =>
      let data := <[ app := None ]> data in
      if negb (String.eqb app "frappe")
      then bind (bench_execute env self (install_app_command app))
                (fun out => ret (<[ app := Some out ]> data))
      else ret data) data w = (Ok data', w')
    /\ trace w' = trace w
         ++ (install_event <$> filter (fun app => app <> "frappe") apps)
    /\ (forall app, app ∈ apps ->
          if decide (app = "frappe") then data' !! app = Some None
          else exists out, data' !! app = Some (Some out))
    /\ (forall app, app ∉ apps -> data' !! app = data !! app).
Proof.
  intros Hok. revert data w.
  induction apps as [|a apps IH]; intros data w; cbn [for_fold].
  - exists data, w. split; [reflexivity |]. split.
    + cbn. now rewrite app_nil_r.
    + split; [| auto]. intros app Happ. now apply elem_of_nil in Happ.
  - unfold bind at 1.
    destruct (String.eqb_spec a "frappe") as [-> | Hne]; cbn [negb ret].
    + destruct (IH (<[ "frappe" := None ]> data) w)
        as (data' & w' & Hrun & Htr & Hin & Hout).
      exists data', w'. split; [exact Hrun |]. split.
      * rewrite Htr. rewrite filter_cons_False; [reflexivity | auto].
      * split.
        -- intros app Happ.
           destruct (decide (app ∈ apps)) as [Hi | Hni];
             [exact (Hin _ Hi) |].
           apply elem_of_cons in Happ as [-> | Happ]; [| contradiction].
           rewrite decide_True by reflexivity.
           rewrite (Hout _ Hni). apply lookup_insert_eq.
        -- intros app Happ. apply not_elem_of_cons in Happ as [Hx Happ].
           rewrite (Hout _ Happ). now apply lookup_insert_ne.
    + unfold bind at 1.
      destruct (bench_execute_returns env self (install_app_command a) w Hok)
        as [d ->].
      cbn [ret].
      match goal with
      | |- context [for_fold apps ?body ?data2 ?w2] =>
          destruct (IH data2 w2) as (data' & w' & Hrun & Htr & Hin & Hout)
      end.
      exists data', w'. split; [exact Hrun |]. split.
      * rewrite Htr. rewrite filter_cons_True by exact Hne.
        cbn [fmap list_fmap trace tick log]. fold (install_event a).
        now rewrite <- app_assoc.
      * split.
        -- intros app Happ.
           destruct (decide (app ∈ apps)) as [Hi | Hni];
             [exact (Hin _ Hi) |].
           apply elem_of_cons in Happ as [-> | Happ]; [| contradiction].
           rewrite decide_False by exact Hne.
           rewrite (Hout _ Hni). exists d. apply lookup_insert_eq.
        -- intros app Happ. apply not_elem_of_cons in Happ as [Hx Happ].
           rewrite (Hout _ Happ).
           rewrite !lookup_insert_ne by congruence. reflexivity.
Qed.

(** X12: when the commands return, [install_apps] runs one install-app
    command for every listed app other than frappe, in the order of the
    list, and none for frappe; the result has an entry for every listed
    app, empty for frappe and holding the output of the install for the
    others, and no entry for an app that was not listed. *)
Theorem install_apps_skips_frappe (apps : list string) (w : world) :
  commands_succeed env ->
  exists data,
    fst (install_apps env self apps w) = Ok data
    /\ new_events (install_apps env self apps) w
       = (fun app =>
            DockerExecute (bench_command self (install_app_command app)))
         <$> filter (fun app => app <> "frappe") apps
    /\ (forall app, app ∈ apps ->
          if decide (app = "frappe") then data !! app = Some None
          else exists out, data !! app = Some (Some out))
    /\ (forall app, app ∉ apps -> data !! app = None).
Proof.
  intros Hok.
  destruct (install_loop apps ∅ w Hok) as (data & w' & Hrun & Htr & Hin & Hout).
  assert (Hrun' : install_apps env self apps w = (Ok data, w')) by exact Hrun.
  exists data. split; [now rewrite Hrun' |]. split.
  - apply new_events_app. now rewrite Hrun'.
  - split; [exact Hin |]. intros app Happ.
    rewrite (Hout _ Happ). apply lookup_empty.
Qed.

End InstallApps.

Lemma install_apps_skips_frappe_witness :
  let env := Sample.env_with (fun _ => Sample.done "installed") [] [] in
  new_events (install_apps env Sample.site ["frappe"; "crm"])
    (Sample.world_with ∅)
  = [ DockerExecute "bench --site shop.example.com install-app crm" ].
Proof.
  intros env.
  destruct (install_apps_skips_frappe env Sample.site ["frappe"; "crm"]
              (Sample.world_with ∅)) as (data & _ & Hnew & _).
  - intros tr. eexists. reflexivity.
  - rewrite Hnew. vm_compute. reflexivity.
Defined.

(** ** Replay of table dumps *)

Lemma emits_for_fold (P : event -> Prop) {A S} (xs : list A)
    (body : S -> A -> M S) (acc : S) :
  (forall acc x, emits P (body acc x)) -> emits P (for_fold xs body acc).
Proof.
  intros Hbody. revert acc. induction xs as [|x xs IH]; intros acc;
    cbn [for_fold].
  - apply emits_ret.
  - apply emits_bind; auto.
Qed.

Section Replay.

Context (env : environment) (sv : services) (self : Site).

Let replay_file (f : string) : event :=
  Execute (replay_command self (Py.path_join (backup_directory self) f)).

Let replay_table (t : string) : event :=
  Execute (replay_command self (table_backup_file self t)).

Lemma touched_loop (staged : string -> bool) (tbls : list string)
    (data : gmap string command_data) (w : world) :
  commands_succeed env -> steady_files sv staged ->
  exists data' w',
    for_fold tbls (fun data table =>
      let backup_file :=
        Py.path_join (backup_directory self) (table +:+ ".sql") in
      bind (path_exists sv backup_file) (fun staged =>
        if staged
        then bind (execute env (replay_command self backup_file))
                  (fun out => ret (<[ table := out ]> data))
        else ret data)) data w = (Ok data', w')
    /\ trace w' = trace w
         ++ (replay_table <$>
               filter (fun t => staged (table_backup_file self t) = true) tbls)
    /\ forall t, is_Some (data' !! t) <->
         is_Some (data !! t)
         \/ (t ∈ tbls /\ staged (table_backup_file self t) = true).
Proof.
  intros Hok Hfs. revert data w.
  induction tbls as [|a tbls IH]; intros data w; cbn [for_fold].
  - exists data, w. split; [reflexivity |]. split.
    + cbn. now rewrite app_nil_r.
    + intros t. split; [auto |]. intros [H | [H _]]; [exact H |].
      now apply elem_of_nil in H.
  - unfold bind at 1. unfold bind at 1. unfold path_exists at 1.
    rewrite Hfs. fold (table_backup_file self a).
    destruct (staged (table_backup_file self a)) eqn:Hst.
    + unfold bind at 1.
      destruct (execute_returns env (replay_command self
                  (table_backup_file self a)) w Hok) as [d ->].
      cbn [ret].
      match goal with
      | |- context [for_fold tbls ?body ?data2 ?w2] =>
          destruct (IH data2 w2) as (data' & w' & Hrun & Htr & Hdom)
      end.
      exists data', w'. split; [exact Hrun |]. split.
      * rewrite Htr. rewrite filter_cons_True by exact Hst.
        cbn [fmap list_fmap trace tick log]. fold (replay_table a).
        now rewrite <- app_assoc.
      * intros t. rewrite Hdom, elem_of_cons.
        destruct (decide (t = a)) as [-> | Hne].
        -- rewrite lookup_insert_eq. split; [| intros _; left; eauto].
           intros _. right. auto.
        -- rewrite lookup_insert_ne by congruence. tauto.
    + cbn [ret].
      destruct (IH data w) as (data' & w' & Hrun & Htr & Hdom).
      exists data', w'. split; [exact Hrun |]. split.
      * rewrite Htr. rewrite filter_cons_False; [reflexivity |].
        rewrite Hst. discriminate.
      * intros t. rewrite Hdom, elem_of_cons. split; [tauto |].
        intros [H | [[-> | H] Ht]]; auto. congruence.
Qed.

(** X13: when the commands return and the manifest reads as [tbls],
    [restore_touched_tables] replays, in the order of the manifest, the
    staged file <table>.sql of every listed table that has one, the same
    file the table-wise backup writes; a table without a staged file is
    skipped without a command and without an entry in the result. *)
Theorem restore_touched_tables_skips_unstaged (staged : string -> bool)
    (tbls : list string) (w : world) :
  commands_succeed env -> steady_files sv staged ->
  on_touched_tables sv (trace w) = Ok tbls ->
  exists data,
    fst (restore_touched_tables env sv self w) = Ok data
    /\ new_events (restore_touched_tables env sv self) w
       = (fun t => Execute (replay_command self (table_backup_file self t)))
         <$> filter (fun t => staged (table_backup_file self t) = true) tbls
    /\ forall t, is_Some (data !! t) <->
         t ∈ tbls /\ staged (table_backup_file self t) = true.
Proof.
  intros Hok Hfs Htbls.
  destruct (touched_loop staged tbls ∅ w Hok Hfs)
    as (data & w' & Hrun & Htr & Hdom).
  assert (Hrun' : restore_touched_tables env sv self w = (Ok data, w')).
  { unfold restore_touched_tables. unfold bind at 1. unfold touched_tables.
    rewrite Htbls. exact Hrun. }
  exists data. split; [now rewrite Hrun' |]. split.
  - apply new_events_app. now rewrite Hrun'.
  - intros t. rewrite Hdom, lookup_empty. split; [| auto].
    intros [[x Hx] | H]; [discriminate | exact H].
Qed.

Lemma site_tables_loop (verdict : string -> command_outcome)
    (done rest : list string) (f : string) (d : command_data)
    (data : gmap string command_data) (w : world) :
  answers_by_command env verdict ->
  (forall c, c ∈ done -> exists out, verdict
      (replay_command self (Py.path_join (backup_directory self) c))
      = Returned out) ->
  verdict (replay_command self (Py.path_join (backup_directory self) f))
    = Failed d ->
  exists w',
    for_fold (done ++ f :: rest) (fun data backup_file =>
      let backup_file_path :=
        Py.path_join (backup_directory self) backup_file in
      bind (execute env (replay_command self backup_file_path))
           (fun out => ret (<[ backup_file := out ]> data))) data w
    = (Raise (AgentException d), w')
    /\ trace w' = trace w ++ (replay_file <$> (done ++ [f])).
Proof.
  intros Hby Hdone Hf. revert data w.
  induction done as [|a done IH]; intros data w; cbn [app for_fold].
  - unfold bind at 1. unfold bind at 1.
    unfold execute, run_command. cbv zeta. cbn [log trace].
    rewrite Hby, Hf. eexists. split; [reflexivity |].
    cbn [trace tick log]. reflexivity.
  - unfold bind at 1. unfold bind at 1.
    unfold execute at 1, run_command. cbv zeta. cbn [log trace].
    rewrite Hby. destruct (Hdone a) as [out ->]; [apply list_elem_of_here |].
    cbn [ret].
    match goal with
    | |- context [for_fold (done ++ f :: rest) ?body ?data2 ?w2] =>
        destruct (IH (fun c Hc => Hdone c (list_elem_of_further _ _ _ Hc))
                    data2 w2) as (w' & Hrun & Htr)
    end.
    exists w'. split; [exact Hrun |]. rewrite Htr.
    cbn [trace tick log fmap list_fmap]. fold (replay_file a).
    now rewrite <- app_assoc.
Qed.

(** X14: [restore_site_tables] replays the files of the staging directory
    in the order of the listing and stops at the first replay that fails:
    it raises that failure and replays none of the files listed after
    it. *)
Theorem restore_site_tables_stops_at_failure
    (verdict : string -> command_outcome) (done rest : list string)
    (f : string) (d : command_data) (w : world) :
  answers_by_command env verdict ->
  on_listdir sv (trace w) (backup_directory self) = Ok (done ++ f :: rest) ->
  (forall c, c ∈ done -> exists out, verdict
      (replay_command self (Py.path_join (backup_directory self) c))
      = Returned out) ->
  verdict (replay_command self (Py.path_join (backup_directory self) f))
    = Failed d ->
  fst (restore_site_tables env sv self w) = Raise (AgentException d)
  /\ new_events (restore_site_tables env sv self) w
     = (fun c => Execute (replay_command self
                   (Py.path_join (backup_directory self) c)))
       <$> (done ++ [f]).
Proof.
  intros Hby Hlist Hdone Hf.
  destruct (site_tables_loop verdict done rest f d ∅ w Hby Hdone Hf)
    as (w' & Hrun & Htr).
  assert (Hrun' : restore_site_tables env sv self w
                  = (Raise (AgentException d), w')).
  { unfold restore_site_tables. unfold bind at 1. unfold listdir.
    rewrite Hlist. exact Hrun. }
  split; [now rewrite Hrun' |].
  apply new_events_app. now rewrite Hrun'.
Qed.

Lemma restore_site_tables_only_replays :
  emits (fun ev => exists c, ev = Execute c)
        (restore_site_tables env sv self).
Proof.
  unfold restore_site_tables. apply emits_bind.
  - intros w. exists []. unfold listdir. cbn [snd].
    split; [now rewrite app_nil_r | constructor].
  - intros files. apply emits_for_fold. intros acc x.
    apply emits_bind; [| intros out; apply emits_ret].
    apply emits_run_command. eauto.
Qed.

(** X15: [restore_site_tables_job] switches the maintenance mode off only
    when it was asked to activate the site and the replay of the tables
    went through; after a failed replay the site stays in maintenance
    mode. *)
Theorem restore_site_tables_job_activation (activate : bool) (w : world) :
  In (DockerExecute (bench_command self "set-maintenance-mode off"))
     (new_events (restore_site_tables_job env sv self activate) w) ->
  activate = true
  /\ exists data w1, restore_site_tables env sv self w = (Ok data, w1).
Proof.
  intros Hoff.
  destruct (restore_site_tables_only_replays w) as (new & Htr & Hall).
  assert (Hquiet : ~ In (DockerExecute
                           (bench_command self "set-maintenance-mode off")) new).
  { intros Hin. rewrite Forall_forall in Hall.
    destruct (Hall _ (proj2 (list_elem_of_In _ _) Hin)) as [c Hc].
    discriminate Hc. }
  unfold restore_site_tables_job in Hoff.
  destruct (restore_site_tables env sv self w) as [[data|e] w1] eqn:Hrun;
    cbn [snd] in Htr.
  - destruct activate.
    + split; [reflexivity | eauto].
    + exfalso. apply Hquiet.
      erewrite new_events_app in Hoff; [exact Hoff |].
      unfold bind. rewrite Hrun. cbn [ret snd]. exact Htr.
  - exfalso. apply Hquiet.
    erewrite new_events_app in Hoff; [exact Hoff |].
    unfold bind. rewrite Hrun. cbn [snd]. exact Htr.
Qed.

End Replay.

(** ** Rename *)

Section Rename.

Context (env : environment) (sv : services) (self : Site).

(** The polling loop leaves the stored document alone. *)
Lemma wait_loop_config (start : Z) (tries : list attempt) (w : world) :
  site_config (snd (wait_loop env self start tries w)) = site_config w.
Proof.
  apply (wait_loop_elim env self
    (fun start tries w res => site_config (snd res) = site_config w)).
  - clear. intros. reflexivity.
  - clear. intros start tries w out w1 Hret Hin _ _.
    apply bench_execute_inv in Hret as (d & -> & _). reflexivity.
  - clear. intros start tries w e e' Hattr w1 Hprobe Hin _ _ _.
    apply bench_execute_inv in Hprobe as (d & -> & _). reflexivity.
  - clear. intros start tries w e d Hdata w1 a w2 Hsleep Hprobe Hin IH _ _ _ _.
    apply bench_execute_inv in Hprobe as (d' & -> & _).
    unfold sleep in Hsleep. injection Hsleep as _ <-.
    rewrite IH. reflexivity.
  - clear. intros start tries w e d Hdata w1 e' w2 Hwoke.
    discriminate Hwoke.
Qed.

Lemma bench_command_endswith (s : Site) (cmd : string) :
  Py.endswith (bench_command s cmd) cmd = true.
Proof.
  apply PyFacts.endswith_spec.
  exists ("bench --site " +:+ name s +:+ " ").
  unfold bench_command. now rewrite !PyFacts.append_assoc.
Qed.

(** A command to any site that ends in another character than the probe
    is not the probe of [self]. *)
Lemma not_the_probe (s : Site) (body : string) (c : ascii) :
  c <> "n"%char ->
  DockerExecute (bench_command s (body +:+ String c "")) <> probe_event self.
Proof.
  intros Hc H. unfold probe_event in H. apply docker_execute_inj in H.
  pose proof (bench_command_endswith s (body +:+ String c "")) as H1.
  pose proof (bench_command_endswith self ready_probe) as H2.
  rewrite H in H1.
  exact (Hc (PyFacts.endswith_last_char _ body "ready-for-migratio" c "n"%char
               H1 H2)).
Qed.

Lemma maintenance_on_not_the_probe :
  DockerExecute (bench_command self "set-maintenance-mode on")
    <> probe_event self.
Proof.
  intros H. unfold probe_event, bench_command in H.
  apply docker_execute_inj in H.
  do 3 apply PyFacts.append_inj_l in H. discriminate H.
Qed.

Lemma bench_execute_other (s : Site) (cmd : string) (w : world) :
  others_succeed env self ->
  DockerExecute (bench_command s cmd) <> probe_event self ->
  exists d, bench_execute env s cmd w =
    (Ok d, tick (Z.of_N (duration d))
             (log (DockerExecute (bench_command s cmd)) w)).
Proof.
  intros Hok Hne. unfold bench_execute, run_command. cbv zeta.
  cbn [log trace]. destruct (Hok (trace w) _ Hne) as [d ->]. now exists d.
Qed.

(** The run of [rename_job] when the calls other than the probes return. *)
Lemma rename_job_run (new_name : string) (w : world) :
  others_succeed env self -> rename_goes_through env sv ->
  let renamed := set_name self new_name in
  exists (payloads : list command_data) (last : option command_data) w',
    rename_job env sv self new_name w = (Ok renamed, w')
    /\ trace w' =
         trace w
         ++ (DockerExecute (bench_command self "set-maintenance-mode on")
             :: failed_rounds self (length payloads)
             ++ match last with
                | Some _ => [probe_event self]
                | None => []
                end)
         ++ [ SetupNginx; ReloadNginx;
              DockerExecute (bench_command renamed unblock_user_command);
              DockerExecute (bench_command renamed "set-maintenance-mode off");
              DockerExecute (bench_command renamed "scheduler enable") ]
    /\ site_config w' = renamed_config self new_name (site_config w).
Proof.
  intros Hok (Hrename & Hsetup & Hreload) renamed.
  unfold rename_job.
  (* maintenance mode on *)
  unfold bind at 1. unfold enable_maintenance_mode.
  destruct (bench_execute_other self "set-maintenance-mode on" w Hok
              maintenance_on_not_the_probe) as [d0 ->].
  set (w1 := tick (Z.of_N (duration d0))
               (log (DockerExecute
                       (bench_command self "set-maintenance-mode on")) w)).
  (* polling *)
  unfold bind at 1. unfold wait_till_ready, bind at 1, time_now.
  destruct (wait_loop_polls env self (clock w1) [] w1)
    as (payloads & last & w2 & Hwait & [_ Ht _ _ _]).
  pose proof (wait_loop_config (clock w1) [] w1) as Hcfg2.
  rewrite Hwait in Hcfg2. cbn [snd] in Hcfg2. rewrite Hwait.
  exists payloads, last.
  (* host name *)
  unfold bind at 1. unfold config at 1.
  assert (Hstep : exists w3,
    (match site_config w2 !! "host_name" with
     | Some (JStr h) =>
         if String.eqb h ("https://" +:+ name self)
         then update_config
                {[ "host_name" := JStr ("https://" +:+ new_name) ]} None
         else ret tt
     | _ => ret tt
     end) w2 = (Ok tt, w3)
    /\ trace w3 = trace w2
    /\ site_config w3 = renamed_config self new_name (site_config w)).
  { unfold renamed_config. rewrite Hcfg2.
    change (site_config w1) with (site_config w).
    destruct (site_config w !! "host_name") as [[| | |h| |]|];
      try (exists w2; repeat split; exact Hcfg2).
    destruct (String.eqb h ("https://" +:+ name self)).
    - rewrite update_config_run. eexists. split; [reflexivity |].
      split; [reflexivity |]. cbn [site_config write_config].
      unfold config_after, update_config, bind, config, setconfig.
      cbn [snd site_config write_config list_truthy].
      unfold dict_update. rewrite Hcfg2.
      change (site_config w1) with (site_config w).
      symmetry. apply insert_union_singleton_l.
    - exists w2. repeat split. exact Hcfg2. }
  cbv beta iota. unfold bind at 1.
  destruct Hstep as (w3 & -> & Ht3 & Hcfg3).
  (* rename *)
  unfold bind at 1. unfold rename at 1. rewrite Hrename. fold renamed.
  (* proxy *)
  unfold bind at 1. unfold setup_nginx, call at 1. rewrite Hsetup.
  unfold bind at 1. unfold reload_nginx, call at 1. rewrite Hreload.
  (* maintenance mode off, on the renamed site *)
  unfold bind at 1.
  match goal with
  | |- context [disable_maintenance_mode env renamed ?w4] =>
      destruct (disable_maintenance_mode_run env renamed w4)
        as (w5 & Hoff & Ht5 & Hcfg5);
      destruct (Hok (trace w4 ++
                  [DockerExecute (bench_command renamed unblock_user_command)])
                  (DockerExecute
                     (bench_command renamed "set-maintenance-mode off")))
        as [d5 Hd5];
      [exact (not_the_probe renamed "set-maintenance-mode of" "f"%char
                ltac:(discriminate)) |]
  end.
  rewrite <- app_assoc in Hd5. cbn [app] in Hd5.
  rewrite Hd5 in Hoff. rewrite Hoff.
  (* scheduler *)
  unfold bind at 1. unfold enable_scheduler.
  destruct (bench_execute_other renamed "scheduler enable" w5 Hok
              (not_the_probe renamed "scheduler enabl" "e"%char
                 ltac:(discriminate))) as [d6 ->].
  cbn [ret]. eexists. split; [reflexivity |]. split.
  - cbn [trace tick log]. rewrite Ht5. cbn [trace tick log].
    rewrite Ht3, Ht. subst w1. cbn [trace tick log].
    rewrite <- !app_assoc. cbn [app]. rewrite <- !app_assoc. reflexivity.
  - cbn [site_config tick log]. rewrite Hcfg5. cbn [site_config tick log].
    exact Hcfg3.
Qed.

Lemma failed_rounds_events (n : nat) :
  Forall (fun ev => ev = probe_event self \/ ev = Sleep 1)
         (failed_rounds self n).
Proof.
  induction n as [|n IH]; cbn [failed_rounds]; [constructor |].
  constructor; [now left |]. constructor; [now right | exact IH].
Qed.

(** X16: when the calls other than the readiness probes return, whatever
    the probes answer and also when the site never gets ready,
    [rename_job] goes on and renames the site.  The commands before the
    rename address the old site name; after the rename the proxy is
    regenerated and reloaded and the maintenance mode and the scheduler are
    switched with commands that address the new name. *)
Theorem rename_job_addresses_new_name (new_name : string) (w : world) :
  others_succeed env self -> rename_goes_through env sv ->
  let renamed := set_name self new_name in
  fst (rename_job env sv self new_name w) = Ok renamed
  /\ exists before,
       new_events (rename_job env sv self new_name) w
       = before
         ++ [ SetupNginx; ReloadNginx;
              DockerExecute (bench_command renamed unblock_user_command);
              DockerExecute (bench_command renamed "set-maintenance-mode off");
              DockerExecute (bench_command renamed "scheduler enable") ]
       /\ Forall (fun ev =>
                   ev = DockerExecute
                          (bench_command self "set-maintenance-mode on")
                   \/ ev = probe_event self \/ ev = Sleep 1) before.
Proof.
  intros Hok Hgo renamed.
  destruct (rename_job_run new_name w Hok Hgo)
    as (payloads & last & w' & Hrun & Htr & _).
  fold renamed in Hrun, Htr. split; [now rewrite Hrun |].
  eexists. split.
  - apply new_events_app. rewrite Hrun. exact Htr.
  - constructor; [now left |]. apply Forall_app. split.
    + eapply Forall_impl; [apply failed_rounds_events |].
      intros ev Hev. now right.
    + destruct last; [| constructor].
      constructor; [| constructor]. right. now left.
Qed.

(** X17: [rename_job] rewrites the stored [host_name] to the URL of the new
    name exactly when it was the URL of the old name; any other host name
    and every other key of the configuration stay as they were. *)
Theorem rename_job_host_name (new_name : string) (w : world) :
  others_succeed env self -> rename_goes_through env sv ->
  let before := site_config w in
  let after := site_config (snd (rename_job env sv self new_name w)) in
  (forall k, k <> "host_name" -> after !! k = before !! k)
  /\ (before !! "host_name" = Some (JStr ("https://" +:+ name self)) ->
      after !! "host_name" = Some (JStr ("https://" +:+ new_name)))
  /\ (before !! "host_name" <> Some (JStr ("https://" +:+ name self)) ->
      after = before).
Proof.
  intros Hok Hgo before after.
  destruct (rename_job_run new_name w Hok Hgo)
    as (payloads & last & w' & Hrun & _ & Hcfg).
  assert (Hafter : after = renamed_config self new_name before).
  { subst after before. now rewrite Hrun. }
  rewrite Hafter. unfold renamed_config. clear Hafter Hrun Hcfg after.
  split; [| split].
  - intros k Hk.
    destruct (before !! "host_name") as [[| | |h| |]|]; try reflexivity.
    destruct (String.eqb h _); [| reflexivity].
    now apply lookup_insert_ne.
  - intros ->. rewrite String.eqb_refl. apply lookup_insert_eq.
  - intros Hne.
    destruct (before !! "host_name") as [[| | |h| |]|]; try reflexivity.
    destruct (String.eqb_spec h ("https://" +:+ name self)) as [-> | _];
      [congruence | reflexivity].
Qed.

End Rename.

Lemma sample_rename_goes_through :
  rename_goes_through (Sample.env_with (fun _ => Sample.done "") [] [])
    (Sample2.sv_with (fun _ => true) [] []).
Proof. repeat split. Qed.

Lemma sample_others_succeed :
  others_succeed (Sample.env_with (fun _ => Sample.done "") [] [])
    Sample.site.
Proof. intros tr ev _. eexists. reflexivity. Qed.

Lemma rename_job_addresses_new_name_witness :
  let env := Sample.env_with (fun _ => Sample.done "") [] [] in
  let sv := Sample2.sv_with (fun _ => true) [] [] in
  fst (rename_job env sv Sample.site "store.example.com"
         (Sample.world_with ∅))
  = Ok (set_name Sample.site "store.example.com").
Proof.
  intros env sv.
  apply (rename_job_addresses_new_name env sv Sample.site
           "store.example.com" (Sample.world_with ∅)
           sample_others_succeed sample_rename_goes_through).
Defined.

Lemma rename_job_host_name_witness :
  let env := Sample.env_with (fun _ => Sample.done "") [] [] in
  let sv := Sample2.sv_with (fun _ => true) [] [] in
  let w := Sample.world_with
             {[ "host_name" := JStr "https://shop.example.com" ]} in
  site_config (snd (rename_job env sv Sample.site "store.example.com" w))
    !! "host_name" = Some (JStr "https://store.example.com").
Proof.
  intros env sv w.
  destruct (rename_job_host_name env sv Sample.site "store.example.com" w
              sample_others_succeed sample_rename_goes_through)
    as (_ & Hurl & _).
  apply Hurl. reflexivity.
Defined.

(** The run of the sample rename, call by call. *)
Example rename_job_sample_trace :
  let env := Sample.env_with (fun _ => Sample.done "") [] [] in
  let sv := Sample2.sv_with (fun _ => true) [] [] in
  trace (snd (rename_job env sv Sample.site "store.example.com"
                (Sample.world_with ∅)))
  = [ DockerExecute "bench --site shop.example.com set-maintenance-mode on";
      DockerExecute "bench --site shop.example.com ready-for-migration";
      SetupNginx; ReloadNginx;
      DockerExecute
        ("bench --site store.example.com "
         +:+ "execute frappe.modules.patch_handler.block_user --args False,");
      DockerExecute "bench --site store.example.com set-maintenance-mode off";
      DockerExecute "bench --site store.example.com scheduler enable" ].
Proof.
  intros env sv. unfold rename_job, bind, wait_till_ready, time_now.
  cbn. rewrite wait_loop_equation_1. cbn. reflexivity.
Qed.

(** ** The session id in the console output *)

Lemma newline_free_head (c : ascii) (s : string) :
  contains (String c s) newline_str = false -> Ascii.eqb c newline = false.
Proof.
  cbn [contains]. intros H. apply orb_false_iff in H as [H _].
  unfold newline_str in H. now rewrite prefix_single in H.
Qed.

Lemma first_line_app (a b : string) :
  contains a newline_str = false ->
  first_line (a +:+ b) = a +:+ first_line b.
Proof.
  induction a as [|c a IH]; intros Ha; PyFacts.str_simpl; [reflexivity |].
  cbn [first_line]. rewrite (newline_free_head c a Ha).
  rewrite IH by (eapply contains_cons_false; exact Ha). reflexivity.
Qed.

Lemma last_before_closing (sid : string) :
  last_before "<<<" (sid +:+ "<<<") = Some sid.
Proof.
  induction sid as [|c sid IH]; PyFacts.str_simpl; [reflexivity |].
  cbn [last_before]. now rewrite IH.
Qed.

Lemma search_sid_at (pre rest : string) :
  find_first ">>>" (pre +:+ ">>>" +:+ rest) = Some (String.length pre) ->
  search_sid (pre +:+ ">>>" +:+ rest)
  = match last_before "<<<" (first_line rest) with
    | Some g => Some g
    | None => search_sid (">>" +:+ rest)
    end.
Proof.
  induction pre as [|c pre IH].
  - intros _.
    change ("" +:+ ">>>" +:+ rest)
      with (String ">" (String ">" (String ">" rest))).
    cbn [search_sid].
    assert (Hp : String.prefix ">>>" (String ">" (String ">" (String ">" rest)))
                 = true) by (cbn; now destruct rest).
    rewrite Hp. reflexivity.
  - change (String c pre +:+ ">>>" +:+ rest)
      with (String c (pre +:+ ">>>" +:+ rest)).
    cbn [find_first String.length search_sid].
    destruct (String.prefix ">>>" (String c (pre +:+ ">>>" +:+ rest)));
      intros Hfirst; [discriminate |].
    apply IH.
    destruct (find_first ">>>" (pre +:+ ">>>" +:+ rest)) as [n|];
      [| discriminate].
    cbn in Hfirst. injection Hfirst as ->. reflexivity.
Qed.

Lemma search_sid_none (out : string) :
  contains out ">>>" = false -> search_sid out = None.
Proof.
  induction out as [|c out IH]; intros H; [reflexivity |].
  cbn [contains] in H. apply orb_false_iff in H as [Hp Hc].
  cbn [search_sid]. rewrite Hp. auto.
Qed.

(** X18: the extraction of the session id returns what the console script
    printed between its markers: if the first run of three closing angle
    brackets in the output is the printed marker, the id holds no newline
    and the line ends after the closing marker, the id is returned as
    printed, also when it holds angle brackets itself.  An output without
    the opening marker gives no match, and asking the missing match for
    its group raises. *)
Theorem sid_of_output_round_trip (pre sid tail : string) :
  (find_first ">>>" (pre +:+ ">>>" +:+ sid +:+ "<<<" +:+ tail)
     = Some (String.length pre) ->
   contains sid newline_str = false ->
   first_line tail = "" ->
   sid_of_output (pre +:+ ">>>" +:+ sid +:+ "<<<" +:+ tail) = Ok sid)
  /\ (contains tail ">>>" = false ->
      sid_of_output tail = Raise (OtherError "AttributeError" "group")).
Proof.
  split.
  - intros Hfirst Hsid Htail. unfold sid_of_output.
    rewrite (search_sid_at pre _ Hfirst).
    rewrite first_line_app by exact Hsid.
    assert (Hline : first_line ("<<<" +:+ tail) = "<<<").
    { change ("<<<" +:+ tail)
        with (String "<" (String "<" (String "<" tail))).
      cbn. now rewrite Htail. }
    rewrite Hline, last_before_closing. reflexivity.
  - intros Hnone. unfold sid_of_output. now rewrite search_sid_none.
Qed.

Lemma sid_of_output_round_trip_witness :
  sid_of_output
    ("banner" +:+ newline_str +:+ ">>>" +:+ "5f3a<b>9" +:+ "<<<"
     +:+ newline_str)
  = Ok "5f3a<b>9".
Proof.
  apply (sid_of_output_round_trip ("banner" +:+ newline_str) "5f3a<b>9"
           newline_str); reflexivity.
Defined.

(** ** Paths handed to the restore command *)

Lemma prefix_app_self (old rest : string) :
  String.prefix old (old +:+ rest) = true.
Proof.
  induction old as [|c old IH].
  - change ("" +:+ rest) with rest. now destruct rest.
  - change (String c old +:+ rest) with (String c (old +:+ rest)).
    cbn [String.prefix]. destruct (ascii_dec c c); [exact IH | congruence].
Qed.

Lemma replace_from_skip (x old new rest : string) :
  Py.replace_from (String.length x) old new (x +:+ rest)
  = Py.replace_from O old new rest.
Proof.
  induction x as [|a x IH].
  - reflexivity.
  - change (String a x +:+ rest) with (String a (x +:+ rest)).
    cbn [Py.replace_from String.length]. exact IH.
Qed.

Lemma replace_from_absent (old new rel : string) :
  contains rel old = false -> Py.replace_from O old new rel = rel.
Proof.
  induction rel as [|c rel IH]; intros H; [reflexivity |].
  cbn [contains] in H. apply orb_false_iff in H as [Hp Hc].
  cbn [Py.replace_from]. rewrite Hp. f_equal. auto.
Qed.

(** A string that starts with [old] and holds it nowhere else. *)
Lemma replace_prefix (old new rel : string) :
  old <> "" -> contains rel old = false ->
  Py.replace (old +:+ rel) old new = new +:+ rel.
Proof.
  intros Hold Hrel. unfold Py.replace.
  destruct old as [|c old]; [congruence |].
  change (String c old +:+ rel) with (String c (old +:+ rel)).
  cbn [Py.replace_from].
  change (String c (old +:+ rel)) with (String c old +:+ rel).
  rewrite prefix_app_self. cbn [String.length].
  rewrite Nat.sub_succ, Nat.sub_0_r.
  rewrite replace_from_skip, replace_from_absent by exact Hrel.
  reflexivity.
Qed.

Section RestorePaths.

Context (env : environment) (self : Site).

(** X19: a database file under the sites directory of the bench is handed
    to the restore command under /home/frappe/frappe-bench/sites, the rest
    of its path unchanged; the command is run between the creation and the
    drop of the credential. *)
Theorem restore_rewrites_sites_path
    (pw admin rel pubf privf : string) (w : world)
    (created : string * string * string) :
  let create := CreateMariadbUser (name self) pw (database self) in
  sites_directory (bench self) <> "" ->
  contains rel (sites_directory (bench self)) = false ->
  on_create_mariadb_user env (trace w ++ [create]) = Ok created ->
  exists cmd,
    new_events (restore env self pw admin
                  (sites_directory (bench self) +:+ rel) pubf privf) w
    = [ create; DockerExecute (bench_command self cmd);
        DropMariadbUser (name self) pw (database self) ]
    /\ Py.endswith cmd (" " +:+ container_sites +:+ rel) = true.
Proof.
  intros create Hdir Hrel Hcreate.
  destruct created as [[x u] p].
  eexists. split.
  - apply new_events_app.
    unfold restore, bind. unfold create_mariadb_user, call at 1.
    cbn [log trace]. fold create. rewrite Hcreate.
    rewrite guarded_command_trace. cbn [trace log].
    rewrite <- app_assoc. reflexivity.
  - rewrite (replace_prefix _ container_sites rel Hdir Hrel).
    unfold restore_command.
    match goal with
    | |- Py.endswith (?a +:+ ?b +:+ ?u' +:+ ?c +:+ ?d +:+ ?p' +:+ ?e +:+ ?f
                      +:+ ?ad +:+ ?g +:+ ?po +:+ ?h +:+ ?pr +:+ ?i +:+ ?db)
                     _ = true =>
        apply PyFacts.endswith_spec;
        exists (a +:+ b +:+ u' +:+ c +:+ d +:+ p' +:+ e +:+ f
                +:+ ad +:+ g +:+ po +:+ h +:+ pr)
    end.
    now rewrite !PyFacts.append_assoc.
Qed.

End RestorePaths.

Lemma restore_rewrites_sites_path_witness :
  let env := Sample.env_with (fun _ => Sample.done "restored") [] [] in
  exists cmd,
    new_events (restore env Sample.site "root" "admin"
                  ("/home/frappe/benches/b1/sites"
                   +:+ "/shop.example.com/private/db.sql.gz") "" "")
      (Sample.world_with ∅)
    = [ CreateMariadbUser "shop.example.com" "root" "_3f2a";
        DockerExecute (bench_command Sample.site cmd);
        DropMariadbUser "shop.example.com" "root" "_3f2a" ]
    /\ Py.endswith cmd
         (" /home/frappe/frappe-bench/sites"
          +:+ "/shop.example.com/private/db.sql.gz") = true.
Proof.
  intros env.
  apply (restore_rewrites_sites_path env Sample.site "root" "admin"
           "/shop.example.com/private/db.sql.gz" "" ""
           (Sample.world_with ∅) ("", "tmp_user", "tmp_pw")).
  - discriminate.
  - vm_compute. reflexivity.
  - reflexivity.
Defined.

(** ** Offsite copies *)

Lemma slash_free_snoc (cur : string) (c : ascii) :
  contains cur "/" = false -> Ascii.eqb c "/"%char = false ->
  contains (cur +:+ String c "") "/" = false.
Proof.
  intros Hcur Hc. induction cur as [|a cur IH].
  - change ("" +:+ String c "") with (String c "").
    cbn [contains]. rewrite prefix_single, Hc. reflexivity.
  - change (String a cur +:+ String c "")
      with (String a (cur +:+ String c "")).
    cbn [contains]. rewrite prefix_single, (slash_free_head a cur Hcur).
    apply IH. eapply contains_cons_false. exact Hcur.
Qed.

Lemma basename_from_no_slash (p cur : string) :
  contains cur "/" = false -> contains (Py.basename_from cur p) "/" = false.
Proof.
  revert cur. induction p as [|c p IH]; intros cur Hcur;
    cbn [Py.basename_from]; [exact Hcur |].
  destruct (Ascii.eqb c "/"%char) eqn:Hc.
  - apply IH. reflexivity.
  - apply IH. now apply slash_free_snoc.
Qed.

(** The name [basename] returns holds no slash. *)
Lemma basename_no_slash (p : string) : contains (Py.basename p) "/" = false.
Proof. apply basename_from_no_slash. reflexivity. Qed.

Lemma split_from_slash_free (s cur : string) :
  contains s "/" = false -> Py.split_from "/"%char cur s = [cur +:+ s].
Proof.
  revert cur. induction s as [|c s IH]; intros cur Hs; cbn [Py.split_from].
  - now rewrite PyFacts.append_empty_r.
  - rewrite (slash_free_head c s Hs).
    rewrite IH by (eapply contains_cons_false; exact Hs).
    now rewrite PyFacts.append_assoc.
Qed.

Lemma last_component_slash_free (s : string) :
  contains s "/" = false -> last_component s = s.
Proof.
  intros Hs. unfold last_component, Py.split.
  now rewrite split_from_slash_free.
Qed.

Section Offsite.

Context (env : environment) (sv : services) (self : Site).

Lemma upload_loop (o : offsite_config) (arts : list (string * artifact))
    (acc : gmap string string) (w : world) :
  (forall tr p b k, on_upload_fileobj sv tr p b k = Ok tt) ->
  exists acc',
    for_fold arts (fun offsite_files item =>
      let backup_file := snd item in
      let file_name := last_component (art_file backup_file) in
      let remote := Py.path_join (offsite_path o) file_name in
      let offsite_files := <[ file_name := remote ]> offsite_files in
      bind (fun w => (on_upload_fileobj sv (trace w) (art_path backup_file)
                        (offsite_bucket o) remote, w))
           (fun _ => ret offsite_files)) acc w = (Ok acc', w)
    /\ forall k, acc' !! k =
         if decide (k ∈ (fun item => last_component (art_file (snd item)))
                          <$> arts)
         then Some (Py.path_join (offsite_path o) k)
         else acc !! k.
Proof.
  intros Hup. revert acc.
  induction arts as [|item arts IH]; intros acc; cbn [for_fold].
  - exists acc. split; [reflexivity |]. intros k.
    rewrite decide_False; [reflexivity | apply not_elem_of_nil].
  - unfold bind at 1. unfold bind at 1. rewrite Hup. cbn [ret].
    match goal with
    | |- context [for_fold arts ?body ?acc2 w] =>
        destruct (IH acc2) as (acc' & Hrun & Hacc)
    end.
    exists acc'. split; [exact Hrun |]. intros k. rewrite Hacc.
    cbn [fmap list_fmap].
    destruct (decide (k ∈ _ <$> arts)) as [Hin | Hnin].
    + rewrite decide_True; [reflexivity |]. now apply list_elem_of_further.
    + destruct (decide (k = last_component (art_file (snd item))))
        as [-> | Hne].
      * rewrite lookup_insert_eq.
        rewrite decide_True; [reflexivity | apply list_elem_of_here].
      * rewrite lookup_insert_ne by congruence.
        rewrite decide_False; [reflexivity |].
        rewrite elem_of_cons. tauto.
Qed.

(** The artifacts of a backup carry the last component of their path as
    file name. *)
Lemma backup_files_named (with_files : bool)
    (arts : list (string * artifact)) (w w1 : world) :
  backup env self with_files w = (Ok arts, w1) ->
  forall item, item ∈ arts ->
    art_file (snd item) = Py.basename (art_path (snd item)).
Proof.
  unfold backup, bind. intros Hrun [role a] Hin.
  destruct (bench_execute env self _ w) as [[out|e] w0]; [| discriminate].
  destruct (fetch_latest_backup_inv env self w0 _ arts w1 Hrun) as [_ Hall].
  destruct (Hall role a Hin) as [_ Hdesc].
  destruct (describe_inv env self w0 _ _ Hdesc) as (e & _ & ->).
  reflexivity.
Qed.

(** X20: when the uploads go through, the backup job with an offsite
    destination returns, next to the backups, a record that maps the file
    name of every backup to that name under the path prefix of the
    destination and holds nothing else; without a destination the record
    is empty. *)
Theorem backup_job_offsite_record (with_files : bool)
    (arts : list (string * artifact)) (w w1 : world) :
  (forall tr p b k, on_upload_fileobj sv tr p b k = Ok tt) ->
  backup env self with_files w = (Ok arts, w1) ->
  (forall o, exists uploaded,
     backup_job env sv self with_files (Some o) w = (Ok (arts, uploaded), w1)
     /\ forall k, uploaded !! k =
          if decide (k ∈ (fun item => art_file (snd item)) <$> arts)
          then Some (Py.path_join (offsite_path o) k)
          else None)
  /\ backup_job env sv self with_files None w = (Ok (arts, ∅), w1).
Proof.
  intros Hup Hrun. split.
  - intros o.
    assert (Hnames : (fun item => last_component (art_file (snd item))) <$> arts
                     = (fun item => art_file (snd item)) <$> arts).
    { apply list_fmap_ext. intros i item Hi.
      rewrite (backup_files_named with_files arts w w1 Hrun item)
        by (eapply list_elem_of_lookup_2; exact Hi).
      apply last_component_slash_free, basename_no_slash. }
    destruct (upload_loop o arts ∅ w1 Hup) as (uploaded & Hloop & Hacc).
    exists uploaded. split.
    + unfold backup_job. unfold bind at 1. rewrite Hrun.
      unfold bind at 1. destruct arts as [|item arts].
      * cbn [for_fold ret] in Hloop. injection Hloop as <-. reflexivity.
      * assert (Hloop' : upload_offsite_backup sv (item :: arts) o w1
                         = (Ok uploaded, w1)) by exact Hloop.
        rewrite Hloop'. reflexivity.
    + intros k. rewrite Hacc, Hnames, lookup_empty. reflexivity.
  - unfold backup_job. unfold bind at 1. rewrite Hrun. reflexivity.
Qed.

End Offsite.

Lemma backup_job_offsite_record_witness :
  let env := Sample.env_with (fun _ => Sample.done "") Sample.two_dumps [] in
  let sv := Sample2.sv_with (fun _ => true) [] [] in
  let o := {| offsite_bucket := "backups"; offsite_access_key := "AK";
              offsite_secret_key := "SK"; offsite_path := "sites/shop" |} in
  exists job_result,
    fst (backup_job env sv Sample.site false (Some o) (Sample.world_with ∅))
      = Ok job_result
    /\ snd job_result !! "b.database.sql.gz"
       = Some "sites/shop/b.database.sql.gz".
Proof.
  intros env sv o.
  pose (a := {| art_path := "/home/frappe/benches/b1/sites/shop.example.com/private/backups/b.database.sql.gz";
                art_file := "b.database.sql.gz"; art_size := 20;
                art_url := "https://shop.example.com/backups/b.database.sql.gz" |}).
  destruct (backup_job_offsite_record env sv Sample.site false
              [("database", a)] (Sample.world_with ∅)
              (snd (backup env Sample.site false (Sample.world_with ∅))))
    as [Hwith _].
  - intros tr p b k. reflexivity.
  - vm_compute. reflexivity.
  - destruct (Hwith o) as (uploaded & Hjob & Hkeys).
    exists ([("database", a)], uploaded). split; [now rewrite Hjob |].
    cbn [snd]. rewrite Hkeys. reflexivity.
Defined.

(** ** Sample runs of the replay steps *)

Lemma restore_touched_tables_skips_unstaged_witness :
  let env := Sample.env_with (fun _ => Sample.done "") [] [] in
  let sv := Sample2.sv_with Sample3.staged [] ["tabUser"; "tabRole"] in
  new_events (restore_touched_tables env sv Sample.site) (Sample.world_with ∅)
  = [ Execute (replay_command Sample.site
                 (table_backup_file Sample.site "tabUser")) ].
Proof.
  intros env sv.
  destruct (restore_touched_tables_skips_unstaged env sv Sample.site
              Sample3.staged ["tabUser"; "tabRole"] (Sample.world_with ∅))
    as (data & _ & Hnew & _).
  - intros tr. eexists. reflexivity.
  - intros tr path. reflexivity.
  - reflexivity.
  - rewrite Hnew. vm_compute. reflexivity.
Defined.

Lemma sample3_answers : answers_by_command Sample3.env Sample3.verdict.
Proof.
  intros tr cmd. unfold Sample3.env, Sample.env_with. cbn [on_command].
  now rewrite last_snoc.
Qed.

Lemma restore_site_tables_stops_at_failure_witness :
  let sv := Sample2.sv_with (fun _ => true) ["a.sql"; "bad.sql"; "c.sql"] [] in
  fst (restore_site_tables Sample3.env sv Sample.site (Sample.world_with ∅))
  = Raise (AgentException {| output := "syntax error"; duration := 250 |})
  /\ length (new_events (restore_site_tables Sample3.env sv Sample.site)
               (Sample.world_with ∅)) = 2%nat.
Proof.
  intros sv.
  destruct (restore_site_tables_stops_at_failure Sample3.env sv Sample.site
              Sample3.verdict ["a.sql"] ["c.sql"] "bad.sql"
              {| output := "syntax error"; duration := 250 |}
              (Sample.world_with ∅) sample3_answers) as [Hres Hnew].
  - reflexivity.
  - intros c Hc. apply list_elem_of_singleton in Hc as ->.
    eexists. vm_compute. reflexivity.
  - vm_compute. reflexivity.
  - split; [exact Hres |]. rewrite Hnew. reflexivity.
Defined.

Lemma restore_site_tables_job_activation_witness :
  let env := Sample.env_with (fun _ => Sample.done "") [] [] in
  let sv := Sample2.sv_with (fun _ => true) ["a.sql"] [] in
  true = true
  /\ exists data w1,
       restore_site_tables env sv Sample.site (Sample.world_with ∅)
       = (Ok data, w1).
Proof.
  intros env sv.
  apply (restore_site_tables_job_activation env sv Sample.site true
           (Sample.world_with ∅)).
  vm_compute. right. right. left. reflexivity.
Defined.

(** ** The table listing *)

Section TableListing.

Context (env : environment) (self : Site).

Lemma split_from_last (sep : ascii) (s cur : string) :
  exists front piece, Py.split_from sep cur s = front ++ [piece].
Proof.
  revert cur. induction s as [|c s IH]; intros cur; cbn [Py.split_from].
  - exists [], cur. reflexivity.
  - destruct (Ascii.eqb c sep).
    + destruct (IH "") as (front & piece & ->).
      exists (cur :: front), piece. reflexivity.
    + apply IH.
Qed.

Lemma split_from_trailing (sep : ascii) (s cur : string) :
  exists front,
    Py.split_from sep cur (s +:+ String sep "") = front ++ [""].
Proof.
  revert cur. induction s as [|c s IH]; intros cur.
  - change ("" +:+ String sep "") with (String sep "").
    cbn [Py.split_from]. rewrite Ascii.eqb_refl. exists [cur]. reflexivity.
  - change (String c s +:+ String sep "")
      with (String c (s +:+ String sep "")).
    cbn [Py.split_from]. destruct (Ascii.eqb c sep).
    + destruct (IH "") as (front & ->). exists (cur :: front). reflexivity.
    + apply IH.
Qed.

(** X21: [tablewise_backup] takes every piece of the table listing between
    newlines for a table, so it never runs without a dump: when the commands
    return, a listing that ends with a newline gives, after the dumps of the
    listed tables, one more dump for the table with the empty name, and an
    empty listing gives that dump alone. *)
Theorem tablewise_backup_empty_name (listing : command_data) (w : world) :
  commands_succeed env ->
  on_command env (trace w ++ [Execute (show_tables_command self)])
    = Returned listing ->
  (exists front piece,
     new_events (tablewise_backup env self) w
     = Execute (show_tables_command self)
         :: ((Execute ∘ dump_command self) <$> front)
         ++ [Execute (dump_command self piece)])
  /\ (forall body, output listing = body +:+ newline_str ->
        exists front,
          new_events (tablewise_backup env self) w
          = Execute (show_tables_command self)
              :: ((Execute ∘ dump_command self) <$> front)
              ++ [Execute (dump_command self "")])
  /\ (output listing = "" ->
        new_events (tablewise_backup env self) w
        = [Execute (show_tables_command self);
           Execute (dump_command self "")]).
Proof.
  intros Hok Hlist.
  assert (Hnew : new_events (tablewise_backup env self) w
                 = Execute (show_tables_command self)
                     :: ((Execute ∘ dump_command self)
                           <$> Py.split (output listing) newline)).
  { apply new_events_app.
    unfold tablewise_backup, tables. unfold bind at 1. unfold bind at 1.
    unfold execute at 1, run_command. cbv zeta. cbn [log trace].
    rewrite Hlist. cbn [ret].
    match goal with
    | |- context [for_fold ?l ?body ?data2 ?w2] =>
        destruct (dump_loop env self l data2 w2 Hok)
          as (data' & w' & Hrun & Htr & _)
    end.
    rewrite Hrun. cbn [snd]. rewrite Htr. cbn [trace tick log].
    now rewrite <- app_assoc. }
  rewrite Hnew. split; [| split].
  - destruct (split_from_last newline (output listing) "")
      as (front & piece & Hsplit).
    exists front, piece. unfold Py.split. rewrite Hsplit.
    now rewrite fmap_app.
  - intros body Hbody. unfold newline_str in Hbody.
    destruct (split_from_trailing newline body "") as (front & Hsplit).
    exists front. unfold Py.split. rewrite Hbody, Hsplit.
    now rewrite fmap_app.
  - intros ->. reflexivity.
Qed.

End TableListing.

Lemma tablewise_backup_empty_name_witness :
  let env := Sample.env_with (fun _ => Sample.done "") [] [] in
  new_events (tablewise_backup env Sample.site) (Sample.world_with ∅)
  = [ Execute (show_tables_command Sample.site);
      Execute (dump_command Sample.site "") ].
Proof.
  intros env.
  destruct (tablewise_backup_empty_name env Sample.site
              {| output := ""; duration := 250 |} (Sample.world_with ∅))
    as (_ & _ & Hempty).
  - intros tr. eexists. reflexivity.
  - reflexivity.
  - apply Hempty. reflexivity.
Defined.

(** ** The whole restore job *)

Section RestoreJobSequence.

Context (env : environment) (self : Site).

(** X22: when every call returns, [restore_job] makes its calls in this
    order: download, credential, restore command, drop of the credential,
    deletion of the downloaded files, listing of the installed apps, the
    removal and cache clear for every installed app outside the keep-set,
    migration (with --skip-failing when asked for), administrator password,
    scheduler, proxy regeneration, proxy reload and the final list of apps,
    whose output it returns. *)
Theorem restore_job_sequence (apps : list string)
    (pw admin db pub priv : string) (skip : bool) (w : world)
    (files : downloaded_files) (created : string * string * string)
    (installed : list string) :
  collaborators_return env files created installed ->
  exists cmd out,
    fst (restore_job env self apps pw admin db pub priv skip w) = Ok out
    /\ new_events (restore_job env self apps pw admin db pub priv skip) w
       = [ DownloadFiles (name self) db pub priv;
           CreateMariadbUser (name self) pw (database self);
           DockerExecute (bench_command self cmd);
           DropMariadbUser (name self) pw (database self);
           DeleteDownloadedFiles (dl_directory files);
           DockerExecute (bench_command self installed_apps_command) ]
         ++ flat_map (reconcile_events self apps) installed
         ++ [ DockerExecute
                (bench_command self
                   (if skip then "migrate --skip-failing" else "migrate"));
              DockerExecute
                (bench_command self ("set-admin-password " +:+ admin));
              DockerExecute (bench_command self "scheduler enable");
              SetupNginx; ReloadNginx;
              DockerExecute (bench_command self "list-apps") ]
    /\ on_command env
         (trace w
          ++ new_events (restore_job env self apps pw admin db pub priv skip) w)
       = Returned out.
Proof.
  intros (Hok & Hdl & Hcreate & Hdrop & Hdel & Hsetup & Hreload & Hloads).
  destruct created as [[x u] p].
  assert (Hrun : exists cmd out w',
    restore_job env self apps pw admin db pub priv skip w = (Ok out, w')
    /\ trace w' = trace w
         ++ [ DownloadFiles (name self) db pub priv;
              CreateMariadbUser (name self) pw (database self);
              DockerExecute (bench_command self cmd);
              DropMariadbUser (name self) pw (database self);
              DeleteDownloadedFiles (dl_directory files);
              DockerExecute (bench_command self installed_apps_command) ]
         ++ flat_map (reconcile_events self apps) installed
         ++ [ DockerExecute
                (bench_command self
                   (if skip then "migrate --skip-failing" else "migrate"));
              DockerExecute
                (bench_command self ("set-admin-password " +:+ admin));
              DockerExecute (bench_command self "scheduler enable");
              SetupNginx; ReloadNginx;
              DockerExecute (bench_command self "list-apps") ]
    /\ on_command env (trace w') = Returned out).
  { unfold restore_job. unfold bind at 1. unfold download_files, call at 1.
    rewrite Hdl. unfold bind at 1. unfold try_finally at 1.
    unfold restore. unfold bind at 1. unfold create_mariadb_user, call at 1.
    rewrite Hcreate. unfold try_finally at 1.
    match goal with
    | |- context [bench_execute env self ?c ?w0] =>
        destruct (bench_execute_returns env self c w0 Hok) as [d1 ->];
        exists c
    end.
    unfold drop_mariadb_user, call at 1. rewrite Hdrop.
    unfold delete_downloaded_files, call at 1. rewrite Hdel.
    (* reconciliation *)
    unfold bind at 1. unfold uninstall_unavailable_apps. unfold bind at 1.
    match goal with
    | |- context [bench_execute env self installed_apps_command ?w0] =>
        destruct (bench_execute_returns env self installed_apps_command w0 Hok)
          as [d2 ->]
    end.
    unfold bind at 1. unfold json_loads_apps, lift. rewrite Hloads.
    match goal with
    | |- context [for_each installed ?body ?w0] =>
        destruct (reconcile_loop env self apps installed w0 Hok)
          as (w7 & -> & Ht7)
    end.
    (* migration, password, scheduler *)
    unfold bind at 1.
    assert (Hmig : exists d3, migrate env self skip w7 =
      (Ok d3, tick (Z.of_N (duration d3))
                (log (DockerExecute
                        (bench_command self
                           (if skip then "migrate --skip-failing"
                            else "migrate"))) w7))).
    { unfold migrate. destruct skip; apply bench_execute_returns; exact Hok. }
    destruct Hmig as [d3 ->].
    unfold bind at 1. unfold set_admin_password.
    match goal with
    | |- context [bench_execute env self ?c ?w0] =>
        destruct (bench_execute_returns env self c w0 Hok) as [d4 ->]
    end.
    unfold bind at 1. unfold enable_scheduler.
    match goal with
    | |- context [bench_execute env self "scheduler enable" ?w0] =>
        destruct (bench_execute_returns env self "scheduler enable" w0 Hok)
          as [d5 ->]
    end.
    (* proxy, final listing *)
    unfold bind at 1. unfold setup_nginx, call at 1. rewrite Hsetup.
    unfold bind at 1. unfold reload_nginx, call at 1. rewrite Hreload.
    unfold bench_execute, run_command. cbv zeta.
    match goal with
    | |- context [on_command env ?tr] =>
        destruct (on_command env tr) as [out|bad] eqn:Hlast;
          [| destruct (Hok tr) as [d Hd]; congruence]
    end.
    exists out. eexists. split; [reflexivity |]. split.
    - cbn [trace tick log] in Ht7. cbn [trace tick log]. rewrite Ht7.
      rewrite <- !app_assoc. cbn [app]. reflexivity.
    - exact Hlast. }
  destruct Hrun as (cmd & out & w' & Hrun & Htr & Hlast).
  exists cmd, out. split; [now rewrite Hrun |].
  assert (Hnew :
    new_events (restore_job env self apps pw admin db pub priv skip) w
    = skipn (length (trace w)) (trace w')).
  { unfold new_events. now rewrite Hrun. }
  rewrite Hnew, Htr, drop_app_length. split; [reflexivity |].
  rewrite <- Htr. exact Hlast.
Qed.

End RestoreJobSequence.

Lemma sample_collaborators_return :
  collaborators_return
    (Sample.env_with (fun _ => Sample.done "[...]") [] ["frappe"; "hr"])
    {| dl_directory := "/tmp/dl"; dl_database := "/tmp/dl/db.sql.gz";
       dl_public := ""; dl_private := "" |}
    ("", "tmp_user", "tmp_pw") ["frappe"; "hr"].
Proof.
  repeat split. intros tr. eexists. reflexivity.
Qed.

Lemma restore_job_sequence_witness :
  let env := Sample.env_with (fun _ => Sample.done "[...]") []
               ["frappe"; "hr"] in
  fst (restore_job env Sample.site ["frappe"] "root" "admin"
         "https://x/db.sql.gz" "" "" true (Sample.world_with ∅))
  = Ok {| output := "[...]"; duration := 250 |}.
Proof.
  intros env.
  destruct (restore_job_sequence env Sample.site ["frappe"] "root" "admin"
              "https://x/db.sql.gz" "" "" true (Sample.world_with ∅)
              _ _ _ sample_collaborators_return)
    as (cmd & out & Hres & _ & Hlast).
  rewrite Hres. f_equal.
  cbn in Hlast. now injection Hlast as <-.
Defined.
